(** * msmart: cloud client and heat-pump (C3) device session

    A shallow embedding of [msmart/cloud.py] and [msmart/device/C3/device.py]
    together with the properties their specification states about them.

    Python values are modelled by [pyval]; a method that can raise is a
    computation in the state-and-exception monad [M]; everything the program
    reads from outside (HTTP replies, the clock, the random source, the JSON
    codec, the [msmart.security] primitives, the LAN transport) is a field of
    an environment class, so the definitions stay executable. *)

From Stdlib Require Import ZArith QArith Ascii String List Lia.
From stdpp Require Import gmap strings list fin_maps pretty.

Set Warnings "-register-all".
#[local] Open Scope Z_scope.

(** ** Python values *)

(** The values that flow through the two modules: what [json.loads] returns,
    what goes into request bodies and headers, and what attributes of a
    decoded response hold. A finite [float] is a rational [PyFloat]; the
    infinities and the NaN, which [json.loads] gives for [1e999],
    [Infinity], [-Infinity] and [NaN], are [PyInfinity] and [PyNaN]. A
    [dict] with string keys is a finite map; an instance of a class is
    [PyObj] of its attribute dictionary, and a member of an [IntEnum] is the
    integer it is. *)
Inductive pyval :=
| PyNone
| PyBool (b : bool)
| PyInt (n : Z)
| PyFloat (q : Q)
| PyStr (s : string)
| PyList (l : list pyval)
| PyDict (d : gmap string pyval)
| PyObj (attrs : gmap string pyval)
| PyInfinity (negative : bool)
| PyNaN.

(** Truth value of an object, as tested by [if x] and [x and y]. *)
Definition truthy (v : pyval) : bool :=
  match v with
  | PyNone => false
  | PyBool b => b
  | PyInt n => negb (Z.eqb n 0)
  | PyFloat q => negb (Z.eqb (Qnum q) 0)
  | PyStr s => negb (Nat.eqb (String.length s) 0)
  | PyList l => negb (Nat.eqb (List.length l) 0)
  | PyDict d => negb (Nat.eqb (size d) 0)
  | PyObj _ => true
  | PyInfinity _ => true
  | PyNaN => true
  end.

(** ** Exceptions and the result of a call *)

Inductive exception :=
| TimeoutException (kind : string)   (* httpx.TimeoutException and its subclasses *)
| HTTPStatusError                    (* raised by [Response.raise_for_status] *)
| NetworkError (kind : string)       (* any other exception out of [client.post] *)
| JSONDecodeError
| KeyError (key : string)
| TypeError
| ValueError
| AttributeError (name : string)
| AssertionError
| ApiError (message : pyval) (code : Z)   (* cloud.ApiError *)
| InvalidFrameException                   (* msmart.frame.InvalidFrameException *)
| OverflowError.

(** A call returns, raises, or (awaiting a lock nobody will release) never
    resumes. *)
Inductive result (A : Type) :=
| Return (a : A)
| Raise (e : exception)
| Blocked.
Arguments Return {A} a.
Arguments Raise {A} e.
Arguments Blocked {A}.

(** The outcome of a library call that returns a value or raises. *)
Definition returned {A} (r : exception + A) : result A :=
  match r with
  | inl e => Raise e
  | inr a => Return a
  end.

(** Sequencing of calls that touch no state. *)
Definition result_bind {A B} (r : result A) (k : A -> result B) : result B :=
  match r with
  | Return a => k a
  | Raise e => Raise e
  | Blocked => Blocked
  end.

(** ** The state-and-exception monad *)

Definition M (S A : Type) : Type := S -> result A * S.

Definition ret {S A} (a : A) : M S A := fun s => (Return a, s).
Definition raise {S A} (e : exception) : M S A := fun s => (Raise e, s).
Definition bind {S A B} (m : M S A) (k : A -> M S B) : M S B :=
  fun s =>
    match m s with
    | (Return a, s') => k a s'
    | (Raise e, s') => (Raise e, s')
    | (Blocked, s') => (Blocked, s')
    end.
Definition get {S} : M S S := fun s => (Return s, s).
Definition put {S} (s : S) : M S unit := fun _ => (Return tt, s).
Definition modify {S} (f : S -> S) : M S unit := fun s => (Return tt, f s).
Definition lift {S A} (r : result A) : M S A := fun s => (r, s).

(** [try: m except h]: the handler sees the exception and the state the body
    left behind. *)
Definition try_except {S A} (m : M S A) (h : exception -> M S A) : M S A :=
  fun s =>
    match m s with
    | (Raise e, s') => h e s'
    | r => r
    end.

(** [try: m finally: f], which is also what leaving a [with] block does. *)
Definition try_finally {S A} (m : M S A) (f : M S unit) : M S A :=
  fun s =>
    match m s with
    | (Blocked, s') => (Blocked, s')
    | (r, s') =>
        match f s' with
        | (Return _, s'') => (r, s'')
        | (Raise e, s'') => (Raise e, s'')
        | (Blocked, s'') => (Blocked, s'')
        end
    end.

Declare Scope py_scope.
Delimit Scope py_scope with py.
Notation "x <- m ;; k" := (bind m (fun x => k))
  (at level 100, m at next level, right associativity) : py_scope.
Notation "m ;;; k" := (bind m (fun _ => k))
  (at level 100, right associativity) : py_scope.
Notation "x <~ r ;; k" := (result_bind r (fun x => k))
  (at level 100, r at next level, right associativity) : py_scope.
#[local] Open Scope py_scope.

(** ** Operations on Python values *)

(** [v[k]] for a string key. *)
Definition subscript (v : pyval) (k : string) : result pyval :=
  match v with
  | PyDict d =>
      match d !! k with
      | Some x => Return x
      | None => Raise (KeyError k)
      end
  | _ => Raise TypeError
  end.

(** The items a [for] loop draws from [v]. Iterating a dict yields its keys
    and iterating a string its characters; in both cases every item is a
    string. *)
Definition chars (s : string) : list pyval :=
  (fun c => PyStr (String c EmptyString)) <$> list_ascii_of_string s.

Definition py_iter (v : pyval) : result (list pyval) :=
  match v with
  | PyList l => Return l
  | PyDict d => Return (PyStr <$> (map_to_list d).*1)
  | PyStr s => Return (chars s)
  | _ => Raise TypeError
  end.

(** [x == s] for a string [s]: a string equals only an equal string. *)
Definition eq_str (x : pyval) (s : string) : bool :=
  match x with
  | PyStr t => String.eqb t s
  | _ => false
  end.

(** A number seen as a dictionary key or enumeration value: [True == 1] and
    [1.0 == 1]. *)
Definition integral (v : pyval) : option Z :=
  match v with
  | PyInt n => Some n
  | PyBool b => Some (if b then 1 else 0)
  | PyFloat q =>
      if Z.eqb (Qnum q mod Z.pos (Qden q)) 0 then Some (Qnum q / Z.pos (Qden q)) else None
  | _ => None
  end.

(** [int(v)]; [int_of_str] is the builtin's parsing of a string. A finite
    float is truncated towards zero; an infinity cannot be converted
    ([OverflowError]), nor can a NaN ([ValueError]). *)
Definition py_int (int_of_str : string -> option Z) (v : pyval) : result Z :=
  match v with
  | PyInt n => Return n
  | PyBool b => Return (if b then 1 else 0)
  | PyFloat q => Return (Z.quot (Qnum q) (Z.pos (Qden q)))
  | PyStr s =>
      match int_of_str s with
      | Some n => Return n
      | None => Raise ValueError
      end
  | PyInfinity _ => Raise OverflowError
  | PyNaN => Raise ValueError
  | _ => Raise TypeError
  end.

(** ** The clock *)

(** A [datetime]; the class keeps [1 <= year <= 9999], [1 <= month <= 12]
    and so on. *)
Record datetime := {
  year : Z; month : Z; day : Z; hour : Z; minute : Z; second : Z }.

Definition digit (n : Z) : ascii := ascii_of_nat (48 + Z.to_nat (n mod 10)).

(** A zero-padded field of two, respectively four, decimal digits. *)
Definition pad2 (n : Z) : string :=
  String (digit (n / 10)) (String (digit n) EmptyString).
Definition pad4 (n : Z) : string :=
  String (digit (n / 1000)) (String (digit (n / 100)) (pad2 n)).

(** [d.strftime("%Y%m%d%H%M%S")]. *)
Definition strftime (d : datetime) : string :=
  pad4 (year d) +:+ pad2 (month d) +:+ pad2 (day d)
  +:+ pad2 (hour d) +:+ pad2 (minute d) +:+ pad2 (second d).

(** ** HTTP *)

Record http_request := {
  url : string;
  headers : gmap string pyval;
  content : string }.

(** What the client reads off a reply: whether [raise_for_status] raises,
    and the body text. *)
Record http_response := {
  status_error : bool;
  text : string }.

Inductive http_outcome :=
| Responded (r : http_response)
| PostRaised (e : exception).

(** ** Observable events *)

Inductive event :=
| EvNow
| EvTokenHex (value : string)
| EvTokenUrlsafe (value : string)
| EvJsonDumps (body : pyval)
| EvNewSign (contents random : string)
| EvLockAcquire
| EvLockRelease
| EvPost (req : http_request).

(** The part of the outside world a client run changes: the log of what it
    did, and how many times it read the clock and the random source. *)
Record World := {
  trace : list event;
  ticks : nat;
  draws : nat }.

Definition log (e : event) (w : World) : World :=
  {| trace := trace w ++ [e]; ticks := ticks w; draws := draws w |}.

Definition requests (tr : list event) : list http_request :=
  omap (fun e => match e with EvPost r => Some r | _ => None end) tr.

(** ** The environment of the cloud client *)

Class CloudEnv := {
  (** [datetime.now()], by the number of earlier readings *)
  now : nat -> datetime;
  (** [secrets.token_hex(nbytes)], by the number of earlier draws *)
  token_hex : nat -> Z -> string;
  (** [secrets.token_urlsafe(nbytes)] *)
  token_urlsafe : nat -> Z -> string;
  json_dumps : pyval -> string;
  (** [json.loads]; [None] is a [JSONDecodeError] *)
  json_loads : string -> option pyval;
  int_of_str : string -> option Z;
  (** [msmart.security.security]; the two password helpers are handed the
      login id as the server sent it, and return a string or raise *)
  new_sign : string -> string -> string;
  encrypt_iam_password : pyval -> string -> exception + string;
  encryptPassword : pyval -> string -> exception + string;
  (** [httpx.AsyncClient.post], by the number of earlier POSTs *)
  post_outcome : nat -> http_request -> http_outcome }.

(** ** The cloud client: [msmart/cloud.py] *)

Module Cloud.

(** The attributes of a [Cloud] object. [_api_lock] is the state of its
    [asyncio.Lock]; the [security()] helper has no state of its own. *)
Record t := {
  _account : string;
  _password : string;
  _login_id : pyval;
  _session : pyval;
  _access_token : pyval;
  _api_lock : bool;
  _base_url : string }.

Definition set_login_id (v : pyval) (c : t) : t :=
  {| _account := _account c; _password := _password c; _login_id := v;
     _session := _session c; _access_token := _access_token c;
     _api_lock := _api_lock c; _base_url := _base_url c |}.
Definition set_session (v : pyval) (c : t) : t :=
  {| _account := _account c; _password := _password c; _login_id := _login_id c;
     _session := v; _access_token := _access_token c;
     _api_lock := _api_lock c; _base_url := _base_url c |}.
Definition set_access_token (v : pyval) (c : t) : t :=
  {| _account := _account c; _password := _password c; _login_id := _login_id c;
     _session := _session c; _access_token := v;
     _api_lock := _api_lock c; _base_url := _base_url c |}.
Definition set_api_lock (b : bool) (c : t) : t :=
  {| _account := _account c; _password := _password c; _login_id := _login_id c;
     _session := _session c; _access_token := _access_token c;
     _api_lock := b; _base_url := _base_url c |}.

(** Misc constants for the API *)
Definition CLIENT_TYPE : Z := 1.
Definition FORMAT : Z := 2.
Definition LANGUAGE : string := "en_US".
Definition APP_ID : string := "1010".
Definition SRC : string := "1010".
Definition DEVICE_ID : string := "c1acad8939ac0d7d".

(** Base URLs *)
Definition BASE_URL : string := "https://mp-prod.appsmb.com".
Definition BASE_URL_CHINA : string := "https://mp-prod.smartmidea.net".

(** Default number of request retries *)
Definition RETRIES : Z := 3.

(** [os.getenv(name, dflt)] over the process environment. *)
Definition getenv (environ : gmap string string) (name dflt : string) : string :=
  default dflt (environ !! name).

Definition __init__ (environ : gmap string string)
    (account password : string) (use_china_server : bool) : t :=
  let use_china_server :=
    if String.eqb (getenv environ "USE_CHINA_SERVER" "0") "1" then true
    else use_china_server in
  {| _account := account;
     _password := password;
     _login_id := PyNone;
     _session := PyDict ∅;
     _access_token := PyStr "";
     _api_lock := false;
     _base_url := if use_china_server then BASE_URL_CHINA else BASE_URL |}.

(** A client in the world it runs in. *)
Record state := { self : t; world : World }.

Definition on_self (f : t -> t) (s : state) : state :=
  {| self := f (self s); world := world s |}.
Definition on_world (f : World -> World) (s : state) : state :=
  {| self := self s; world := f (world s) |}.

Section WithEnv.
Context `{CloudEnv}.

(** *** Library calls, with their effect on the world *)

Definition datetime_now : M state datetime :=
  fun s =>
    let w := world s in
    (Return (now (ticks w)),
     on_world (fun _ => log EvNow
                 {| trace := trace w; ticks := S (ticks w); draws := draws w |}) s).

Definition secrets_token_hex (nbytes : Z) : M state string :=
  fun s =>
    let w := world s in
    let v := token_hex (draws w) nbytes in
    (Return v,
     on_world (fun _ => log (EvTokenHex v)
                 {| trace := trace w; ticks := ticks w; draws := S (draws w) |}) s).

Definition secrets_token_urlsafe (nbytes : Z) : M state string :=
  fun s =>
    let w := world s in
    let v := token_urlsafe (draws w) nbytes in
    (Return v,
     on_world (fun _ => log (EvTokenUrlsafe v)
                 {| trace := trace w; ticks := ticks w; draws := S (draws w) |}) s).

Definition dumps (body : pyval) : M state string :=
  fun s =>
    (Return (json_dumps body), on_world (log (EvJsonDumps body)) s).

Definition security_new_sign (contents random : string) : M state string :=
  fun s => (Return (new_sign contents random),
            on_world (log (EvNewSign contents random)) s).

(** [await client.post(url, headers=headers, content=contents)] *)
Definition client_post (req : http_request) : M state http_response :=
  fun s =>
    let k := length (requests (trace (world s))) in
    let s' := on_world (log (EvPost req)) s in
    match post_outcome k req with
    | Responded r => (Return r, s')
    | PostRaised e => (Raise e, s')
    end.

Definition raise_for_status (r : http_response) : M state unit :=
  if status_error r then raise HTTPStatusError else ret tt.

(** Entering and leaving [async with self._api_lock]. A single
    coroutine that finds the lock taken waits for good. *)
Definition lock_acquire : M state unit :=
  fun s =>
    if _api_lock (self s) then (Blocked, s)
    else (Return tt, on_world (log EvLockAcquire) (on_self (set_api_lock true) s)).

Definition lock_release : M state unit :=
  modify (fun s => on_world (log EvLockRelease) (on_self (set_api_lock false) s)).

Definition with_api_lock {A} (body : M state A) : M state A :=
  lock_acquire ;;; try_finally body lock_release.

(** *** Methods *)

Definition _timestamp : M state string :=
  d <- datetime_now ;;
  ret (strftime d).

(** Parse a response from the API. *)
Definition _parse_response (response : http_response) : result pyval :=
  body <~ match json_loads (text response) with
          | Some b => Return b
          | None => Raise JSONDecodeError
          end ;;
  c <~ subscript body "code" ;;
  response_code <~ py_int int_of_str c ;;
  if Z.eqb response_code 0 then subscript body "data"
  else
    msg <~ subscript body "msg" ;;
    Raise (ApiError msg response_code).

(** The [while retries > 0] loop of [_post_request]; [retries] counts
    down to zero, so it is the recursion's measure. *)
Fixpoint post_loop (retries : nat) (req : http_request) : M state pyval :=
  match retries with
  | O => ret PyNone
  | S retries' =>
      try_except
        (r <- client_post req ;;
         raise_for_status r ;;;
         lift (_parse_response r))
        (fun e =>
           match e with
           | TimeoutException _ =>
               match retries' with
               | O => raise e
               | S _ => post_loop retries' req
               end
           | _ => raise e
           end)
  end.

(** Post a request to the API. *)
Definition _post_request (url : string) (headers : gmap string pyval)
    (contents : string) (retries : Z) : M state pyval :=
  post_loop (Z.to_nat retries)
    {| url := url; headers := headers; content := contents |}.

(** Make a request to the Midea cloud return the results. *)
Definition _api_request (endpoint : string) (body : pyval) : M state pyval :=
  contents <- dumps body ;;
  random <- secrets_token_hex 16 ;;
  sign <- security_new_sign contents random ;;
  s <- get ;;
  let headers : gmap string pyval :=
    <["Content-Type" := PyStr "application/json"]>
    (<["secretVersion" := PyStr "1"]>
    (<["sign" := PyStr sign]>
    (<["random" := PyStr random]>
    (<["accessToken" := _access_token (self s)]> ∅)))) in
  let url := _base_url (self s) +:+ "/mas/v5/app/proxy?alias=" +:+ endpoint in
  with_api_lock (_post_request url headers contents RETRIES).

(** Build a request body. *)
Definition _build_request_body (data : gmap string pyval) : M state pyval :=
  stamp <- _timestamp ;;
  reqId <- secrets_token_hex 16 ;;
  let body : gmap string pyval :=
    <["appId" := PyStr APP_ID]>
    (<["format" := PyInt FORMAT]>
    (<["clientType" := PyInt CLIENT_TYPE]>
    (<["language" := PyStr LANGUAGE]>
    (<["src" := PyStr SRC]>
    (<["stamp" := PyStr stamp]>
    (<["deviceId" := PyStr DEVICE_ID]>
    (<["reqId" := PyStr reqId]> ∅))))))) in
  (* body.update(data) *)
  ret (PyDict (data ∪ body)).

Definition assert_is_not_None (v : pyval) : M state unit :=
  match v with
  | PyNone => raise AssertionError
  | _ => ret tt
  end.

(** Get a login ID for the cloud account. *)
Definition _get_login_id : M state pyval :=
  s <- get ;;
  body <- _build_request_body {[ "loginAccount" := PyStr (_account (self s)) ]} ;;
  response <- _api_request "/v1/user/login/id/get" body ;;
  assert_is_not_None response ;;;
  lift (subscript response "loginId").

(** The body of the login call, given what the two password helpers, the
    random source and the clock returned. *)
Definition login_body (c : t) (iampwd password pushToken reqId stamp : string)
    : pyval :=
  PyDict
    (<["data" := PyDict
         (<["platform" := PyInt FORMAT]>
         (<["deviceId" := PyStr DEVICE_ID]> ∅))]>
    (<["iotData" := PyDict
         (<["appId" := PyStr APP_ID]>
         (<["clientType" := PyInt CLIENT_TYPE]>
         (<["iampwd" := PyStr iampwd]>
         (<["loginAccount" := PyStr (_account c)]>
         (<["password" := PyStr password]>
         (<["pushToken" := PyStr pushToken]>
         (<["reqId" := PyStr reqId]>
         (<["src" := PyStr SRC]>
         (<["stamp" := PyStr stamp]> ∅)))))))))]> ∅)).

(** Login to the cloud API. *)
Definition login (force : bool) : M state unit :=
  s <- get ;;
  (* Don't login if session already exists *)
  if truthy (_session (self s)) && negb force then ret tt
  else
    (* Get a login ID if we don't have one *)
    (match _login_id (self s) with
     | PyNone =>
         login_id <- _get_login_id ;;
         modify (on_self (set_login_id login_id))
     | _ => ret tt
     end) ;;;
    (* Build the login data *)
    s <- get ;;
    iampwd <- lift (returned (encrypt_iam_password (_login_id (self s))
                                (_password (self s)))) ;;
    password <- lift (returned (encryptPassword (_login_id (self s))
                                  (_password (self s)))) ;;
    pushToken <- secrets_token_urlsafe 120 ;;
    reqId <- secrets_token_hex 16 ;;
    stamp <- _timestamp ;;
    s <- get ;;
    (* Login and store the session *)
    response <- _api_request "/mj/user/login"
                  (login_body (self s) iampwd password pushToken reqId stamp) ;;
    assert_is_not_None response ;;;
    modify (on_self (set_session response)) ;;;
    mdata <- lift (subscript response "mdata") ;;
    accessToken <- lift (subscript mdata "accessToken") ;;
    modify (on_self (set_access_token accessToken)).

(** The [for token in ...] loop of [get_token]. *)
Fixpoint scan_tokenlist (tokens : list pyval) (udpid : string)
    : M state (pyval * pyval) :=
  match tokens with
  | [] => ret (PyNone, PyNone)   (* No matching udpId in the tokenlist *)
  | token :: rest =>
      u <- lift (subscript token "udpId") ;;
      if eq_str u udpid then
        tk <- lift (subscript token "token") ;;
        key <- lift (subscript token "key") ;;
        ret (tk, key)
      else scan_tokenlist rest udpid
  end.

(** Get token and key for the provided udpid. *)
Definition get_token (udpid : string) : M state (pyval * pyval) :=
  body <- _build_request_body {[ "udpid" := PyStr udpid ]} ;;
  response <- _api_request "/v1/iot/secure/getToken" body ;;
  assert_is_not_None response ;;;
  tokenlist <- lift (subscript response "tokenlist") ;;
  tokens <- lift (py_iter tokenlist) ;;
  scan_tokenlist tokens udpid.

End WithEnv.

End Cloud.

(** ** Commands: [msmart/device/C3/command.py] *)

Inductive QueryType :=
| QUERY_BASIC | QUERY_DAY_TIMER | QUERY_WEEKS_TIMER | QUERY_HOLIDAY_AWAY
| QUERY_SILENCE | QUERY_HOLIDAY_HOME | QUERY_ECO | QUERY_INSTALL
| QUERY_DISINFECT.

Definition QueryType_value (q : QueryType) : Z :=
  match q with
  | QUERY_BASIC => 1 | QUERY_DAY_TIMER => 2 | QUERY_WEEKS_TIMER => 3
  | QUERY_HOLIDAY_AWAY => 4 | QUERY_SILENCE => 5 | QUERY_HOLIDAY_HOME => 6
  | QUERY_ECO => 7 | QUERY_INSTALL => 8 | QUERY_DISINFECT => 9
  end.

(** The query commands; each is a [QueryCommand] built with its type. *)
Inductive Command := QueryBasicCommand | QueryEcoCommand.

Definition Command_type (c : Command) : QueryType :=
  match c with
  | QueryBasicCommand => QUERY_BASIC
  | QueryEcoCommand => QUERY_ECO
  end.

Definition Command_payload (c : Command) : list Z :=
  [QueryType_value (Command_type c)].

(** ** What the device module imports from the rest of the package *)

(** Modelled from the spec: [msmart.const.DeviceType] is not among the
    sources; the system talks to air conditioners and heat pumps. *)
Inductive DeviceType := AIR_CONDITIONER | HEAT_PUMP.

(** A keyword argument of a device constructor. *)
Inductive kwarg :=
| KwVal (v : pyval)
| KwDeviceType (d : DeviceType).

(** Modelled from the spec: the [Response] classes are not among the
    sources. A response is built once from raw bytes, carries the
    message-type tag and the payload, and owns the fields of the query it
    answers; the device reads those by attribute name. *)
Record Response := {
  type : Z;
  payload : list Z;
  fields : gmap string pyval }.

Class LanEnv := {
  (** [Device.__init__] of [msmart.base_device]: from its keyword arguments
      to the attributes of the new object *)
  Device_init : gmap string kwarg -> result (gmap string pyval);
  (** [Device._send_command], by the number of earlier sends: [None], or the
      datagrams received *)
  Device_send_command : nat -> Command -> option (list (list Z));
  (** [Response.construct] *)
  Response_construct : list Z -> result Response }.

(** ** The heat pump: [msmart/device/C3/device.py] *)

Module HeatPump.

Inductive RunMode := AUTO | COOL | HEAT | DHW.
Definition RunMode_value (m : RunMode) : Z :=
  match m with AUTO => 1 | COOL => 2 | HEAT => 3 | DHW => 5 end.

Inductive TerminalType := FAN_COIL | FLOOR_HEAT | RADIATOR.
Definition TerminalType_value (t : TerminalType) : Z :=
  match t with FAN_COIL => 0 | FLOOR_HEAT => 1 | RADIATOR => 2 end.

Inductive TemperatureType := AIR | WATER.
Definition TemperatureType_value (t : TemperatureType) : Z :=
  match t with AIR => 0 | WATER => 1 end.

(** [HeatPump.RunMode(v)]: the member with that value, or [ValueError]. *)
Definition RunMode_of (v : pyval) : result RunMode :=
  match integral v with
  | Some 1 => Return AUTO
  | Some 2 => Return COOL
  | Some 3 => Return HEAT
  | Some 5 => Return DHW
  | _ => Raise ValueError
  end.

(** [HeatPump.TemperatureType(v)] *)
Definition TemperatureType_of (v : pyval) : result TemperatureType :=
  match integral v with
  | Some 0 => Return AIR
  | Some 1 => Return WATER
  | _ => Raise ValueError
  end.

(** [HeatPump.Zone()]: a zone within the heat pump system. *)
Definition Zone__init__ : gmap string pyval :=
  <["_power_state" := PyBool false]>
  (<["_curve_state" := PyBool false]>
  (<["_temperature_type" := PyNone]>
  (<["_terminal_type" := PyNone]>
  (<["_target_temperature" := PyInt 25]>
  (<["_min_heat_temperature" := PyInt 25]>
  (<["_max_heat_temperature" := PyInt 55]>
  (<["_min_cool_temperature" := PyInt 5]>
  (<["_max_cool_temperature" := PyInt 25]> ∅)))))))).

(** The attributes [__init__] sets after the base constructor ran, the
    first assignment innermost. *)
Definition own_attributes (base : gmap string pyval) : gmap string pyval :=
  <["_tank_temperature" := PyNone]>
  (<["_fastdhw_state" := PyBool false]>
  (<["_tbh_state" := PyBool false]>
  (<["_room_max_temperature" := PyInt 30]>
  (<["_room_min_temperature" := PyInt 17]>
  (<["_room_target_temperature" := PyInt 25]>
  (<["_room_termostate_power_state" := PyBool false]>
  (<["_room_thermostat_enable" := PyBool false]>
  (<["_dhw_max_temperature" := PyInt 60]>
  (<["_dhw_min_temperature" := PyInt 20]>
  (<["_dhw_target_temperature" := PyInt 25]>
  (<["_dhw_power_state" := PyBool false]>
  (<["_dhw_enable" := PyBool false]>
  (<["_zone_2" := PyObj Zone__init__]>
  (<["_zone_1" := PyObj Zone__init__]>
  (<["_zone2_enable" := PyBool false]>
  (<["_cool_enable" := PyBool false]>
  (<["_heat_enable" := PyBool false]>
  (<["_run_mode" := PyNone]> base)))))))))))))))))).

(** A call with the keywords [explicit] written out and the dictionary
    [kwargs] unpacked after them: a keyword given twice is a [TypeError]. *)
Definition call_kwargs (explicit kwargs : gmap string kwarg)
    : result (gmap string kwarg) :=
  if bool_decide (explicit ##ₘ kwargs) then Return (explicit ∪ kwargs)
  else Raise TypeError.

(** The keyword arguments [__init__] hands to [super().__init__]. *)
Definition super_init_args (ip : string) (device_id port : Z)
    (kwargs : gmap string kwarg) : result (gmap string kwarg) :=
  (* Remove possible duplicate device_type kwarg *)
  let kwargs := delete "device_type" kwargs in
  call_kwargs
    (<["ip" := KwVal (PyStr ip)]>
    (<["port" := KwVal (PyInt port)]>
    (<["device_id" := KwVal (PyInt device_id)]>
    (<["device_type" := KwDeviceType HEAT_PUMP]> ∅))))
    kwargs.

(** A device and the number of commands sent so far. *)
Record state := { self : gmap string pyval; sends : nat }.

Definition setattr (name : string) (v : pyval) : M state unit :=
  modify (fun s => {| self := <[name := v]> (self s); sends := sends s |}).

Definition getattr_self (name : string) : M state pyval :=
  fun s =>
    match self s !! name with
    | Some v => (Return v, s)
    | None => (Raise (AttributeError name), s)
    end.

(** [getattr(res, name)], also written [res.name]. *)
Definition getattr (res : Response) (name : string) : result pyval :=
  match fields res !! name with
  | Some v => Return v
  | None => Raise (AttributeError name)
  end.

(** [zone.name = v] for the zone object held in attribute [zone] of the
    device. *)
Definition zone_setattr (zone name : string) (v : pyval) : M state unit :=
  z <- getattr_self zone ;;
  match z with
  | PyObj attrs => setattr zone (PyObj (<[name := v]> attrs))
  | _ => raise (AttributeError name)
  end.

Section WithEnv.
Context `{LanEnv}.

Definition __init__ (ip : string) (device_id port : Z)
    (kwargs : gmap string kwarg) : result (gmap string pyval) :=
  match super_init_args ip device_id port kwargs with
  | Return args =>
      match Device_init args with
      | Return base => Return (own_attributes base)
      | Raise e => Raise e
      | Blocked => Blocked
      end
  | Raise e => Raise e
  | Blocked => Blocked
  end.

(** [self.dst = res.src] *)
Definition copy (res : Response) (dst src : string) : M state unit :=
  v <- lift (getattr res src) ;;
  setattr dst v.

(** [zone.dst = getattr(res, name)], where [name] is the f-string that
    puts the zone number [i] between [zone] and [src] *)
Definition zone_copy (res : Response) (zone : string) (i : Z)
    (dst src : string) : M state unit :=
  v <- lift (getattr res ("zone" +:+ pretty i +:+ src)) ;;
  zone_setattr zone dst v.

(** The body of the loop over the two zones. *)
Definition update_zone (res : Response) (i : Z) (zone : string) : M state unit :=
  zone_copy res zone i "_power_state" "_power_state" ;;;
  zone_copy res zone i "_curve_state" "_curve_state" ;;;
  (v <- lift (getattr res ("zone" +:+ pretty i +:+ "_temp_type)")) ;;
   t <- lift (TemperatureType_of v) ;;
   zone_setattr zone "_temperature_type" (PyInt (TemperatureType_value t))) ;;;
  zone_copy res zone i "_terminal_type" "_terminal_type" ;;;
  zone_copy res zone i "_target_temperature" "_target_temperature" ;;;
  zone_copy res zone i "_min_heat_temperature" "_heat_min_temperature" ;;;
  zone_copy res zone i "_max_heat_temperature" "_heat_max_temperature" ;;;
  zone_copy res zone i "_min_cool_temperature" "_cool_min_temperature" ;;;
  zone_copy res zone i "_max_cool_temperature" "_cool_max_temperature".

Definition _update_state (res : Response) : M state unit :=
  (v <- lift (getattr res "run_mode") ;;
   m <- lift (RunMode_of v) ;;
   setattr "_run_mode" (PyInt (RunMode_value m))) ;;;
  copy res "_heat_enable" "heat_enable" ;;;
  copy res "_cool_enable" "cool_enable" ;;;
  copy res "_zone2_enable" "zone2_enable" ;;;
  (* enumerate([self._zone_1, self._zone_2], start=1) *)
  getattr_self "_zone_1" ;;;
  getattr_self "_zone_2" ;;;
  update_zone res 1 "_zone_1" ;;;
  update_zone res 2 "_zone_2" ;;;
  copy res "_dhw_enable" "dhw_enable" ;;;
  copy res "_dhw_power_state" "dhw_power_state" ;;;
  copy res "_dhw_target_temperature" "dhw_target_temperature" ;;;
  copy res "_dhw_min_temperature" "dhw_min_temperature" ;;;
  copy res "_dhw_max_temperature" "dhw_max_temperature" ;;;
  copy res "_room_thermostat_enable" "room_thermostat_enable" ;;;
  copy res "_room_thermostat_power_state" "room_thermostat_power_state" ;;;
  copy res "_room_thermostat_target_temperature" "room_target_temperature" ;;;
  copy res "_room_thermostat_min_temperature" "room_min_temperature" ;;;
  copy res "_room_thermostat_max_temperature" "room_max_temperature" ;;;
  copy res "_tbh_state" "tbh_state" ;;;
  copy res "_fastdhw_state" "fastdhw_state" ;;;
  copy res "_tank_temperature" "tank_temperature".

(** Update the local state from a device state response. The other
    branch only writes a debug line. *)
Definition _process_state_response (response : Response) : M state unit :=
  if Z.eqb (type response) (QueryType_value QUERY_BASIC)
  then _update_state response
  else ret tt.

(** [await super()._send_command(command)] *)
Definition super_send_command (command : Command)
    : M state (option (list (list Z))) :=
  fun s =>
    (Return (Device_send_command (sends s) command),
     {| self := self s; sends := S (sends s) |}).

(** The [for data in responses] loop; [valid_responses] is returned in
    the order the replies came. *)
Fixpoint collect_responses (responses : list (list Z)) : M state (list Response) :=
  match responses with
  | [] => ret []
  | data :: rest =>
      constructed <-
        try_except
          ((* Construct response from data *)
           response <- lift (Response_construct data) ;;
           ret (Some response))
          (fun e =>
             match e with
             | InvalidFrameException => ret None   (* continue *)
             | _ => raise e
             end) ;;
      match constructed with
      | None => collect_responses rest
      | Some response =>
          (* Device is supported if we can process a response *)
          setattr "_supported" (PyBool true) ;;;
          valid_responses <- collect_responses rest ;;
          ret (response :: valid_responses)
      end
  end.

(** Send a command and return a list of valid response. *)
Definition _send_command_get_responses (command : Command)
    : M state (list Response) :=
  responses <- super_send_command command ;;
  match responses with
  | None =>
      (* No response from device *)
      setattr "_online" (PyBool false) ;;;
      ret []
  | Some responses =>
      (* Device is online if we received any response *)
      setattr "_online" (PyBool true) ;;;
      collect_responses responses
  end.

Fixpoint process_all (responses : list Response) : M state unit :=
  match responses with
  | [] => ret tt
  | response :: rest =>
      _process_state_response response ;;;
      process_all rest
  end.

(** Refresh the local copy of the device state. *)
Definition refresh : M state unit :=
  responses <- _send_command_get_responses QueryBasicCommand ;;
  process_all responses.

End WithEnv.

End HeatPump.

(** ** Command payloads: [msmart/device/C3/command.py] *)

(** [bytes(l)] of a list of integers: every item must be in [range(256)]. *)
Definition py_bytes (l : list Z) : result (list Z) :=
  if forallb (fun x => Z.leb 0 x && Z.ltb x 256) l then Return l
  else Raise ValueError.

(** The [payload] property of a [QueryCommand] built with [type]. *)
Definition QueryCommand_payload (type : QueryType) : result (list Z) :=
  py_bytes [QueryType_value type].

(** ** The command line: [msmart/cli.py] *)

Module Cli.

(** What [_discover] writes to the log. *)
Inductive log_line :=
| InfoVersion
| InfoOnlySupportsAC
| ErrorChinaCredentials
| ErrorNoDevices
| InfoFoundDevice (device : pyval).

(** What [_discover] does that can be seen from outside: log lines and
    calls of [msmart.discover.Discover]. *)
Inductive action :=
| Log (line : log_line)
| Discover (account password : string) (discovery_packets : Z)
| DiscoverSingle (ip account password : string) (discovery_packets : Z).

(** The coroutine runs to its end, or leaves through [exit(status)]. *)
Inductive outcome :=
| Finished
| Exited (status : Z).

(** [msmart.const] and [msmart.discover] are not among the sources. *)
Class Env := {
  OPEN_MIDEA_APP_ACCOUNT : string;
  OPEN_MIDEA_APP_PASSWORD : string;
  (** [Discover.discover]: the devices found *)
  Discover_discover : string -> string -> Z -> list pyval;
  (** [Discover.discover_single]: the device, or [None] *)
  Discover_discover_single : string -> string -> string -> Z -> pyval }.

Section WithEnv.
Context `{Env}.

(** The devices looked for, with the call that looks for them. *)
Definition find_devices (ip : option string) (count : Z)
    (account password : string) : list action * list pyval :=
  match ip with
  | None =>
      ([Discover account password count],
       Discover_discover account password count)
  | Some ip =>
      if String.eqb ip "" then
        ([Discover account password count],
         Discover_discover account password count)
      else
        ([DiscoverSingle ip account password count],
         [Discover_discover_single ip account password count])
  end.

(** Discover Midea devices and print configuration information. *)
Definition _discover (ip : option string) (count : Z)
    (account password : string) (china : bool) : list action * outcome :=
  let header := [Log InfoVersion; Log InfoOnlySupportsAC] in
  if china && (String.eqb account OPEN_MIDEA_APP_ACCOUNT
               || String.eqb password OPEN_MIDEA_APP_PASSWORD)
  then (header ++ [Log ErrorChinaCredentials], Exited 1)
  else
    let (calls, devices) := find_devices ip count account password in
    (header ++ calls
     ++ (if Nat.eqb (length devices) 0 then [Log ErrorNoDevices] else [])
     ++ map (fun device => Log (InfoFoundDevice device)) devices,
     Finished).

End WithEnv.

End Cli.

(** ** Concrete environments *)

(** A small cloud for running the client by evaluation: the server's
    replies are scripted per POST (a read timeout once the script is used
    up), and the codec knows a handful of texts. *)
Module Demo.

Definition envelope (code : Z) (msg : string) (data : pyval) : pyval :=
  PyDict (<["code" := PyInt code]> (<["msg" := PyStr msg]> (<["data" := data]> ∅))).

Definition login_id_reply : pyval :=
  envelope 0 "ok" (PyDict {[ "loginId" := PyStr "L1" ]}).
Definition session_reply : pyval :=
  envelope 0 "ok" (PyDict {[ "mdata" := PyDict {[ "accessToken" := PyStr "T1" ]} ]}).
Definition token_entry (udpid tk key : string) : pyval :=
  PyDict (<["udpId" := PyStr udpid]> (<["token" := PyStr tk]> (<["key" := PyStr key]> ∅))).
Definition tokens_reply : pyval :=
  envelope 0 "ok"
    (PyDict {[ "tokenlist" :=
                 PyList [token_entry "dev0" "tk0" "ky0"; token_entry "dev1" "tk1" "ky1"] ]}).
Definition denied_reply : pyval := envelope 3101 "bad password" PyNone.

Definition loads (s : string) : option pyval :=
  if String.eqb s "id" then Some login_id_reply
  else if String.eqb s "session" then Some session_reply
  else if String.eqb s "tokens" then Some tokens_reply
  else if String.eqb s "denied" then Some denied_reply
  else None.

Definition ok (body : string) : http_outcome :=
  Responded {| status_error := false; text := body |}.
Definition timed_out : http_outcome :=
  PostRaised (TimeoutException "ReadTimeout").

Definition env (script : list http_outcome) : CloudEnv :=
  {| now := fun _ => {| year := 2023; month := 9; day := 4;
                        hour := 7; minute := 5; second := 30 |};
     token_hex := fun k _ => "hex" +:+ pretty k;
     token_urlsafe := fun k _ => "url" +:+ pretty k;
     json_dumps := fun _ => "{}";
     json_loads := loads;
     int_of_str := fun _ => None;
     new_sign := fun contents random => "sig-" +:+ random;
     encrypt_iam_password := fun login_id _ =>
       match login_id with PyStr _ => inr "iam" | _ => inl TypeError end;
     encryptPassword := fun login_id _ =>
       match login_id with PyStr _ => inr "pwd" | _ => inl TypeError end;
     post_outcome := fun k _ => default timed_out (script !! k) |}.

Definition start (c : Cloud.t) : Cloud.state :=
  {| Cloud.self := c;
     Cloud.world := {| trace := []; ticks := 0; draws := 0 |} |}.

Definition fresh : Cloud.state := start (Cloud.__init__ ∅ "user" "secret" false).

(** A client that has logged in before. *)
Definition logged_in : Cloud.state :=
  start (Cloud.set_access_token (PyStr "T0")
          (Cloud.set_session (PyDict {[ "mdata" := PyDict {[ "accessToken" := PyStr "T0" ]} ]})
            (Cloud.set_login_id (PyStr "L0") (Cloud.__init__ ∅ "user" "secret" false)))).

Definition request : http_request :=
  {| url := "https://mp-prod.appsmb.com/mas/v5/app/proxy?alias=/x";
     headers := ∅; content := "{}" |}.

End Demo.

(** * Properties of the cloud client *)

(** ** Generic facts about sequencing *)

Lemma bind_eq_return {S A B} (m : M S A) (k : A -> M S B) s a s' :
  m s = (Return a, s') -> bind m k s = k a s'.
Proof. intros E. unfold bind. by rewrite E. Qed.

(** A relation between the state before and after that every step of a
    computation keeps: it then holds across the whole computation. *)
Section Across.
Context {S : Type} (R : relation S) `{!PreOrder R}.

Definition across {A} (m : M S A) : Prop := forall s, R s (m s).2.

Lemma across_ret {A} (a : A) : across (ret a).
Proof. intros s. reflexivity. Qed.

Lemma across_raise {A} e : across (raise (A := A) e).
Proof. intros s. reflexivity. Qed.

Lemma across_lift {A} (r : result A) : across (lift r).
Proof. intros s. reflexivity. Qed.

Lemma across_get : across get.
Proof. intros s. reflexivity. Qed.

Lemma across_bind {A B} (m : M S A) (k : A -> M S B) :
  across m -> (forall a, across (k a)) -> across (bind m k).
Proof.
  intros Hm Hk s. unfold bind. specialize (Hm s).
  destruct (m s) as [[a|e|] s1]; simpl in *; auto.
  etrans; [exact Hm | apply Hk].
Qed.

Lemma across_try_except {A} (m : M S A) h :
  across m -> (forall e, across (h e)) -> across (try_except m h).
Proof.
  intros Hm Hh s. unfold try_except. specialize (Hm s).
  destruct (m s) as [[a|e|] s1]; simpl in *; auto.
  etrans; [exact Hm | apply Hh].
Qed.

Lemma across_try_finally {A} (m : M S A) f :
  across m -> across f -> across (try_finally m f).
Proof.
  intros Hm Hf s. unfold try_finally. specialize (Hm s).
  destruct (m s) as [[a|e|] s1]; simpl in *; auto;
    specialize (Hf s1); destruct (f s1) as [[[]|e'|] s2]; simpl in *;
    etrans; eauto.
Qed.

Lemma across_if {A} (b : bool) (m1 m2 : M S A) :
  across m1 -> across m2 -> across (if b then m1 else m2).
Proof. by destruct b. Qed.
End Across.

(** ** Choice of the cloud server *)

(** The server a caller asks for with [use_china_server]. *)
Definition requested_url (use_china_server : bool) : string :=
  if use_china_server then Cloud.BASE_URL_CHINA else Cloud.BASE_URL.

(** C7, as stated, fails: with [USE_CHINA_SERVER=1] in the environment a
    caller who passes [use_china_server=False] still gets the China
    server. *)
Lemma base_url_env_overrides_caller :
  Cloud._base_url
    (Cloud.__init__ {[ "USE_CHINA_SERVER" := "1" ]} "user" "secret" false)
  <> requested_url false.
Proof. vm_compute. discriminate. Qed.

(** ** Relations every step of the client keeps *)

(** A preorder between the state before and the state after that the
    library calls and the attribute assignments of the client all respect;
    it then holds across every method. *)
Class Kept `{CloudEnv} (R : relation Cloud.state) := {
  kept_preorder :: PreOrder R;
  kept_now : across R Cloud.datetime_now;
  kept_hex n : across R (Cloud.secrets_token_hex n);
  kept_urlsafe n : across R (Cloud.secrets_token_urlsafe n);
  kept_dumps body : across R (Cloud.dumps body);
  kept_sign contents random : across R (Cloud.security_new_sign contents random);
  kept_post req : across R (Cloud.client_post req);
  kept_acquire : across R Cloud.lock_acquire;
  kept_release : across R Cloud.lock_release;
  kept_set_login_id v : across R (modify (Cloud.on_self (Cloud.set_login_id v)));
  kept_set_session v : across R (modify (Cloud.on_self (Cloud.set_session v)));
  kept_set_access_token v :
    across R (modify (Cloud.on_self (Cloud.set_access_token v))) }.

Ltac keep :=
  repeat lazymatch goal with
    | |- across _ (bind _ _) => apply across_bind; [apply _ | | intros ?]
    | |- across _ (try_except _ _) => apply across_try_except; [apply _ | | intros ?]
    | |- across _ (try_finally _ _) => apply across_try_finally; [apply _ | | ]
    | |- across _ (ret _) => apply across_ret; apply _
    | |- across _ (raise _) => apply across_raise; apply _
    | |- across _ (lift _) => apply across_lift; apply _
    | |- across _ get => apply across_get; apply _
    | |- across _ (if _ then _ else _) => apply across_if
    | |- across _ Cloud.datetime_now => apply kept_now
    | |- across _ (Cloud.secrets_token_hex _) => apply kept_hex
    | |- across _ (Cloud.secrets_token_urlsafe _) => apply kept_urlsafe
    | |- across _ (Cloud.dumps _) => apply kept_dumps
    | |- across _ (Cloud.security_new_sign _ _) => apply kept_sign
    | |- across _ (Cloud.client_post _) => apply kept_post
    | |- across _ Cloud.lock_acquire => apply kept_acquire
    | |- across _ Cloud.lock_release => apply kept_release
    | |- across _ (modify (Cloud.on_self (Cloud.set_login_id _))) =>
        apply kept_set_login_id
    | |- across _ (modify (Cloud.on_self (Cloud.set_session _))) =>
        apply kept_set_session
    | |- across _ (modify (Cloud.on_self (Cloud.set_access_token _))) =>
        apply kept_set_access_token
    end.

Section Kept.
Context `{CloudEnv} (R : relation Cloud.state) `{!Kept R}.

Lemma kept_post_loop n req : across R (Cloud.post_loop n req).
Proof.
  induction n as [|n IH]; simpl; [keep |].
  apply across_try_except; [apply _ | |].
  - keep. unfold Cloud.raise_for_status. destruct (status_error _); keep.
  - intros e. destruct e; keep. destruct n; [keep | exact IH].
Qed.

Lemma kept_api_request endpoint body : across R (Cloud._api_request endpoint body).
Proof.
  unfold Cloud._api_request, Cloud.with_api_lock, Cloud._post_request. keep.
  apply kept_post_loop.
Qed.

End Kept.

(** ** Properties every method inherits *)

(** A property of computations that holds of the library calls, of the
    assignments to the client's attributes and of [_api_request], and that
    sequencing passes on, holds of every method built from them. *)
Class Respected `{CloudEnv} (J : forall A, M Cloud.state A -> Prop) := {
  resp_ret A (a : A) : J A (ret a);
  resp_raise A e : J A (raise e);
  resp_lift A (r : result A) : r <> Blocked -> J A (lift r);
  resp_get : J _ get;
  resp_bind A B (m : M Cloud.state A) (k : A -> M Cloud.state B) :
    J A m -> (forall a, J B (k a)) -> J B (bind m k);
  resp_now : J _ Cloud.datetime_now;
  resp_hex n : J _ (Cloud.secrets_token_hex n);
  resp_urlsafe n : J _ (Cloud.secrets_token_urlsafe n);
  resp_api_request endpoint body : J _ (Cloud._api_request endpoint body);
  resp_set_login_id v : J _ (modify (Cloud.on_self (Cloud.set_login_id v)));
  resp_set_session v : J _ (modify (Cloud.on_self (Cloud.set_session v)));
  resp_set_access_token v :
    J _ (modify (Cloud.on_self (Cloud.set_access_token v))) }.

Lemma subscript_not_blocked v k : subscript v k <> Blocked.
Proof. destruct v; simpl; try done. by destruct (_ !! _). Qed.

Lemma py_iter_not_blocked v : py_iter v <> Blocked.
Proof. by destruct v. Qed.

Lemma returned_not_blocked {A} (r : exception + A) : returned r <> Blocked.
Proof. by destruct r. Qed.

Ltac respect :=
  repeat lazymatch goal with
    | |- _ _ (bind _ _) => apply resp_bind; [| intros ?]
    | |- _ _ (ret _) => apply resp_ret
    | |- _ _ (raise _) => apply resp_raise
    | |- _ _ (lift (subscript _ _)) => apply resp_lift, subscript_not_blocked
    | |- _ _ (lift (py_iter _)) => apply resp_lift, py_iter_not_blocked
    | |- _ _ (lift (returned _)) => apply resp_lift, returned_not_blocked
    | |- _ _ get => apply resp_get
    | |- _ _ Cloud.datetime_now => apply resp_now
    | |- _ _ (Cloud.secrets_token_hex _) => apply resp_hex
    | |- _ _ (Cloud.secrets_token_urlsafe _) => apply resp_urlsafe
    | |- _ _ (Cloud._api_request _ _) => apply resp_api_request
    | |- _ _ (modify (Cloud.on_self (Cloud.set_login_id _))) =>
        apply resp_set_login_id
    | |- _ _ (modify (Cloud.on_self (Cloud.set_session _))) =>
        apply resp_set_session
    | |- _ _ (modify (Cloud.on_self (Cloud.set_access_token _))) =>
        apply resp_set_access_token
    end.

Section Respected.
Context `{CloudEnv} (J : forall A, M Cloud.state A -> Prop) `{!Respected J}.

Lemma resp_build_request_body data : J _ (Cloud._build_request_body data).
Proof. unfold Cloud._build_request_body, Cloud._timestamp. respect. Qed.

Lemma resp_assert v : J _ (Cloud.assert_is_not_None v).
Proof. destruct v; simpl; respect. Qed.

Lemma resp_get_login_id : J _ Cloud._get_login_id.
Proof.
  unfold Cloud._get_login_id. respect.
  - apply resp_build_request_body.
  - apply resp_assert.
Qed.

Lemma resp_login force : J _ (Cloud.login force).
Proof.
  unfold Cloud.login. apply resp_bind; [respect | intros s0].
  destruct (truthy _ && negb force); [respect |].
  apply resp_bind; [| intros _].
  { destruct (Cloud._login_id _); respect; apply resp_get_login_id. }
  unfold Cloud._timestamp. respect. apply resp_assert.
Qed.

Lemma resp_scan tokens udpid : J _ (Cloud.scan_tokenlist tokens udpid).
Proof.
  induction tokens as [|tok rest IH]; simpl; [respect |].
  apply resp_bind; [respect | intros u].
  destruct (eq_str u udpid); [respect | exact IH].
Qed.

Lemma resp_get_token udpid : J _ (Cloud.get_token udpid).
Proof.
  unfold Cloud.get_token. respect.
  - apply resp_build_request_body.
  - apply resp_assert.
  - apply resp_scan.
Qed.

End Respected.

Section KeptMethods.
Context `{CloudEnv} (R : relation Cloud.state) `{!Kept R}.

#[global] Instance kept_respected : Respected (fun A => across R).
Proof.
  split; intros.
  - apply across_ret, _.
  - apply across_raise, _.
  - apply across_lift, _.
  - apply across_get, _.
  - by apply across_bind; [apply _ | |].
  - apply kept_now.
  - apply kept_hex.
  - apply kept_urlsafe.
  - by apply kept_api_request.
  - apply kept_set_login_id.
  - apply kept_set_session.
  - apply kept_set_access_token.
Qed.

Lemma kept_build_request_body data : across R (Cloud._build_request_body data).
Proof. apply (resp_build_request_body (fun A => across R)). Qed.

Lemma kept_assert v : across R (Cloud.assert_is_not_None v).
Proof. apply (resp_assert (fun A => across R)). Qed.

Lemma kept_get_login_id : across R Cloud._get_login_id.
Proof. apply (resp_get_login_id (fun A => across R)). Qed.

Lemma kept_login force : across R (Cloud.login force).
Proof. apply (resp_login (fun A => across R)). Qed.

Lemma kept_scan tokens udpid : across R (Cloud.scan_tokenlist tokens udpid).
Proof. apply (resp_scan (fun A => across R)). Qed.

Lemma kept_get_token udpid : across R (Cloud.get_token udpid).
Proof. apply (resp_get_token (fun A => across R)). Qed.

End KeptMethods.

(** The same, with the methods among the steps. *)
Ltac keep_methods :=
  repeat (keep;
          try (first
                 [ apply kept_api_request | apply kept_build_request_body
                 | apply kept_assert | apply kept_get_login_id | apply kept_scan
                 | apply kept_post_loop ];
               try apply _)).

(** ** Choice of the cloud server, continued *)

Section BaseUrl.
Context `{CloudEnv}.

(** No step of the client assigns [_base_url]. *)
Definition same_url (s s' : Cloud.state) : Prop :=
  Cloud._base_url (Cloud.self s') = Cloud._base_url (Cloud.self s).

#[local] Instance same_url_preorder : PreOrder same_url.
Proof. split; [by intros ? | intros ???; unfold same_url; congruence]. Qed.

#[local] Instance same_url_kept : Kept same_url.
Proof.
  split; try apply _; try (intros; intros ?; reflexivity).
  - intros req s. unfold Cloud.client_post. by destruct (post_outcome _ _).
  - intros s. unfold Cloud.lock_acquire. by destruct (Cloud._api_lock _).
Qed.

(** C7 (amended): the base URL is chosen at construction, and no later call
    changes it; the China server is used when the environment variable
    [USE_CHINA_SERVER] is ["1"] or the caller passes a true
    [use_china_server], so the caller can force the China server whatever
    the environment says, while the environment toggle prevails over an
    explicit [False]. *)
Theorem base_url_chosen_at_construction :
  (forall environ account password use_china_server,
     Cloud._base_url (Cloud.__init__ environ account password use_china_server)
     = requested_url
         (String.eqb (Cloud.getenv environ "USE_CHINA_SERVER" "0") "1"
          || use_china_server))
  /\ (forall environ account password,
        Cloud._base_url (Cloud.__init__ environ account password true)
        = Cloud.BASE_URL_CHINA)
  /\ (forall s force udpid,
        Cloud._base_url (Cloud.self (Cloud.login force s).2)
        = Cloud._base_url (Cloud.self s)
        /\ Cloud._base_url (Cloud.self (Cloud.get_token udpid s).2)
           = Cloud._base_url (Cloud.self s)).
Proof.
  split; [| split].
  - intros environ account password b. unfold Cloud.__init__, requested_url. simpl.
    by destruct (String.eqb _ "1"), b.
  - intros environ account password. unfold Cloud.__init__. simpl.
    by destruct (String.eqb _ "1").
  - intros s force udpid. split; [apply (kept_login same_url) | apply (kept_get_token same_url)].
Qed.

End BaseUrl.

(** ** One request, attempt by attempt *)

Section Posting.
Context `{CloudEnv}.

(** The state after further events were logged. *)
Definition add_events (evs : list event) (s : Cloud.state) : Cloud.state :=
  Cloud.on_world
    (fun w => {| trace := trace w ++ evs; ticks := ticks w; draws := draws w |}) s.

(** The number of POSTs made so far. *)
Definition posted (s : Cloud.state) : nat :=
  length (requests (trace (Cloud.world s))).

(** What one pass through the [try] block of [_post_request] comes to, given
    what the transport did. *)
Definition attempt_result (o : http_outcome) : result pyval :=
  match o with
  | PostRaised e => Raise e
  | Responded r =>
      if status_error r then Raise HTTPStatusError else Cloud._parse_response r
  end.

Definition timed_out_at (k : nat) (req : http_request) : Prop :=
  exists kind, post_outcome k req = PostRaised (TimeoutException kind).

Lemma requests_app tr1 tr2 : requests (tr1 ++ tr2) = requests tr1 ++ requests tr2.
Proof. apply omap_app. Qed.

Lemma add_events_nil s : add_events [] s = s.
Proof.
  destruct s as [c [tr t d]]. unfold add_events, Cloud.on_world. simpl.
  by rewrite app_nil_r.
Qed.

Lemma add_events_app evs1 evs2 s :
  add_events evs2 (add_events evs1 s) = add_events (evs1 ++ evs2) s.
Proof.
  unfold add_events, Cloud.on_world. simpl. by rewrite app_assoc.
Qed.

Lemma posted_add_post req s : posted (add_events [EvPost req] s) = S (posted s).
Proof.
  unfold posted, add_events. simpl. rewrite requests_app, length_app. simpl. lia.
Qed.

Lemma attempt_eq req s :
  (r <- Cloud.client_post req ;;
   Cloud.raise_for_status r ;;;
   lift (Cloud._parse_response r)) s
  = (attempt_result (post_outcome (posted s) req), add_events [EvPost req] s).
Proof.
  unfold bind, Cloud.client_post, attempt_result, posted.
  destruct (post_outcome _ req) as [r|e]; [| reflexivity].
  unfold Cloud.raise_for_status. destruct (status_error r); [reflexivity |].
  unfold ret, lift. by destruct (Cloud._parse_response r).
Qed.

(** One turn of the loop. *)
Lemma post_loop_step n req s :
  Cloud.post_loop (S n) req s
  = match attempt_result (post_outcome (posted s) req) with
    | Raise (TimeoutException kind) =>
        match n with
        | O => (Raise (TimeoutException kind), add_events [EvPost req] s)
        | S _ => Cloud.post_loop n req (add_events [EvPost req] s)
        end
    | r => (r, add_events [EvPost req] s)
    end.
Proof.
  simpl. unfold try_except. rewrite attempt_eq.
  destruct (attempt_result _) as [a|e|]; try reflexivity.
  destruct e; try reflexivity. by destruct n.
Qed.

Lemma attempt_timed_out k req :
  timed_out_at k req ->
  exists kind, attempt_result (post_outcome k req) = Raise (TimeoutException kind).
Proof. intros [kind E]. exists kind. by rewrite E. Qed.

(** Timeouts with retries left only lead to the next attempt. *)
Lemma post_loop_after_timeouts j : forall n req s,
  (forall i, (i < j)%nat -> timed_out_at (posted s + i) req) ->
  (j <= n)%nat ->
  Cloud.post_loop (S n) req s
  = Cloud.post_loop (S (n - j)) req (add_events (repeat (EvPost req) j) s).
Proof.
  induction j as [|j IH]; intros n req s Hto Hle.
  - simpl. by rewrite add_events_nil, Nat.sub_0_r.
  - destruct n as [|n]; [lia |].
    rewrite post_loop_step.
    destruct (attempt_timed_out (posted s) req) as [kind ->].
    { specialize (Hto 0%nat). rewrite Nat.add_0_r in Hto. apply Hto. lia. }
    rewrite IH; [| | lia].
    + rewrite add_events_app. reflexivity.
    + intros i Hi. rewrite posted_add_post.
      replace (S (posted s) + i)%nat with (posted s + S i)%nat by lia.
      apply Hto. lia.
Qed.

Lemma posted_add_posts j req s :
  posted (add_events (repeat (EvPost req) j) s) = (posted s + j)%nat.
Proof.
  unfold posted, add_events. simpl. rewrite requests_app, length_app.
  f_equal. induction j as [|j IH]; simpl; [done | by rewrite IH].
Qed.

Lemma repeat_snoc {A} (x : A) j : repeat x j ++ [x] = repeat x (S j).
Proof. induction j as [|j IH]; simpl; [done | by rewrite IH]. Qed.

(** The call ends with the first attempt that does not time out. *)
Lemma post_loop_ends j n req s r :
  (forall i, (i < j)%nat -> timed_out_at (posted s + i) req) ->
  (j <= n)%nat ->
  attempt_result (post_outcome (posted s + j) req) = r ->
  (forall kind, r <> Raise (TimeoutException kind)) ->
  Cloud.post_loop (S n) req s = (r, add_events (repeat (EvPost req) (S j)) s).
Proof.
  intros Hto Hle Hr Hnt.
  rewrite (post_loop_after_timeouts j) by done.
  rewrite post_loop_step, posted_add_posts, Hr, add_events_app, repeat_snoc.
  destruct r as [a|e|]; try reflexivity.
  destruct e; try reflexivity. by destruct (Hnt kind).
Qed.

(** The call gives up with the timeout of the last attempt. *)
Lemma post_loop_gives_up n req s kind :
  (forall i, (i < n)%nat -> timed_out_at (posted s + i) req) ->
  post_outcome (posted s + n) req = PostRaised (TimeoutException kind) ->
  Cloud.post_loop (S n) req s
  = (Raise (TimeoutException kind), add_events (repeat (EvPost req) (S n)) s).
Proof.
  intros Hto Hlast.
  rewrite (post_loop_after_timeouts n) by done.
  rewrite Nat.sub_diag, post_loop_step, posted_add_posts, Hlast. simpl.
  by rewrite add_events_app, repeat_snoc.
Qed.

End Posting.

(** ** Retries *)

(** C2: a request is attempted [RETRIES] = 3 times when every attempt times
    out, and the (last) timeout is then raised to the caller; when an
    attempt yields a result after fewer than three timeouts, that result is
    returned; any failure other than a timeout is raised by the attempt it
    occurs in, without another attempt. *)
Theorem post_request_retry_bound `{CloudEnv} url hd contents s :
  let req := {| url := url; headers := hd; content := contents |} in
  (forall kind,
     (forall i, (i < 2)%nat -> timed_out_at (posted s + i) req) ->
     post_outcome (posted s + 2) req = PostRaised (TimeoutException kind) ->
     Cloud._post_request url hd contents Cloud.RETRIES s
     = (Raise (TimeoutException kind), add_events (repeat (EvPost req) 3) s))
  /\ (forall j r d,
        (j < 3)%nat ->
        (forall i, (i < j)%nat -> timed_out_at (posted s + i) req) ->
        post_outcome (posted s + j) req = Responded r ->
        status_error r = false ->
        Cloud._parse_response r = Return d ->
        Cloud._post_request url hd contents Cloud.RETRIES s
        = (Return d, add_events (repeat (EvPost req) (S j)) s))
  /\ (forall j e,
        (j < 3)%nat ->
        (forall i, (i < j)%nat -> timed_out_at (posted s + i) req) ->
        attempt_result (post_outcome (posted s + j) req) = Raise e ->
        (forall kind, e <> TimeoutException kind) ->
        Cloud._post_request url hd contents Cloud.RETRIES s
        = (Raise e, add_events (repeat (EvPost req) (S j)) s)).
Proof.
  intros req. unfold Cloud._post_request. change (Z.to_nat Cloud.RETRIES) with 3%nat.
  fold req. split; [| split].
  - intros kind Hto Hlast. by apply post_loop_gives_up.
  - intros j r d Hj Hto Hr Hok Hd. apply post_loop_ends; [done | lia | | done].
    by rewrite Hr; simpl; rewrite Hok.
  - intros j e Hj Hto He Hnt. apply post_loop_ends; [done | lia | done |].
    intros kind [=]. by destruct (Hnt kind).
Qed.

Lemma post_request_retry_bound_witness :
  let req := Demo.request in
  Cloud._post_request (H := Demo.env []) (url req) (headers req) (content req)
    Cloud.RETRIES Demo.fresh
  = (Raise (TimeoutException "ReadTimeout"),
     add_events (repeat (EvPost req) 3) Demo.fresh)
  /\ Cloud._post_request
       (H := Demo.env [Demo.timed_out; Demo.timed_out; Demo.ok "id"])
       (url req) (headers req) (content req) Cloud.RETRIES Demo.fresh
     = (Return (PyDict {[ "loginId" := PyStr "L1" ]}),
        add_events (repeat (EvPost req) 3) Demo.fresh)
  /\ Cloud._post_request (H := Demo.env [Demo.timed_out; Demo.ok "denied"])
       (url req) (headers req) (content req) Cloud.RETRIES Demo.fresh
     = (Raise (ApiError (PyStr "bad password") 3101),
        add_events (repeat (EvPost req) 2) Demo.fresh).
Proof.
  intros req. split; [| split].
  - destruct (post_request_retry_bound (H := Demo.env [])
                (url req) (headers req) (content req) Demo.fresh) as (Hall & _ & _).
    apply Hall.
    + intros i Hi. by exists "ReadTimeout".
    + reflexivity.
  - destruct (post_request_retry_bound
                (H := Demo.env [Demo.timed_out; Demo.timed_out; Demo.ok "id"])
                (url req) (headers req) (content req) Demo.fresh) as (_ & Hsome & _).
    apply (Hsome 2%nat {| status_error := false; text := "id" |}).
    + lia.
    + intros i Hi. exists "ReadTimeout".
      destruct i as [|[|i]]; [reflexivity | reflexivity | lia].
    + reflexivity.
    + reflexivity.
    + vm_compute. reflexivity.
  - destruct (post_request_retry_bound
                (H := Demo.env [Demo.timed_out; Demo.ok "denied"])
                (url req) (headers req) (content req) Demo.fresh) as (_ & _ & Hother).
    apply (Hother 1%nat).
    + lia.
    + intros i Hi. exists "ReadTimeout". destruct i as [|i]; [reflexivity | lia].
    + vm_compute. reflexivity.
    + intros kind. discriminate.
Defined.

(** ** The response envelope *)

(** C3: with an integer [code] in the envelope, a zero code returns [data];
    a nonzero code raises [ApiError] with the server's [msg] and [code], and
    a request that meets it makes no further attempt, whatever retries it
    has left. *)
Theorem parse_response_envelope `{CloudEnv} response body code :
  json_loads (text response) = Some (PyDict body) ->
  body !! "code" = Some (PyInt code) ->
  (code = 0 ->
   forall data, body !! "data" = Some data ->
   Cloud._parse_response response = Return data)
  /\ (code <> 0 ->
      forall msg, body !! "msg" = Some msg ->
      Cloud._parse_response response = Raise (ApiError msg code)
      /\ forall url hd contents retries s,
           0 < retries ->
           post_outcome (posted s) {| url := url; headers := hd; content := contents |}
           = Responded response ->
           status_error response = false ->
           Cloud._post_request url hd contents retries s
           = (Raise (ApiError msg code),
              add_events [EvPost {| url := url; headers := hd; content := contents |}] s)).
Proof.
  intros Hbody Hcode.
  assert (Hparse : Cloud._parse_response response
                   = if Z.eqb code 0 then subscript (PyDict body) "data"
                     else msg <~ subscript (PyDict body) "msg" ;;
                          Raise (ApiError msg code)).
  { unfold Cloud._parse_response. rewrite Hbody. simpl. by rewrite Hcode. }
  split.
  - intros -> data Hdata. rewrite Hparse. simpl. by rewrite Hdata.
  - intros Hnz msg Hmsg.
    assert (Hraise : Cloud._parse_response response = Raise (ApiError msg code)).
    { rewrite Hparse. destruct (Z.eqb_spec code 0) as [|_]; [done |].
      simpl. by rewrite Hmsg. }
    split; [done |].
    intros url hd contents retries s Hpos Hreply Hok.
    unfold Cloud._post_request.
    destruct (Z.to_nat retries) as [|n] eqn:En; [lia |].
    rewrite post_loop_step, Hreply. simpl. by rewrite Hok, Hraise.
Qed.

Lemma parse_response_envelope_witness :
  Cloud._parse_response (H := Demo.env []) {| status_error := false; text := "id" |}
  = Return (PyDict {[ "loginId" := PyStr "L1" ]})
  /\ Cloud._parse_response (H := Demo.env []) {| status_error := false; text := "denied" |}
     = Raise (ApiError (PyStr "bad password") 3101)
  /\ Cloud._post_request (H := Demo.env [Demo.ok "denied"])
       (url Demo.request) (headers Demo.request) (content Demo.request) 3 Demo.fresh
     = (Raise (ApiError (PyStr "bad password") 3101),
        add_events [EvPost Demo.request] Demo.fresh).
Proof.
  split; [| split].
  - destruct (parse_response_envelope (H := Demo.env [])
                {| status_error := false; text := "id" |}
                (<["code" := PyInt 0]> (<["msg" := PyStr "ok"]>
                   (<["data" := PyDict {[ "loginId" := PyStr "L1" ]}]> ∅))) 0)
      as (Hzero & _); [reflexivity | reflexivity |].
    by apply Hzero.
  - destruct (parse_response_envelope (H := Demo.env [])
                {| status_error := false; text := "denied" |}
                (<["code" := PyInt 3101]> (<["msg" := PyStr "bad password"]>
                   (<["data" := PyNone]> ∅))) 3101)
      as (_ & Herr); [reflexivity | reflexivity |].
    by apply Herr.
  - destruct (parse_response_envelope (H := Demo.env [Demo.ok "denied"])
                {| status_error := false; text := "denied" |}
                (<["code" := PyInt 3101]> (<["msg" := PyStr "bad password"]>
                   (<["data" := PyNone]> ∅))) 3101)
      as (_ & Herr); [reflexivity | reflexivity |].
    destruct (Herr ltac:(discriminate) (PyStr "bad password") eq_refl) as (_ & Hpost).
    apply Hpost; [lia | reflexivity | reflexivity].
Defined.

(** ** One API call, event by event *)

Section ApiRequest.
Context `{CloudEnv}.

(** The request [_api_request] posts for a body, given the nonce drawn. *)
Definition api_request_for (c : Cloud.t) (endpoint : string) (body : pyval)
    (random : string) : http_request :=
  {| url := Cloud._base_url c +:+ "/mas/v5/app/proxy?alias=" +:+ endpoint;
     headers :=
       <["Content-Type" := PyStr "application/json"]>
       (<["secretVersion" := PyStr "1"]>
       (<["sign" := PyStr (new_sign (json_dumps body) random)]>
       (<["random" := PyStr random]>
       (<["accessToken" := Cloud._access_token c]> ∅))));
     content := json_dumps body |}.

(** The nonce the next API call will draw. *)
Definition next_nonce (s : Cloud.state) : string :=
  token_hex (draws (Cloud.world s)) 16.

(** What an API call does before it posts anything. *)
Definition envelope_events (s : Cloud.state) (body : pyval) : list event :=
  [EvJsonDumps body; EvTokenHex (next_nonce s);
   EvNewSign (json_dumps body) (next_nonce s)].

(** The state of an API call that has built its envelope. *)
Definition after_envelope (s : Cloud.state) (body : pyval) : Cloud.state :=
  {| Cloud.self := Cloud.self s;
     Cloud.world :=
       {| trace := trace (Cloud.world s) ++ envelope_events s body;
          ticks := ticks (Cloud.world s);
          draws := S (draws (Cloud.world s)) |} |}.

(** The state in which the first POST of an API call is made. *)
Definition during_request (s : Cloud.state) (body : pyval) : Cloud.state :=
  {| Cloud.self := Cloud.set_api_lock true (Cloud.self s);
     Cloud.world :=
       {| trace := trace (Cloud.world s) ++ envelope_events s body ++ [EvLockAcquire];
          ticks := ticks (Cloud.world s);
          draws := S (draws (Cloud.world s)) |} |}.

(** The state an API call leaves after [k] POSTs. *)
Definition after_request (s : Cloud.state) (endpoint : string) (body : pyval)
    (k : nat) : Cloud.state :=
  {| Cloud.self := Cloud.self s;
     Cloud.world :=
       {| trace :=
            trace (Cloud.world s)
            ++ envelope_events s body ++ [EvLockAcquire]
            ++ repeat (EvPost (api_request_for (Cloud.self s) endpoint body (next_nonce s))) k
            ++ [EvLockRelease];
          ticks := ticks (Cloud.world s);
          draws := S (draws (Cloud.world s)) |} |}.

Lemma parse_not_blocked r : Cloud._parse_response r <> Blocked.
Proof.
  unfold Cloud._parse_response.
  destruct (json_loads (text r)) as [b|]; simpl; [| done].
  destruct (subscript b "code") as [c| |] eqn:Ec; simpl; try done.
  - destruct (py_int int_of_str c) as [n| |] eqn:En; simpl; try done.
    + destruct (Z.eqb n 0); [apply subscript_not_blocked |].
      destruct (subscript b "msg") eqn:Em; simpl; try done.
      by apply subscript_not_blocked in Em.
    + destruct c; simpl in En; try done. by destruct (int_of_str s).
  - by apply subscript_not_blocked in Ec.
Qed.

Lemma attempt_not_blocked o : attempt_result o <> Blocked.
Proof.
  destruct o as [r|e]; simpl; [| done].
  destruct (status_error r); [done | apply parse_not_blocked].
Qed.

(** The loop makes between one and [n] POSTs of the same request and
    nothing else. *)
Lemma post_loop_shape n req s :
  exists k r,
    (1 <= k <= S n)%nat /\ r <> Blocked
    /\ Cloud.post_loop (S n) req s = (r, add_events (repeat (EvPost req) k) s).
Proof.
  revert s. induction n as [|n IH]; intros s; rewrite post_loop_step.
  - exists 1%nat.
    destruct (attempt_result _) as [a|e|] eqn:E.
    + exists (Return a). repeat split; (lia || done).
    + exists (Raise e). repeat split; try (lia || done). by destruct e.
    + by apply attempt_not_blocked in E.
  - destruct (attempt_result _) as [a|e|] eqn:E.
    + exists 1%nat, (Return a). repeat split; (lia || done).
    + assert (Hstop : exists k (r : result pyval),
                (1 <= k <= S (S n))%nat /\ r <> Blocked
                /\ (Raise e, add_events [EvPost req] s)
                   = (r, add_events (repeat (EvPost req) k) s)).
      { exists 1%nat, (Raise e). repeat split; (lia || done). }
      destruct e; try exact Hstop.
      destruct (IH (add_events [EvPost req] s)) as (k & r & Hk & Hr & ->).
      exists (S k), r. repeat split; try (lia || done).
      by rewrite add_events_app.
    + by apply attempt_not_blocked in E.
Qed.

#[local] Arguments Cloud.post_loop : simpl never.

Lemma api_request_runs endpoint body s :
  Cloud._api_lock (Cloud.self s) = false ->
  let req := api_request_for (Cloud.self s) endpoint body (next_nonce s) in
  exists k r,
    (1 <= k <= 3)%nat /\ r <> Blocked
    /\ Cloud.post_loop 3 req (during_request s body)
       = (r, add_events (repeat (EvPost req) k) (during_request s body))
    /\ Cloud._api_request endpoint body s = (r, after_request s endpoint body k).
Proof.
  intros Hfree req.
  destruct (post_loop_shape 2 req (during_request s body)) as (k & r & Hk & Hr & E).
  exists k, r. repeat split; try (lia || done).
  unfold Cloud._api_request, Cloud.with_api_lock, Cloud._post_request, bind,
    Cloud.dumps, Cloud.secrets_token_hex, Cloud.security_new_sign, get,
    Cloud.lock_acquire, try_finally.
  simpl. rewrite Hfree. simpl.
  change (Z.to_nat Cloud.RETRIES) with 3%nat.
  match goal with
  | |- context [Cloud.post_loop 3 ?q ?st] =>
      change q with req; replace st with (during_request s body)
  end.
  2: { unfold during_request, envelope_events, next_nonce, Cloud.on_world,
         Cloud.on_self, log. simpl. by rewrite <- !app_assoc. }
  rewrite E.
  destruct s as [[a p l se tok lk u] [tr t d]]. simpl in Hfree. subst lk.
  destruct r as [x|e|]; [| | done];
    unfold after_request, add_events, Cloud.lock_release, modify, Cloud.on_world,
      Cloud.on_self, log; simpl;
    by rewrite <- ?app_assoc.
Qed.

(** A call that finds the lock taken has built its envelope by then. *)
Lemma api_request_waits endpoint body s :
  Cloud._api_lock (Cloud.self s) = true ->
  Cloud._api_request endpoint body s = (Blocked, after_envelope s body).
Proof.
  intros Hheld.
  unfold Cloud._api_request, Cloud.with_api_lock, bind, Cloud.dumps,
    Cloud.secrets_token_hex, Cloud.security_new_sign, get, Cloud.lock_acquire.
  simpl. rewrite Hheld. f_equal.
  unfold after_envelope, envelope_events, next_nonce, Cloud.on_world, log. simpl.
  by rewrite <- !app_assoc.
Qed.

End ApiRequest.

(** ** The lock between calls *)

Section LockFree.
Context `{CloudEnv}.

(** Started with the lock free, the computation returns or raises and
    leaves the lock free. *)
Definition runs_free (A : Type) (m : M Cloud.state A) : Prop :=
  forall s,
    Cloud._api_lock (Cloud.self s) = false ->
    (m s).1 <> Blocked /\ Cloud._api_lock (Cloud.self (m s).2) = false.

#[global] Instance runs_free_respected : Respected runs_free.
Proof.
  split; try (by intros; intros s Hfree).
  - intros A B m k Hm Hk s Hfree. unfold bind.
    destruct (Hm s Hfree) as [Hr Hfree']. destruct (m s) as [[a|e|] s1]; try done.
    by apply Hk.
  - intros endpoint body s Hfree.
    destruct (api_request_runs endpoint body s Hfree) as (k & r & _ & Hr & _ & ->).
    done.
Qed.

(** The public methods of a client that is not in the middle of a call
    return or raise, and leave the lock free for the next call. *)
Lemma methods_run_free s :
  Cloud._api_lock (Cloud.self s) = false ->
  (forall force,
     (Cloud.login force s).1 <> Blocked
     /\ Cloud._api_lock (Cloud.self (Cloud.login force s).2) = false)
  /\ (forall udpid,
        (Cloud.get_token udpid s).1 <> Blocked
        /\ Cloud._api_lock (Cloud.self (Cloud.get_token udpid s).2) = false).
Proof.
  intros Hfree. split.
  - intros force. by apply (resp_login runs_free).
  - intros udpid. by apply (resp_get_token runs_free).
Qed.

End LockFree.

(** ** The log only grows *)

Section Extends.
Context `{CloudEnv}.

Definition extends (s s' : Cloud.state) : Prop :=
  exists evs, trace (Cloud.world s') = trace (Cloud.world s) ++ evs.

#[global] Instance extends_preorder : PreOrder extends.
Proof.
  split.
  - intros s. exists []. by rewrite app_nil_r.
  - intros s1 s2 s3 [e1 E1] [e2 E2]. exists (e1 ++ e2).
    by rewrite E2, E1, app_assoc.
Qed.

#[global] Instance extends_kept : Kept extends.
Proof.
  split; try apply _.
  - intros s. by exists [EvNow].
  - intros n s. by eexists [_].
  - intros n s. by eexists [_].
  - intros body s. by eexists [_].
  - intros c r s. by eexists [_].
  - intros req s. unfold Cloud.client_post.
    destruct (post_outcome _ _); by eexists [_].
  - intros s. unfold Cloud.lock_acquire.
    destruct (Cloud._api_lock _); [reflexivity | by eexists [_]].
  - intros s. by eexists [_].
  - intros v s. exists []. simpl. by rewrite app_nil_r.
  - intros v s. exists []. simpl. by rewrite app_nil_r.
  - intros v s. exists []. simpl. by rewrite app_nil_r.
Qed.

(** What follows a step can only add to what the step logged. *)
Lemma bind_extends {A B} (m : M Cloud.state A) (k : A -> M Cloud.state B) s :
  (forall a, across extends (k a)) -> extends (m s).2 (bind m k s).2.
Proof.
  intros Hk. unfold bind. destruct (m s) as [[a|e|] s1]; simpl; try reflexivity.
  apply Hk.
Qed.

Lemma extends_requests s s' :
  extends s s' ->
  exists more,
    requests (trace (Cloud.world s')) = requests (trace (Cloud.world s)) ++ more.
Proof. intros [evs E]. exists (requests evs). by rewrite E, requests_app. Qed.

End Extends.

(** ** What the lock covers *)

(** Whether the lock is held after an event, given whether it was before. *)
Definition lock_step (held : bool) (e : event) : bool :=
  match e with
  | EvLockAcquire => true
  | EvLockRelease => false
  | _ => held
  end.

(** Building the signed envelope: serialising the body, drawing the nonce,
    signing. *)
Definition envelope_event (e : event) : bool :=
  match e with
  | EvJsonDumps _ | EvTokenHex _ | EvNewSign _ _ => true
  | _ => false
  end.

Definition post_event (e : event) : bool :=
  match e with
  | EvPost _ => true
  | _ => false
  end.

(** Every event of [tr] picked by [p] happens while the lock is held
    ([want = true]), respectively while it is free ([want = false]);
    [held] says whether the lock is held when [tr] starts. *)
Fixpoint all_under (want : bool) (p : event -> bool) (held : bool)
    (tr : list event) : bool :=
  match tr with
  | [] => true
  | e :: rest =>
      (if p e then Bool.eqb held want else true)
      && all_under want p (lock_step held e) rest
  end.

(** C1, as stated, fails: in a call that the server answers at once, the
    body is serialised, the nonce drawn and the signature computed while
    the lock is free. *)
Lemma envelope_built_outside_lock :
  let run := Cloud._api_request (H := Demo.env [Demo.ok "id"]) "/x" (PyDict ∅) Demo.fresh in
  trace (Cloud.world run.2)
  = [EvJsonDumps (PyDict ∅); EvTokenHex "hex0"; EvNewSign "{}" "hex0";
     EvLockAcquire;
     EvPost (api_request_for (H := Demo.env [Demo.ok "id"])
               (Cloud.self Demo.fresh) "/x" (PyDict ∅) "hex0");
     EvLockRelease]
  /\ all_under true envelope_event false (trace (Cloud.world run.2)) = false.
Proof. split; vm_compute; reflexivity. Qed.

Lemma all_under_posts want held req k :
  all_under want post_event held (repeat (EvPost req) k)
  = (Nat.eqb k 0 || Bool.eqb held want).
Proof.
  induction k as [|k IH]; simpl; [done |].
  rewrite IH. by destruct (Bool.eqb held want), (Nat.eqb k 0).
Qed.

Lemma all_under_no_envelope want held req k rest :
  all_under want envelope_event held (repeat (EvPost req) k ++ rest)
  = all_under want envelope_event held rest.
Proof. induction k as [|k IH]; simpl; done. Qed.

Lemma all_under_posts_then want held req k rest :
  all_under want post_event held (repeat (EvPost req) k ++ rest)
  = all_under want post_event held (repeat (EvPost req) k)
    && all_under want post_event held rest.
Proof.
  induction k as [|k IH]; simpl; [done |]. rewrite IH. by rewrite andb_assoc.
Qed.

(** C1 (amended): an API call issued while the lock is free serialises the
    body, draws the nonce and signs before it acquires the lock; it then
    acquires the lock, makes its POST attempts (one to three, with the
    parsing of the reply) while holding it, and releases it whether the call
    returns or raises. A call issued while the lock is taken builds its
    signed envelope all the same and only then waits for the lock. The lock
    therefore covers the HTTP exchange only, not the construction of the
    signed envelope. *)
Theorem api_request_lock_scope `{CloudEnv} endpoint body s :
  (Cloud._api_lock (Cloud.self s) = false ->
   exists k r,
     (1 <= k <= 3)%nat
     /\ Cloud._api_request endpoint body s = (r, after_request s endpoint body k)
     /\ r <> Blocked
     /\ Cloud._api_lock (Cloud.self (after_request s endpoint body k)) = false
     /\ exists evs,
          trace (Cloud.world (after_request s endpoint body k))
          = trace (Cloud.world s) ++ evs
          /\ evs = envelope_events s body ++ [EvLockAcquire]
                   ++ repeat (EvPost (api_request_for (Cloud.self s) endpoint body
                                        (next_nonce s))) k
                   ++ [EvLockRelease]
          /\ all_under false envelope_event false evs = true
          /\ all_under true post_event false evs = true)
  /\ (Cloud._api_lock (Cloud.self s) = true ->
      Cloud._api_request endpoint body s = (Blocked, after_envelope s body)
      /\ trace (Cloud.world (after_envelope s body))
         = trace (Cloud.world s)
           ++ [EvJsonDumps body; EvTokenHex (next_nonce s);
               EvNewSign (json_dumps body) (next_nonce s)]).
Proof.
  split.
  - intros Hfree.
    destruct (api_request_runs endpoint body s Hfree) as (k & r & Hk & Hr & _ & E).
    exists k, r.
    split; [lia |]. split; [done |]. split; [done |]. split; [done |].
    eexists. split; [reflexivity |]. split; [reflexivity |]. split.
    + simpl. apply all_under_no_envelope.
    + simpl. rewrite all_under_posts_then, all_under_posts. simpl.
      by rewrite orb_true_r.
  - intros Hheld. split; [by apply api_request_waits | reflexivity].
Qed.

Lemma api_request_lock_scope_witness :
  let env := Demo.env [Demo.timed_out; Demo.ok "id"] in
  (exists k r,
     (1 <= k <= 3)%nat
     /\ Cloud._api_request (H := env) "/x" (PyDict ∅) Demo.fresh
        = (r, after_request (H := env) Demo.fresh "/x" (PyDict ∅) k))
  /\ Cloud._api_request (H := env) "/x" (PyDict ∅)
       (Cloud.on_self (Cloud.set_api_lock true) Demo.fresh)
     = (Blocked,
        after_envelope (H := env)
          (Cloud.on_self (Cloud.set_api_lock true) Demo.fresh) (PyDict ∅)).
Proof.
  intros env. split.
  - destruct (api_request_lock_scope (H := env) "/x" (PyDict ∅) Demo.fresh)
      as (Hfree & _).
    destruct (Hfree eq_refl) as (k & r & Hk & E & _).
    by exists k, r.
  - destruct (api_request_lock_scope (H := env) "/x" (PyDict ∅)
                (Cloud.on_self (Cloud.set_api_lock true) Demo.fresh))
      as (_ & Hheld).
    by destruct (Hheld eq_refl).
Defined.

(** ** Request bodies *)

Section Bodies.
Context `{CloudEnv}.

(** The fields [_build_request_body] sets up before adding the caller's. *)
Definition initial_body (stamp reqId : string) : gmap string pyval :=
  <["appId" := PyStr Cloud.APP_ID]>
  (<["format" := PyInt Cloud.FORMAT]>
  (<["clientType" := PyInt Cloud.CLIENT_TYPE]>
  (<["language" := PyStr Cloud.LANGUAGE]>
  (<["src" := PyStr Cloud.SRC]>
  (<["stamp" := PyStr stamp]>
  (<["deviceId" := PyStr Cloud.DEVICE_ID]>
  (<["reqId" := PyStr reqId]> ∅))))))).

(** The stamp and request identifier the next body will get. *)
Definition next_stamp (s : Cloud.state) : string :=
  strftime (now (ticks (Cloud.world s))).
Definition next_reqId (s : Cloud.state) : string :=
  token_hex (draws (Cloud.world s)) 16.

Definition after_build (s : Cloud.state) : Cloud.state :=
  {| Cloud.self := Cloud.self s;
     Cloud.world :=
       {| trace := trace (Cloud.world s) ++ [EvNow; EvTokenHex (next_reqId s)];
          ticks := S (ticks (Cloud.world s));
          draws := S (draws (Cloud.world s)) |} |}.

Lemma build_request_body_eq data s :
  Cloud._build_request_body data s
  = (Return (PyDict (data ∪ initial_body (next_stamp s) (next_reqId s))),
     after_build s).
Proof.
  unfold Cloud._build_request_body, Cloud._timestamp, bind, Cloud.datetime_now,
    Cloud.secrets_token_hex, ret, after_build, Cloud.on_world, log. simpl.
  by rewrite <- app_assoc.
Qed.

Lemma requests_after_request s endpoint body k :
  requests (trace (Cloud.world (after_request s endpoint body k)))
  = requests (trace (Cloud.world s))
    ++ repeat (api_request_for (Cloud.self s) endpoint body (next_nonce s)) k.
Proof.
  unfold after_request. simpl. rewrite !requests_app. simpl. f_equal.
  induction k as [|k IH]; simpl; [done | by rewrite IH].
Qed.

End Bodies.

(** ** Login *)

Section Login.
Context `{CloudEnv}.

#[local] Arguments Cloud._api_request : simpl never.
#[local] Arguments Cloud._build_request_body : simpl never.

Lemma bind_return_inv {S A B} (m : M S A) (k : A -> M S B) s b s' :
  bind m k s = (Return b, s') ->
  exists a s1, m s = (Return a, s1) /\ k a s1 = (Return b, s').
Proof.
  unfold bind. destruct (m s) as [[a|e|] s1]; intros E; try done. by exists a, s1.
Qed.

(** The body of the login-id call. *)
Definition login_id_body (s : Cloud.state) : pyval :=
  PyDict ({[ "loginAccount" := PyStr (Cloud._account (Cloud.self s)) ]}
          ∪ initial_body (next_stamp s) (next_reqId s)).

(** Whatever comes of it, [_get_login_id] makes the login-id call. *)
Lemma get_login_id_state s :
  Cloud._api_lock (Cloud.self s) = false ->
  exists k,
    (1 <= k <= 3)%nat
    /\ (Cloud._get_login_id s).2
       = after_request (after_build s) "/v1/user/login/id/get" (login_id_body s) k.
Proof.
  intros Hfree. unfold Cloud._get_login_id.
  rewrite (bind_eq_return _ _ s s s) by reflexivity.
  rewrite (bind_eq_return _ _ _ _ _ (build_request_body_eq _ s)).
  destruct (api_request_runs "/v1/user/login/id/get" (login_id_body s) (after_build s))
    as (k & r & Hk & Hr & _ & E); [done |].
  exists k. split; [done |].
  fold (login_id_body s). unfold bind at 1. rewrite E.
  destruct r as [v|e|]; [| done | done].
  unfold bind. destruct v; simpl; try done;
    by destruct (_ !! "loginId").
Qed.

(** The state in which [login] makes the login call, and its body. *)
Definition before_login_call (s : Cloud.state) : Cloud.state :=
  {| Cloud.self := Cloud.self s;
     Cloud.world :=
       {| trace := trace (Cloud.world s)
                   ++ [EvTokenUrlsafe (token_urlsafe (draws (Cloud.world s)) 120);
                       EvTokenHex (token_hex (S (draws (Cloud.world s))) 16);
                       EvNow];
          ticks := S (ticks (Cloud.world s));
          draws := S (S (draws (Cloud.world s))) |} |}.

Definition login_call_body (s : Cloud.state) (iampwd password : string) : pyval :=
  Cloud.login_body (Cloud.self s) iampwd password
    (token_urlsafe (draws (Cloud.world s)) 120)
    (token_hex (S (draws (Cloud.world s))) 16)
    (next_stamp s).

(** What the two password helpers give for the login id and the password
    of the client: both results, or what the first one to raise raised. *)
Definition login_secrets (c : Cloud.t) : exception + (string * string) :=
  match encrypt_iam_password (Cloud._login_id c) (Cloud._password c) with
  | inl e => inl e
  | inr iampwd =>
      match encryptPassword (Cloud._login_id c) (Cloud._password c) with
      | inl e => inl e
      | inr password => inr (iampwd, password)
      end
  end.

(** What [login] does once the two helpers have returned. *)
Definition login_exchange (iampwd password : string) : M Cloud.state unit :=
  pushToken <- Cloud.secrets_token_urlsafe 120 ;;
  reqId <- Cloud.secrets_token_hex 16 ;;
  stamp <- Cloud._timestamp ;;
  s <- get ;;
  response <- Cloud._api_request "/mj/user/login"
                (Cloud.login_body (Cloud.self s) iampwd password pushToken reqId
                   stamp) ;;
  Cloud.assert_is_not_None response ;;;
  modify (Cloud.on_self (Cloud.set_session response)) ;;;
  mdata <- lift (subscript response "mdata") ;;
  accessToken <- lift (subscript mdata "accessToken") ;;
  modify (Cloud.on_self (Cloud.set_access_token accessToken)).

(** What [login] does once it has decided to log in and has a login id. *)
Definition login_tail : M Cloud.state unit :=
  s <- get ;;
  iampwd <- lift (returned (encrypt_iam_password (Cloud._login_id (Cloud.self s))
                              (Cloud._password (Cloud.self s)))) ;;
  password <- lift (returned (encryptPassword (Cloud._login_id (Cloud.self s))
                                (Cloud._password (Cloud.self s)))) ;;
  login_exchange iampwd password.

Lemma login_tail_eq s :
  login_tail s
  = match login_secrets (Cloud.self s) with
    | inl e => (Raise e, s)
    | inr (iampwd, password) => login_exchange iampwd password s
    end.
Proof.
  unfold login_tail, login_secrets, bind, get, lift.
  destruct (encrypt_iam_password _ _) as [e|iampwd]; simpl; [done |].
  by destruct (encryptPassword _ _) as [e|password].
Qed.

(** Get a login ID and keep it. *)
Definition fetch_login_id : M Cloud.state unit :=
  login_id <- Cloud._get_login_id ;;
  modify (Cloud.on_self (Cloud.set_login_id login_id)).

Lemma login_unfold force s :
  Cloud.login force s
  = if truthy (Cloud._session (Cloud.self s)) && negb force then (Return tt, s)
    else
      bind (match Cloud._login_id (Cloud.self s) with
            | PyNone => fetch_login_id
            | _ => ret tt
            end)
        (fun _ => login_tail) s.
Proof.
  unfold Cloud.login. rewrite (bind_eq_return _ _ s s s) by reflexivity.
  by destruct (truthy _ && negb force).
Qed.

Lemma login_exchange_kept iampwd password :
  across extends (login_exchange iampwd password).
Proof. unfold login_exchange, Cloud._timestamp. keep_methods. Qed.

Lemma login_tail_kept : across extends login_tail.
Proof.
  intros s. rewrite login_tail_eq.
  destruct (login_secrets (Cloud.self s)) as [e|[iampwd password]];
    [reflexivity | apply login_exchange_kept].
Qed.

Lemma login_exchange_state s iampwd password :
  Cloud._api_lock (Cloud.self s) = false ->
  exists k,
    (1 <= k <= 3)%nat
    /\ extends
         (after_request (before_login_call s) "/mj/user/login"
            (login_call_body s iampwd password) k)
         (login_exchange iampwd password s).2.
Proof.
  intros Hfree.
  destruct (api_request_runs "/mj/user/login" (login_call_body s iampwd password)
              (before_login_call s))
    as (k & r & Hk & Hr & _ & E); [done |].
  exists k. split; [done |].
  assert (Hpre : login_exchange iampwd password s
                 = (response <- Cloud._api_request "/mj/user/login"
                                  (login_call_body s iampwd password) ;;
                    Cloud.assert_is_not_None response ;;;
                    modify (Cloud.on_self (Cloud.set_session response)) ;;;
                    mdata <- lift (subscript response "mdata") ;;
                    accessToken <- lift (subscript mdata "accessToken") ;;
                    modify (Cloud.on_self (Cloud.set_access_token accessToken)))
                     (before_login_call s)).
  { unfold login_exchange, bind at 1 2 3 4, Cloud.secrets_token_urlsafe,
      Cloud.secrets_token_hex, Cloud._timestamp, bind, Cloud.datetime_now, ret, get.
    simpl.
    replace (Cloud.on_world _ (Cloud.on_world _ (Cloud.on_world _ s)))
      with (before_login_call s); [reflexivity |].
    unfold before_login_call, Cloud.on_world, log. simpl. by rewrite <- !app_assoc. }
  rewrite Hpre.
  replace (after_request _ _ _ k)
    with (Cloud._api_request "/mj/user/login" (login_call_body s iampwd password)
            (before_login_call s)).2 by (by rewrite E).
  apply bind_extends. intros response. keep_methods.
Qed.

End Login.

Section LoginTheorems.
Context `{CloudEnv}.

#[local] Arguments Cloud._api_request : simpl never.

Lemma requests_after_build s :
  requests (trace (Cloud.world (after_build s))) = requests (trace (Cloud.world s)).
Proof. unfold after_build. simpl. rewrite requests_app. simpl. by rewrite app_nil_r. Qed.

Lemma requests_before_login_call s :
  requests (trace (Cloud.world (before_login_call s)))
  = requests (trace (Cloud.world s)).
Proof.
  unfold before_login_call. simpl. rewrite requests_app. simpl. by rewrite app_nil_r.
Qed.

Lemma repeat_first {A} (x : A) k : (1 <= k)%nat -> repeat x k = x :: repeat x (k - 1).
Proof. destruct k as [|k]; [lia |]. intros _. simpl. by rewrite Nat.sub_0_r. Qed.

(** A dictionary with an entry is true. *)
Lemma truthy_dict_with d k v : d !! k = Some v -> truthy (PyDict d) = true.
Proof.
  intros Hk. simpl. destruct (Nat.eqb_spec (size d) 0) as [E|]; [| done].
  apply map_size_empty_iff in E. subst d. by rewrite lookup_empty in Hk.
Qed.

(** A login exchange that returns leaves a session behind. *)
Lemma login_exchange_returns iampwd password s s' :
  login_exchange iampwd password s = (Return tt, s') ->
  truthy (Cloud._session (Cloud.self s')) = true.
Proof.
  unfold login_exchange. intros E.
  apply bind_return_inv in E as (pushToken & s1 & _ & E).
  apply bind_return_inv in E as (reqId & s2 & _ & E).
  apply bind_return_inv in E as (stamp & s3 & _ & E).
  apply bind_return_inv in E as (s3' & s4 & _ & E).
  apply bind_return_inv in E as (response & s5 & _ & E).
  apply bind_return_inv in E as ([] & s6 & _ & E).
  apply bind_return_inv in E as ([] & s7 & Hset & E).
  apply bind_return_inv in E as (mdata & s8 & Hmdata & E).
  apply bind_return_inv in E as (accessToken & s9 & Htok & E).
  unfold modify in Hset, E. unfold lift in Hmdata, Htok.
  injection Hset as <-. injection E as <-.
  injection Hmdata as Hmdata <-. injection Htok as _ <-.
  simpl. destruct response; simpl in Hmdata; try done.
  destruct (d !! "mdata") eqn:Ed; [| done]. by eapply truthy_dict_with.
Qed.

Lemma login_tail_returns s s' :
  login_tail s = (Return tt, s') ->
  truthy (Cloud._session (Cloud.self s')) = true.
Proof.
  rewrite login_tail_eq.
  destruct (login_secrets (Cloud.self s)) as [e|[iampwd password]]; [done |].
  apply login_exchange_returns.
Qed.

(** C4: when a session exists, [login()] without [force] returns at once and
    changes nothing, so it makes no request; [login(force=True)] goes to the
    network whether or not a session exists: its first request is the login
    call itself when the login id is cached, as it is once a login has
    succeeded, and the login-id call otherwise. A login that returned has
    left a session, so a second login without [force] does nothing. The
    login call is made once the two password helpers have returned for the
    cached login id, as they have in the login that left the session; if
    one of them raises, so does the login, before any request. *)
Theorem login_only_when_needed s :
  (truthy (Cloud._session (Cloud.self s)) = true ->
   Cloud.login false s = (Return tt, s))
  /\ (forall iampwd password,
        Cloud._api_lock (Cloud.self s) = false ->
        (Cloud._login_id (Cloud.self s) <> PyNone ->
         login_secrets (Cloud.self s) = inr (iampwd, password)) ->
        exists req more,
          requests (trace (Cloud.world (Cloud.login true s).2))
          = requests (trace (Cloud.world s)) ++ req :: more
          /\ req = match Cloud._login_id (Cloud.self s) with
                   | PyNone =>
                       api_request_for (Cloud.self s) "/v1/user/login/id/get"
                         (login_id_body s) (next_nonce (after_build s))
                   | _ =>
                       api_request_for (Cloud.self s) "/mj/user/login"
                         (login_call_body s iampwd password)
                         (next_nonce (before_login_call s))
                   end)
  /\ (forall e,
        Cloud._login_id (Cloud.self s) <> PyNone ->
        login_secrets (Cloud.self s) = inl e ->
        Cloud.login true s = (Raise e, s))
  /\ (forall force s',
        Cloud.login force s = (Return tt, s') ->
        truthy (Cloud._session (Cloud.self s')) = true
        /\ Cloud.login false s' = (Return tt, s')).
Proof.
  split; [| split; [| split]].
  - intros Hsession. rewrite login_unfold, Hsession. reflexivity.
  - intros iampwd password Hfree Hsecrets. rewrite login_unfold, andb_false_r.
    assert (Hcached :
      Cloud._login_id (Cloud.self s) <> PyNone ->
      exists req more,
        requests (trace (Cloud.world (login_tail s).2))
        = requests (trace (Cloud.world s)) ++ req :: more
        /\ req = api_request_for (Cloud.self s) "/mj/user/login"
                   (login_call_body s iampwd password)
                   (next_nonce (before_login_call s))).
    { intros Hid. rewrite login_tail_eq, (Hsecrets Hid).
      destruct (login_exchange_state s iampwd password Hfree) as (k & Hk & Hext).
      apply extends_requests in Hext as [more Hmore].
      rewrite requests_after_request, requests_before_login_call in Hmore.
      rewrite (repeat_first _ k) in Hmore by lia.
      eexists _, _. split; [| reflexivity].
      rewrite Hmore. rewrite <- app_assoc. reflexivity. }
    destruct (Cloud._login_id (Cloud.self s)) eqn:Eid;
      try (by apply Hcached).
    destruct (get_login_id_state s Hfree) as (k & Hk & Hstate).
    assert (Hext : extends (Cloud._get_login_id s).2
                     (bind fetch_login_id (fun _ => login_tail) s).2).
    { trans (fetch_login_id s).2.
      - unfold fetch_login_id. apply bind_extends. intros ?. keep_methods.
      - apply bind_extends. intros _. apply login_tail_kept. }
    apply extends_requests in Hext as [more Hmore].
    rewrite Hstate, requests_after_request, requests_after_build in Hmore.
    rewrite (repeat_first _ k) in Hmore by lia.
    eexists _, _. split; [| reflexivity].
    rewrite Hmore. rewrite <- app_assoc. reflexivity.
  - intros e Hid Hsecrets. rewrite login_unfold, andb_false_r.
    assert (Htail : login_tail s = (Raise e, s))
      by (by rewrite login_tail_eq, Hsecrets).
    by destruct (Cloud._login_id (Cloud.self s)).
  - intros force s' E. rewrite login_unfold in E.
    assert (Hsession : truthy (Cloud._session (Cloud.self s')) = true).
    { destruct (truthy (Cloud._session (Cloud.self s))) eqn:Et; simpl in E.
      - destruct force; simpl in E.
        + apply bind_return_inv in E as (? & s1 & _ & E).
          by apply login_tail_returns in E.
        + by injection E as <-.
      - apply bind_return_inv in E as (? & s1 & _ & E).
        by apply login_tail_returns in E. }
    split; [done |]. by rewrite login_unfold, Hsession.
Qed.

End LoginTheorems.

Lemma login_only_when_needed_witness :
  Cloud.login (H := Demo.env []) false Demo.logged_in = (Return tt, Demo.logged_in)
  /\ (exists req more,
        requests (trace (Cloud.world
                    (Cloud.login (H := Demo.env [Demo.ok "session"]) true
                       Demo.logged_in).2))
        = requests (trace (Cloud.world Demo.logged_in)) ++ req :: more
        /\ url req = "https://mp-prod.appsmb.com/mas/v5/app/proxy?alias=/mj/user/login")
  /\ let s' := (Cloud.login (H := Demo.env [Demo.ok "id"; Demo.ok "session"]) false
                  Demo.fresh).2 in
     Cloud.login (H := Demo.env [Demo.ok "id"; Demo.ok "session"]) false s'
     = (Return tt, s').
Proof.
  split; [| split].
  - by apply (login_only_when_needed (H := Demo.env []) Demo.logged_in).
  - destruct (login_only_when_needed (H := Demo.env [Demo.ok "session"])
                Demo.logged_in) as (_ & Hforce & _).
    destruct (Hforce "iam" "pwd" eq_refl ltac:(reflexivity))
      as (req & more & Hreq & Hlogin).
    exists req, more. split; [exact Hreq |]. by rewrite Hlogin.
  - intros s'.
    destruct (login_only_when_needed (H := Demo.env [Demo.ok "id"; Demo.ok "session"])
                Demo.fresh) as (_ & _ & _ & Hagain).
    apply (Hagain false s'). vm_compute. reflexivity.
Defined.

(** ** Tokens *)

Section Tokens.
Context `{CloudEnv}.

#[local] Arguments Cloud._api_request : simpl never.
#[local] Arguments Cloud._build_request_body : simpl never.

(** The API call [get_token] makes. *)
Definition token_call (udpid : string) : M Cloud.state pyval :=
  body <- Cloud._build_request_body {[ "udpid" := PyStr udpid ]} ;;
  Cloud._api_request "/v1/iot/secure/getToken" body.

(** An entry of the token list that belongs to another device. *)
Definition other_device (udpid : string) (token : pyval) : Prop :=
  exists entry u,
    token = PyDict entry /\ entry !! "udpId" = Some u /\ eq_str u udpid = false.

Lemma bind_assoc {S A B C} (m : M S A) (f : A -> M S B) (g : B -> M S C) s :
  bind (bind m f) g s = bind m (fun a => bind (f a) g) s.
Proof. unfold bind. by destruct (m s) as [[a|e|] s1]. Qed.

Lemma get_token_unfold udpid s :
  Cloud.get_token udpid s
  = (response <- token_call udpid ;;
     Cloud.assert_is_not_None response ;;;
     tokenlist <- lift (subscript response "tokenlist") ;;
     tokens <- lift (py_iter tokenlist) ;;
     Cloud.scan_tokenlist tokens udpid) s.
Proof. unfold Cloud.get_token, token_call. by rewrite bind_assoc. Qed.

Lemma scan_miss udpid tokens s :
  Forall (other_device udpid) tokens ->
  Cloud.scan_tokenlist tokens udpid s = (Return (PyNone, PyNone), s).
Proof.
  induction 1 as [|token rest (entry & u & -> & Hu & Hne) _ IH]; [done |].
  simpl. unfold bind, lift. simpl. by rewrite Hu, Hne.
Qed.

Lemma scan_hit udpid before entry after tk key s :
  Forall (other_device udpid) before ->
  entry !! "udpId" = Some (PyStr udpid) ->
  entry !! "token" = Some tk ->
  entry !! "key" = Some key ->
  Cloud.scan_tokenlist (before ++ PyDict entry :: after) udpid s
  = (Return (tk, key), s).
Proof.
  intros Hbefore Hid Htk Hkey.
  induction Hbefore as [|token rest (e & u & -> & Hu & Hne) _ IH]; simpl.
  - unfold bind, lift. simpl. rewrite Hid. simpl.
    rewrite String.eqb_refl. simpl. by rewrite Htk, Hkey.
  - unfold bind, lift. simpl. by rewrite Hu, Hne.
Qed.

(** C5: when the token call returns a token list in which every entry
    belongs to another device, [get_token] returns the pair [(None, None)]
    and raises nothing; when the list has an entry for the device (after
    entries for others), it returns that entry's token and key. *)
Theorem get_token_miss_is_no_error udpid s s' response tokens :
  token_call udpid s = (Return (PyDict response), s') ->
  response !! "tokenlist" = Some (PyList tokens) ->
  (Forall (other_device udpid) tokens ->
   Cloud.get_token udpid s = (Return (PyNone, PyNone), s'))
  /\ (forall before entry after tk key,
        tokens = before ++ PyDict entry :: after ->
        Forall (other_device udpid) before ->
        entry !! "udpId" = Some (PyStr udpid) ->
        entry !! "token" = Some tk ->
        entry !! "key" = Some key ->
        Cloud.get_token udpid s = (Return (tk, key), s')).
Proof.
  intros Hcall Hlist.
  assert (Hscan : Cloud.get_token udpid s = Cloud.scan_tokenlist tokens udpid s').
  { rewrite get_token_unfold. rewrite (bind_eq_return _ _ _ _ _ Hcall).
    unfold bind, lift. simpl. by rewrite Hlist. }
  rewrite Hscan. split.
  - apply scan_miss.
  - intros before entry after tk key ->. apply scan_hit.
Qed.

End Tokens.

Lemma get_token_miss_is_no_error_witness :
  let env := Demo.env [Demo.timed_out; Demo.ok "tokens"] in
  Cloud.get_token (H := env) "dev7" Demo.logged_in
  = (Return (PyNone, PyNone), (token_call (H := env) "dev7" Demo.logged_in).2)
  /\ Cloud.get_token (H := env) "dev1" Demo.logged_in
     = (Return (PyStr "tk1", PyStr "ky1"),
        (token_call (H := env) "dev1" Demo.logged_in).2).
Proof.
  intros env.
  pose (tokens := [Demo.token_entry "dev0" "tk0" "ky0";
                   Demo.token_entry "dev1" "tk1" "ky1"]).
  split.
  - destruct (get_token_miss_is_no_error (H := env) "dev7" Demo.logged_in
                (token_call (H := env) "dev7" Demo.logged_in).2
                {[ "tokenlist" := PyList tokens ]} tokens) as (Hmiss & _).
    + vm_compute. reflexivity.
    + reflexivity.
    + apply Hmiss. repeat constructor; eexists _, _; (split; [reflexivity |]);
        split; reflexivity.
  - destruct (get_token_miss_is_no_error (H := env) "dev1" Demo.logged_in
                (token_call (H := env) "dev1" Demo.logged_in).2
                {[ "tokenlist" := PyList tokens ]} tokens) as (_ & Hhit).
    + vm_compute. reflexivity.
    + reflexivity.
    + eapply (Hhit [Demo.token_entry "dev0" "tk0" "ky0"] _ []); try reflexivity.
      repeat constructor. eexists _, _. split; [reflexivity |]. split; reflexivity.
Defined.

(** ** Required body fields *)







Section RequiredFields.
Context `{CloudEnv}.

#[local] Arguments Cloud._api_request : simpl never.
#[local] Arguments Cloud._build_request_body : simpl never.

(** The body of the token call. *)
Definition token_body (s : Cloud.state) (udpid : string) : pyval :=
  PyDict ({[ "udpid" := PyStr udpid ]}
          ∪ initial_body (next_stamp s) (next_reqId s)).









Lemma scan_state tokens udpid s : (Cloud.scan_tokenlist tokens udpid s).2 = s.
Proof.
  induction tokens as [|token rest IH]; simpl; [done |].
  unfold bind, lift.
  destruct (subscript token "udpId") as [u| |]; simpl; try done.
  destruct (eq_str u udpid); [| exact IH].
  destruct (subscript token "token"); simpl; try done.
  by destruct (subscript token "key").
Qed.

(** Whatever comes of it, [get_token] makes the token call. *)
Lemma get_token_state udpid s :
  Cloud._api_lock (Cloud.self s) = false ->
  exists k,
    (1 <= k <= 3)%nat
    /\ (Cloud.get_token udpid s).2
       = after_request (after_build s) "/v1/iot/secure/getToken" (token_body s udpid) k.
Proof.
  intros Hfree. unfold Cloud.get_token.
  rewrite (bind_eq_return _ _ _ _ _ (build_request_body_eq _ s)).
  destruct (api_request_runs "/v1/iot/secure/getToken" (token_body s udpid)
              (after_build s)) as (k & r & Hk & Hr & _ & E); [done |].
  exists k. split; [done |].
  fold (token_body s udpid). unfold bind at 1. rewrite E.
  destruct r as [v|e|]; [| done | done].
  unfold bind.
  destruct (Cloud.assert_is_not_None v _) as [[[]|e|] s1] eqn:Ea;
    destruct v; simpl in Ea; try done;
    injection Ea as <-; try done.
  unfold lift. simpl.
  destruct (d !! "tokenlist") as [tl|]; simpl; [| done].
  destruct (py_iter tl) as [tokens| |]; simpl; try done.
  apply scan_state.
Qed.


End RequiredFields.


(** * Properties of the heat pump *)

(** A small device for running the session by evaluation: the transport
    answers every send with [reply], and a datagram decodes by its first
    byte. *)
Module DemoLan.

Definition basic_fields : gmap string pyval :=
  list_to_map
    [("run_mode", PyInt 3); ("heat_enable", PyBool true);
     ("cool_enable", PyBool false); ("zone2_enable", PyBool true);
     ("zone1_power_state", PyBool true); ("zone1_curve_state", PyBool false);
     ("zone1_temp_type", PyInt 1); ("zone1_terminal_type", PyInt 2);
     ("zone1_target_temperature", PyInt 35);
     ("zone1_heat_min_temperature", PyInt 25);
     ("zone1_heat_max_temperature", PyInt 55);
     ("zone1_cool_min_temperature", PyInt 5);
     ("zone1_cool_max_temperature", PyInt 25);
     ("zone2_power_state", PyBool false); ("zone2_curve_state", PyBool false);
     ("zone2_temp_type", PyInt 0); ("zone2_terminal_type", PyInt 0);
     ("zone2_target_temperature", PyInt 30);
     ("zone2_heat_min_temperature", PyInt 25);
     ("zone2_heat_max_temperature", PyInt 55);
     ("zone2_cool_min_temperature", PyInt 5);
     ("zone2_cool_max_temperature", PyInt 25);
     ("dhw_enable", PyBool true); ("dhw_power_state", PyBool true);
     ("dhw_target_temperature", PyInt 50); ("dhw_min_temperature", PyInt 20);
     ("dhw_max_temperature", PyInt 60);
     ("room_thermostat_enable", PyBool false);
     ("room_thermostat_power_state", PyBool false);
     ("room_target_temperature", PyInt 21); ("room_min_temperature", PyInt 17);
     ("room_max_temperature", PyInt 30);
     ("tbh_state", PyBool false); ("fastdhw_state", PyBool false);
     ("tank_temperature", PyInt 48)].

(** A decoded answer to the basic query, with every field the device
    copies. *)
Definition basic_response : Response :=
  {| type := 1; payload := [1; 3]; fields := basic_fields |}.

Definition eco_response : Response :=
  {| type := 7; payload := [7]; fields := ∅ |}.

Definition construct (data : list Z) : result Response :=
  match data with
  | 1 :: _ => Return basic_response
  | 7 :: _ => Return eco_response
  | _ => Raise InvalidFrameException
  end.

Definition env (reply : option (list (list Z))) : LanEnv :=
  {| Device_init := fun _ =>
       Return (<["_online" := PyBool false]> (<["_supported" := PyBool false]> ∅));
     Device_send_command := fun _ _ => reply;
     Response_construct := construct |}.

(** A device as [__init__] leaves it. *)
Definition device : gmap string pyval :=
  HeatPump.own_attributes
    (<["_online" := PyBool false]> (<["_supported" := PyBool false]> ∅)).

Definition start : HeatPump.state := {| HeatPump.self := device; HeatPump.sends := 0 |}.

(** The device after a send that some reply answered. *)
Definition seen : HeatPump.state :=
  {| HeatPump.self :=
       <["_supported" := PyBool true]> (<["_online" := PyBool true]> device);
     HeatPump.sends := 1 |}.

End DemoLan.

(** ** Construction *)

(** C10: every construction hands the base constructor
    [device_type=HEAT_PUMP]: [__init__] calls it once, with keyword
    arguments in which a [device_type] among the caller's own is dropped,
    so it neither changes the type nor clashes with the explicit keyword,
    while [ip], [port] and [device_id] and every other keyword argument
    arrive as the caller gave them; what the base constructor returns or
    raises for these arguments is what the construction gives, the heat
    pump's own attributes added. The caller's [kwargs] cannot hold [ip],
    [port] or [device_id], which are parameters of [__init__]. *)
Theorem heat_pump_device_type `{LanEnv} ip device_id port
    (kwargs : gmap string kwarg) :
  kwargs !! "ip" = None ->
  kwargs !! "port" = None ->
  kwargs !! "device_id" = None ->
  exists args,
    HeatPump.super_init_args ip device_id port kwargs = Return args
    /\ HeatPump.__init__ ip device_id port kwargs
       = match Device_init args with
         | Return base => Return (HeatPump.own_attributes base)
         | Raise e => Raise e
         | Blocked => Blocked
         end
    /\ args !! "device_type" = Some (KwDeviceType HEAT_PUMP)
    /\ args !! "ip" = Some (KwVal (PyStr ip))
    /\ args !! "port" = Some (KwVal (PyInt port))
    /\ args !! "device_id" = Some (KwVal (PyInt device_id))
    /\ forall k,
         k <> "ip" -> k <> "port" -> k <> "device_id" -> k <> "device_type" ->
         args !! k = kwargs !! k.
Proof.
  intros Hip Hport Hid.
  assert (Hdisjoint :
    <["ip" := KwVal (PyStr ip)]>
      (<["port" := KwVal (PyInt port)]>
      (<["device_id" := KwVal (PyInt device_id)]>
      (<["device_type" := KwDeviceType HEAT_PUMP]> ∅)))
    ##ₘ delete "device_type" kwargs).
  { apply map_disjoint_spec. intros k x y Hx Hy.
    destruct (decide (k = "device_type")) as [->|Hty];
      [by rewrite lookup_delete_eq in Hy |].
    rewrite lookup_delete_ne in Hy by done.
    destruct (decide (k = "ip")) as [->|?]; [congruence |].
    destruct (decide (k = "port")) as [->|?]; [congruence |].
    destruct (decide (k = "device_id")) as [->|?]; [congruence |].
    by rewrite !lookup_insert_ne, lookup_empty in Hx. }
  assert (Hargs :
    HeatPump.super_init_args ip device_id port kwargs
    = Return (<["ip" := KwVal (PyStr ip)]>
                (<["port" := KwVal (PyInt port)]>
                (<["device_id" := KwVal (PyInt device_id)]>
                (<["device_type" := KwDeviceType HEAT_PUMP]> ∅)))
              ∪ delete "device_type" kwargs)).
  { unfold HeatPump.super_init_args, HeatPump.call_kwargs.
    by rewrite bool_decide_eq_true_2. }
  eexists. split; [exact Hargs |].
  split; [unfold HeatPump.__init__; by rewrite Hargs |].
  repeat split; try (by apply lookup_union_Some_l).
  intros k ? ? ? ?.
  rewrite lookup_union_r by (by rewrite !lookup_insert_ne, lookup_empty).
  by rewrite lookup_delete_ne.
Qed.

Lemma heat_pump_device_type_witness :
  exists args,
    HeatPump.super_init_args "10.0.0.7" 1234 6444
      (<["device_type" := KwDeviceType AIR_CONDITIONER]>
         (<["sn" := KwVal (PyStr "S1")]> ∅))
    = Return args
    /\ HeatPump.__init__ (H := DemoLan.env None) "10.0.0.7" 1234 6444
         (<["device_type" := KwDeviceType AIR_CONDITIONER]>
            (<["sn" := KwVal (PyStr "S1")]> ∅))
       = Return DemoLan.device
    /\ args !! "device_type" = Some (KwDeviceType HEAT_PUMP)
    /\ args !! "sn" = Some (KwVal (PyStr "S1")).
Proof.
  destruct (heat_pump_device_type (H := DemoLan.env None) "10.0.0.7" 1234 6444
              (<["device_type" := KwDeviceType AIR_CONDITIONER]>
                 (<["sn" := KwVal (PyStr "S1")]> ∅)))
    as (args & Hargs & Hinit & Hty & _ & _ & _ & Hrest); try reflexivity.
  exists args. split; [exact Hargs |]. split; [exact Hinit |].
  split; [exact Hty |]. by rewrite Hrest.
Defined.

(** ** Sending a command *)

Section Sending.
Context `{LanEnv}.

(** A datagram that decodes, or that [Response.construct] rejects as an
    invalid frame. *)
Definition decodes_or_invalid (data : list Z) : Prop :=
  (exists response, Response_construct data = Return response)
  \/ Response_construct data = Raise InvalidFrameException.

(** The responses decoded from a list of datagrams. *)
Definition decoded (datagrams : list (list Z)) : list Response :=
  omap (fun data =>
          match Response_construct data with
          | Return response => Some response
          | _ => None
          end) datagrams.

(** The device after [valid_responses] were decoded. *)
Definition mark_supported (valid_responses : list Response)
    (attrs : gmap string pyval) : gmap string pyval :=
  match valid_responses with
  | [] => attrs
  | _ => <["_supported" := PyBool true]> attrs
  end.

Lemma decoded_cons data rest :
  decoded (data :: rest)
  = match Response_construct data with
    | Return response => response :: decoded rest
    | _ => decoded rest
    end.
Proof. unfold decoded. simpl. by destruct (Response_construct data). Qed.

Lemma collect_responses_spec datagrams : forall s,
  Forall decodes_or_invalid datagrams ->
  HeatPump.collect_responses datagrams s
  = (Return (decoded datagrams),
     {| HeatPump.self := mark_supported (decoded datagrams) (HeatPump.self s);
        HeatPump.sends := HeatPump.sends s |}).
Proof.
  induction datagrams as [|data rest IH]; intros [attrs n] Hall.
  - reflexivity.
  - rewrite decoded_cons.
    inversion Hall as [|? ? [[response Hdata]|Hdata] Hrest]; subst;
      simpl; unfold bind, try_except, lift, ret; rewrite Hdata; simpl;
      rewrite IH by done; simpl; [| done].
    destruct (decoded rest); simpl; [done | by rewrite insert_insert_eq].
Qed.

(** Whatever the replies are, the loop over them at most sets
    [_supported]. *)
Lemma collect_responses_self datagrams : forall s,
  HeatPump.self (HeatPump.collect_responses datagrams s).2 = HeatPump.self s
  \/ HeatPump.self (HeatPump.collect_responses datagrams s).2
     = <["_supported" := PyBool true]> (HeatPump.self s).
Proof.
  induction datagrams as [|data rest IH]; intros s; simpl; [by left |].
  unfold bind, try_except, lift, ret.
  destruct (Response_construct data) as [response|e|]; simpl.
  - right.
    match goal with
    | |- context [HeatPump.collect_responses rest ?st] =>
        specialize (IH st); destruct (HeatPump.collect_responses rest st)
          as [[v|e|] s1]
    end; simpl in *; destruct IH as [-> | ->]; by rewrite ?insert_insert_eq.
  - destruct e; simpl; try by left. apply IH.
  - by left.
Qed.

#[local] Arguments HeatPump.collect_responses : simpl never.
#[local] Arguments decoded : simpl never.

(** C8: the transport call of the base class, which is not among the
    sources, reports that nothing answered by returning [None]; taking it
    never to return an empty list instead, a send with zero replies
    returns an empty list and marks the device offline, without raising
    and without touching [_supported], and after any send [_online] is
    true exactly when the send produced at least one reply. With replies
    that each decode or are rejected as invalid frames, those that decode
    are returned in order, and [_supported] is true afterwards if at least
    one reply decoded and is left as it was otherwise: it becomes true
    exactly when a reply decodes. *)
Theorem send_marks_online_and_supported command s :
  Device_send_command (HeatPump.sends s) command <> Some [] ->
  let replies := default [] (Device_send_command (HeatPump.sends s) command) in
  let run := HeatPump._send_command_get_responses command s in
  (replies = [] ->
   run = (Return [],
          {| HeatPump.self := <["_online" := PyBool false]> (HeatPump.self s);
             HeatPump.sends := S (HeatPump.sends s) |}))
  /\ HeatPump.self run.2 !! "_online" = Some (PyBool (bool_decide (replies <> [])))
  /\ (Forall decodes_or_invalid replies ->
      run.1 = Return (decoded replies)
      /\ HeatPump.sends run.2 = S (HeatPump.sends s)
      /\ HeatPump.self run.2 !! "_supported"
         = match decoded replies with
           | [] => HeatPump.self s !! "_supported"
           | _ => Some (PyBool true)
           end
      /\ forall name,
           name <> "_online" -> name <> "_supported" ->
           HeatPump.self run.2 !! name = HeatPump.self s !! name).
Proof.
  intros Hlist replies run. subst replies run.
  unfold HeatPump._send_command_get_responses, bind, HeatPump.super_send_command.
  destruct (Device_send_command (HeatPump.sends s) command)
    as [[|data rest]|]; [done | |]; simpl.
  - split; [done |]. split.
    + match goal with
      | |- context [HeatPump.collect_responses (data :: rest) ?st] =>
          destruct (collect_responses_self (data :: rest) st) as [-> | ->]
      end; simpl;
        [by rewrite lookup_insert_eq
        | rewrite lookup_insert_ne by done; by rewrite lookup_insert_eq].
    + intros Hall. rewrite collect_responses_spec by done.
      cbn [fst snd HeatPump.self HeatPump.sends].
      split; [done |]. split; [done |]. split.
      * destruct (decoded (data :: rest)); cbn [mark_supported];
          [by rewrite lookup_insert_ne | by rewrite lookup_insert_eq].
      * intros name Honline Hsupported.
        destruct (decoded (data :: rest)); cbn [mark_supported];
          by rewrite !lookup_insert_ne.
  - split; [done |]. split; [by rewrite lookup_insert_eq |].
    intros _. split; [done |]. split; [done |]. split.
    + by rewrite lookup_insert_ne.
    + intros name Honline _. by rewrite lookup_insert_ne.
Qed.

End Sending.

Lemma send_marks_online_and_supported_witness :
  HeatPump._send_command_get_responses (H := DemoLan.env None)
    QueryBasicCommand DemoLan.start
  = (Return [],
     {| HeatPump.self := <["_online" := PyBool false]> DemoLan.device;
        HeatPump.sends := 1 |})
  /\ (let run := HeatPump._send_command_get_responses
                   (H := DemoLan.env (Some [[1; 3]; [9]; [7]]))
                   QueryBasicCommand DemoLan.start in
      run.1 = Return [DemoLan.basic_response; DemoLan.eco_response]
      /\ HeatPump.self run.2 !! "_online" = Some (PyBool true)
      /\ HeatPump.self run.2 !! "_supported" = Some (PyBool true)).
Proof.
  split.
  - destruct (send_marks_online_and_supported (H := DemoLan.env None)
                QueryBasicCommand DemoLan.start) as (Hnone & _);
      [discriminate |].
    by apply Hnone.
  - destruct (send_marks_online_and_supported
                (H := DemoLan.env (Some [[1; 3]; [9]; [7]]))
                QueryBasicCommand DemoLan.start) as (_ & Honline & Hsome);
      [discriminate |].
    destruct Hsome as (Hret & _ & Hsupported & _).
    { apply Forall_cons_2; [left; by eexists |].
      apply Forall_cons_2; [by right |].
      apply Forall_cons_2; [left; by eexists |].
      apply Forall_nil_2. }
    split; [exact Hret |]. split; [exact Honline | exact Hsupported].
Defined.

(** ** Applying a state response *)

Section Refresh.
Context `{LanEnv}.

(** A response of another type than the basic query is ignored. *)
Lemma other_response_ignored response s :
  type response <> QueryType_value QUERY_BASIC ->
  HeatPump._process_state_response response s = (Return tt, s).
Proof.
  intros Hty. unfold HeatPump._process_state_response.
  by destruct (Z.eqb_spec (type response) (QueryType_value QUERY_BASIC)).
Qed.

Lemma process_all_others responses s :
  Forall (fun r => type r <> QueryType_value QUERY_BASIC) responses ->
  HeatPump.process_all responses s = (Return tt, s).
Proof.
  induction 1 as [|r rest Hr _ IH]; [done |].
  simpl. unfold bind. by rewrite other_response_ignored.
Qed.

(** The attribute the loop over the zones asks the response for is spelt
    with a closing parenthesis inside the name. *)
Lemma temp_type_attribute :
  "zone" +:+ pretty 1 +:+ "_temp_type)" = "zone1_temp_type)".
Proof. reflexivity. Qed.

(** No response class declares an attribute of that name, so the update
    never gets past the first zone. *)
Lemma update_state_never_completes res s s' :
  fields res !! "zone1_temp_type)" = None ->
  HeatPump._update_state res s <> (Return tt, s').
Proof.
  intros Hmissing E. unfold HeatPump._update_state in E.
  do 6 (apply bind_return_inv in E as (? & ? & _ & E)).
  apply bind_return_inv in E as (? & ? & Ezone & _).
  unfold HeatPump.update_zone in Ezone.
  do 2 (apply bind_return_inv in Ezone as (? & ? & _ & Ezone)).
  apply bind_return_inv in Ezone as (? & ? & Etype & _).
  apply bind_return_inv in Etype as (v & ? & Eget & _).
  rewrite temp_type_attribute in Eget.
  unfold lift, HeatPump.getattr in Eget. by rewrite Hmissing in Eget.
Qed.

(** [RunMode] has no member 0. *)
Lemma run_mode_zero_rejected res s :
  fields res !! "run_mode" = Some (PyInt 0) ->
  HeatPump._update_state res s = (Raise ValueError, s).
Proof.
  intros Hmode. unfold HeatPump._update_state, bind, lift, HeatPump.getattr.
  by rewrite Hmode.
Qed.

End Refresh.

(** C9 is not what the code does: [refresh] on a device that answers the
    basic query with a well-formed response raises [AttributeError] in the
    loop over the zones. By then the run mode, the three enable flags and
    the power and curve state of zone 1 are copied; the rest of zone 1,
    zone 2, the hot-water and thermostat fields, the misc flags and the tank
    temperature still hold what they held before. *)
Theorem refresh_basic_response_raises :
  let run := HeatPump.refresh (H := DemoLan.env (Some [[1; 3]])) DemoLan.start in
  run.1 = Raise (AttributeError "zone1_temp_type)")
  /\ HeatPump.self run.2 !! "_run_mode" = Some (PyInt 3)
  /\ HeatPump.self run.2 !! "_heat_enable" = Some (PyBool true)
  /\ (exists zone, HeatPump.self run.2 !! "_zone_1" = Some (PyObj zone)
        /\ zone !! "_power_state" = Some (PyBool true)
        /\ zone !! "_target_temperature" = Some (PyInt 25)
        /\ fields DemoLan.basic_response !! "zone1_target_temperature"
           = Some (PyInt 35))
  /\ HeatPump.self run.2 !! "_zone_2" = Some (PyObj HeatPump.Zone__init__)
  /\ HeatPump.self run.2 !! "_dhw_target_temperature" = Some (PyInt 25)
  /\ fields DemoLan.basic_response !! "dhw_target_temperature" = Some (PyInt 50)
  /\ HeatPump.self run.2 !! "_tank_temperature" = Some PyNone
  /\ fields DemoLan.basic_response !! "tank_temperature" = Some (PyInt 48).
Proof.
  repeat split; try (vm_compute; reflexivity).
  eexists. repeat split; vm_compute; reflexivity.
Qed.

(** * Further properties of the cloud client *)

(** ** Every outcome of parsing a reply *)

Section ParseOutcomes.
Context `{CloudEnv}.

Lemma subscript_raises v k e :
  subscript v k = Raise e -> e = KeyError k \/ e = TypeError.
Proof.
  destruct v; simpl; intros E; try (injection E as <-; by right).
  destruct (d !! k); [done |]. injection E as <-. by left.
Qed.

Lemma py_int_raises v e :
  py_int int_of_str v = Raise e ->
  e = ValueError \/ e = TypeError
  \/ (e = OverflowError /\ exists negative, v = PyInfinity negative).
Proof.
  destruct v; simpl; intros E; try done; try (injection E as <-; by auto).
  - destruct (int_of_str s); [done |]. injection E as <-. by left.
  - injection E as <-. right. right. split; [done |]. by eexists.
Qed.


Lemma py_int_not_blocked v : py_int int_of_str v <> Blocked.
Proof. destruct v; simpl; try done. by destruct (int_of_str s). Qed.

(** The parse, by cases on its steps. *)
Lemma parse_response_cases response :
  Cloud._parse_response response
  = match json_loads (text response) with
    | None => Raise JSONDecodeError
    | Some body =>
        match subscript body "code" with
        | Return c =>
            match py_int int_of_str c with
            | Return code =>
                if Z.eqb code 0 then subscript body "data"
                else
                  match subscript body "msg" with
                  | Return msg => Raise (ApiError msg code)
                  | Raise e => Raise e
                  | Blocked => Blocked
                  end
            | Raise e => Raise e
            | Blocked => Blocked
            end
        | Raise e => Raise e
        | Blocked => Blocked
        end
    end.
Proof.
  unfold Cloud._parse_response, result_bind.
  destruct (json_loads (text response)) as [body|]; reflexivity.
Qed.

(** What parsing can raise. *)
Lemma parse_response_raises response e :
  Cloud._parse_response response = Raise e ->
  e = JSONDecodeError \/ e = KeyError "code" \/ e = KeyError "data"
  \/ e = KeyError "msg" \/ e = TypeError \/ e = ValueError
  \/ e = OverflowError
  \/ exists msg code, e = ApiError msg code /\ code <> 0.
Proof.
  rewrite parse_response_cases.
  destruct (json_loads (text response)) as [body|]; [| intros [= <-]; by left].
  destruct (subscript body "code") as [c| |] eqn:Ec; [| | done].
  2: { intros [= ->]. apply subscript_raises in Ec as [-> | ->]; auto 10. }
  destruct (py_int int_of_str c) as [n| |] eqn:Ei; [| | done].
  2: { intros [= ->]. apply py_int_raises in Ei as [-> | [-> | [-> _]]]; auto 10. }
  destruct (Z.eqb_spec n 0) as [-> | Hnz].
  - intros Ed. apply subscript_raises in Ed as [-> | ->]; auto 10.
  - destruct (subscript body "msg") as [m| |] eqn:Em; [| | done].
    + intros [= <-]. do 7 right. by exists m, n.
    + intros [= ->]. apply subscript_raises in Em as [-> | ->]; auto 10.
Qed.


(** Parsing never raises a timeout, so only the transport can cause a
    retry. *)
Lemma parse_no_timeout response kind :
  Cloud._parse_response response <> Raise (TimeoutException kind).
Proof.
  intros E.
  destruct (parse_response_raises _ _ E) as [|[|[|[|[|[|[|(? & ? & ? & _)]]]]]]];
    done.
Qed.


End ParseOutcomes.

(** ** Any number of retries *)

Section AnyRetries.
Context `{CloudEnv}.

Lemma attempt_timeout_inv o kind :
  attempt_result o = Raise (TimeoutException kind) ->
  o = PostRaised (TimeoutException kind).
Proof.
  destruct o as [r|e]; simpl; [| by intros [= ->]].
  destruct (status_error r); [done |]. intros E. by apply parse_no_timeout in E.
Qed.

(** The loop stops at the first attempt that does not time out, or with
    the timeout of its last attempt. *)
Lemma post_loop_attempts n : forall req s,
  exists k,
    (1 <= k <= S n)%nat
    /\ Cloud.post_loop (S n) req s
       = (attempt_result (post_outcome (posted s + (k - 1)) req),
          add_events (repeat (EvPost req) k) s)
    /\ (forall i, (i < k - 1)%nat -> timed_out_at (posted s + i) req)
    /\ ((exists kind,
           attempt_result (post_outcome (posted s + (k - 1)) req)
           = Raise (TimeoutException kind)) ->
        k = S n).
Proof.
  induction n as [|n IH]; intros req s.
  - exists 1%nat. rewrite post_loop_step. simpl. rewrite Nat.add_0_r.
    split; [lia |]. split; [| split; [intros i Hi; lia | done]].
    destruct (attempt_result _) as [a|e|]; try done. by destruct e.
  - rewrite post_loop_step.
    assert (Hstop :
      (forall kind, attempt_result (post_outcome (posted s) req)
                    <> Raise (TimeoutException kind)) ->
      exists k,
        (1 <= k <= S (S n))%nat
        /\ (attempt_result (post_outcome (posted s) req),
            add_events [EvPost req] s)
           = (attempt_result (post_outcome (posted s + (k - 1)) req),
              add_events (repeat (EvPost req) k) s)
        /\ (forall i, (i < k - 1)%nat -> timed_out_at (posted s + i) req)
        /\ ((exists kind,
               attempt_result (post_outcome (posted s + (k - 1)) req)
               = Raise (TimeoutException kind)) -> k = S (S n))).
    { intros Hnt. exists 1%nat. simpl. rewrite Nat.add_0_r.
      split; [lia |]. split; [done |]. split; [intros i Hi; lia |].
      intros [kind E]. by destruct (Hnt kind). }
    destruct (attempt_result (post_outcome (posted s) req)) as [a|e|] eqn:E;
      [by apply Hstop | | by apply Hstop].
    destruct e; try (by apply Hstop).
    destruct (IH req (add_events [EvPost req] s)) as (k & Hk & Eloop & Hto & Hlast).
    rewrite posted_add_post in Eloop, Hto, Hlast.
    exists (S k). split; [lia |].
    replace (posted s + (S k - 1))%nat with (S (posted s) + (k - 1))%nat by lia.
    split; [by rewrite Eloop, add_events_app |]. split.
    + intros i Hi. destruct i as [|i].
      * rewrite Nat.add_0_r. exists kind. by apply attempt_timeout_inv.
      * replace (posted s + S i)%nat with (S (posted s) + i)%nat by lia.
        apply Hto. lia.
    + intros Hk'. by rewrite (Hlast Hk').
Qed.

(** X2: whatever [retries] is given, [_post_request] posts the same request
    again only after a timeout: it ends with the first attempt that does
    not time out, returning or raising what that attempt gives, or with the
    timeout of attempt number [retries]; it logs nothing but these POSTs.
    With [retries <= 0] it posts nothing and returns [None]. *)
Theorem post_request_attempts url hd contents retries s :
  let req := {| url := url; headers := hd; content := contents |} in
  (retries <= 0 ->
   Cloud._post_request url hd contents retries s = (Return PyNone, s))
  /\ (0 < retries ->
      exists k,
        (1 <= k <= Z.to_nat retries)%nat
        /\ Cloud._post_request url hd contents retries s
           = (attempt_result (post_outcome (posted s + (k - 1)) req),
              add_events (repeat (EvPost req) k) s)
        /\ (forall i, (i < k - 1)%nat -> timed_out_at (posted s + i) req)
        /\ ((exists kind,
               attempt_result (post_outcome (posted s + (k - 1)) req)
               = Raise (TimeoutException kind)) ->
            k = Z.to_nat retries)).
Proof.
  intros req. unfold Cloud._post_request. fold req. split.
  - intros Hle. by replace (Z.to_nat retries) with 0%nat by lia.
  - intros Hpos. destruct (Z.to_nat retries) as [|n] eqn:En; [lia |].
    apply post_loop_attempts.
Qed.

End AnyRetries.

Lemma post_request_attempts_witness :
  let req := Demo.request in
  Cloud._post_request (H := Demo.env []) (url req) (headers req) (content req)
    0 Demo.fresh
  = (Return PyNone, Demo.fresh)
  /\ exists k,
       (1 <= k <= 5)%nat
       /\ Cloud._post_request (H := Demo.env [Demo.timed_out; Demo.ok "id"])
            (url req) (headers req) (content req) 5 Demo.fresh
          = (attempt_result (H := Demo.env [Demo.timed_out; Demo.ok "id"])
               (post_outcome (CloudEnv := Demo.env [Demo.timed_out; Demo.ok "id"])
                  (posted Demo.fresh + (k - 1)) req),
             add_events (repeat (EvPost req) k) Demo.fresh).
Proof.
  intros req. split.
  - by apply (post_request_attempts (H := Demo.env [])).
  - destruct (post_request_attempts (H := Demo.env [Demo.timed_out; Demo.ok "id"])
                (url req) (headers req) (content req) 5 Demo.fresh)
      as (_ & Hpos).
    destruct (Hpos ltac:(lia)) as (k & Hk & E & _).
    exists k. split; [exact Hk | exact E].
Defined.

(** ** Sequences of calls *)

(** A call of one of the two public methods; a caller that catches what it
    raises goes on with the client as the call left it. *)
Inductive call :=
| CallLogin (force : bool)
| CallGetToken (udpid : string).

Section Runs.
Context `{CloudEnv}.

Definition after_call (c : call) (s : Cloud.state) : Cloud.state :=
  match c with
  | CallLogin force => (Cloud.login force s).2
  | CallGetToken udpid => (Cloud.get_token udpid s).2
  end.

Definition run (calls : list call) (s : Cloud.state) : Cloud.state :=
  fold_left (fun s c => after_call c s) calls s.

(** Whether a call never resumes. *)
Definition call_blocks (c : call) (s : Cloud.state) : Prop :=
  match c with
  | CallLogin force => (Cloud.login force s).1 = Blocked
  | CallGetToken udpid => (Cloud.get_token udpid s).1 = Blocked
  end.

(** A property of states that the library calls, the attribute assignments
    and [_api_request] keep is kept by every method, hence by every
    sequence of calls. *)
Lemma invariant_respected (I : Cloud.state -> Prop) :
  (forall s, I s -> I (Cloud.datetime_now s).2) ->
  (forall n s, I s -> I (Cloud.secrets_token_hex n s).2) ->
  (forall n s, I s -> I (Cloud.secrets_token_urlsafe n s).2) ->
  (forall endpoint body s, I s -> I (Cloud._api_request endpoint body s).2) ->
  (forall v s, I s -> I (Cloud.on_self (Cloud.set_login_id v) s)) ->
  (forall v s, I s -> I (Cloud.on_self (Cloud.set_session v) s)) ->
  (forall v s, I s -> I (Cloud.on_self (Cloud.set_access_token v) s)) ->
  Respected (fun A (m : M Cloud.state A) => forall s, I s -> I (m s).2).
Proof.
  intros Hnow Hhex Hurl Hapi Hid Hsession Htoken.
  split; try done; try (by intros; simpl; auto).
  intros A B m k Hm Hk s Hs. unfold bind. specialize (Hm s Hs).
  destruct (m s) as [[a|e|] s1]; simpl in *; try done. by apply Hk.
Qed.

Lemma run_invariant (I : Cloud.state -> Prop) :
  Respected (fun A (m : M Cloud.state A) => forall s, I s -> I (m s).2) ->
  forall calls s, I s -> I (run calls s).
Proof.
  intros HI calls. induction calls as [|c calls IH]; intros s Hs; [done |].
  simpl. apply IH. destruct c as [force|udpid]; simpl.
  - by apply (resp_login (fun A m => forall s, I s -> I (m s).2) force s).
  - by apply (resp_get_token (fun A m => forall s, I s -> I (m s).2) udpid s).
Qed.

Lemma run_app calls1 calls2 s : run (calls1 ++ calls2) s = run calls2 (run calls1 s).
Proof. apply fold_left_app. Qed.

End Runs.

(** ** The lock over a sequence of calls *)

(** Whether the lock is held after the events [tr]. *)
Definition held_after (held : bool) (tr : list event) : bool :=
  fold_left lock_step tr held.

(** The lock is acquired only when free, and every POST and every release
    happens while it is held. *)
Fixpoint disciplined (held : bool) (tr : list event) : bool :=
  match tr with
  | [] => true
  | e :: rest =>
      match e with
      | EvLockAcquire => negb held
      | EvLockRelease | EvPost _ => held
      | _ => true
      end
      && disciplined (lock_step held e) rest
  end.

Lemma disciplined_app held tr1 tr2 :
  disciplined held (tr1 ++ tr2)
  = disciplined held tr1 && disciplined (held_after held tr1) tr2.
Proof.
  revert held. induction tr1 as [|e tr1 IH]; intros held; simpl; [done |].
  by rewrite IH, andb_assoc.
Qed.

Lemma held_after_app held tr1 tr2 :
  held_after held (tr1 ++ tr2) = held_after (held_after held tr1) tr2.
Proof. apply fold_left_app. Qed.

Lemma held_after_posts held req k : held_after held (repeat (EvPost req) k) = held.
Proof. induction k as [|k IH]; simpl; [done | exact IH]. Qed.

Lemma disciplined_posts req k : disciplined true (repeat (EvPost req) k) = true.
Proof. induction k as [|k IH]; simpl; [done | exact IH]. Qed.

Section LockDiscipline.
Context `{CloudEnv}.

(** The client is between calls and its log shows a disciplined use of the
    lock. *)
Definition lock_disciplined (s : Cloud.state) : Prop :=
  Cloud._api_lock (Cloud.self s) = false
  /\ held_after false (trace (Cloud.world s)) = false
  /\ disciplined false (trace (Cloud.world s)) = true.

Lemma lock_disciplined_api_request endpoint body s :
  lock_disciplined s -> lock_disciplined (Cloud._api_request endpoint body s).2.
Proof.
  intros (Hfree & Hheld & Hdisc).
  destruct (api_request_runs endpoint body s Hfree) as (k & r & _ & _ & _ & ->).
  split; [done |]. unfold after_request. simpl.
  rewrite held_after_app, disciplined_app, Hheld, Hdisc. simpl.
  rewrite held_after_app, disciplined_app, held_after_posts, disciplined_posts.
  done.
Qed.

Lemma lock_disciplined_respected :
  Respected (fun A (m : M Cloud.state A) =>
               forall s, lock_disciplined s -> lock_disciplined (m s).2).
Proof.
  apply invariant_respected; try done.
  - intros s (Hfree & Hheld & Hdisc). split; [done |]. simpl. unfold log. simpl.
    by rewrite held_after_app, disciplined_app, Hheld, Hdisc.
  - intros n s (Hfree & Hheld & Hdisc). split; [done |]. simpl. unfold log. simpl.
    by rewrite held_after_app, disciplined_app, Hheld, Hdisc.
  - intros n s (Hfree & Hheld & Hdisc). split; [done |]. simpl. unfold log. simpl.
    by rewrite held_after_app, disciplined_app, Hheld, Hdisc.
  - apply lock_disciplined_api_request.
Qed.

(** X3: over any sequence of [login] and [get_token] calls on a client that
    is between calls, no call waits for the lock forever, and the log stays
    disciplined: the lock is acquired only when it is free, every POST is
    made and every release happens while it is held, and the lock is free
    again when each call has returned or raised. *)
Theorem calls_keep_lock_discipline calls s :
  lock_disciplined s ->
  lock_disciplined (run calls s)
  /\ forall before c after,
       calls = before ++ c :: after -> ~ call_blocks c (run before s).
Proof.
  intros Hs. split.
  - by apply (run_invariant _ lock_disciplined_respected).
  - intros before c after _ Hblocks.
    assert (Hfree : Cloud._api_lock (Cloud.self (run before s)) = false).
    { by apply (run_invariant _ lock_disciplined_respected before s). }
    destruct (methods_run_free _ Hfree) as [Hlogin Htoken].
    destruct c as [force|udpid]; simpl in Hblocks.
    + by destruct (Hlogin force).
    + by destruct (Htoken udpid).
Qed.

End LockDiscipline.

Lemma calls_keep_lock_discipline_witness :
  let env := Demo.env [Demo.ok "id"; Demo.timed_out; Demo.ok "session";
                       Demo.ok "tokens"] in
  lock_disciplined
    (run (H := env) [CallLogin false; CallGetToken "dev1"; CallLogin true]
       Demo.fresh).
Proof.
  intros env.
  by apply (calls_keep_lock_discipline (H := env)
              [CallLogin false; CallGetToken "dev1"; CallLogin true] Demo.fresh).
Defined.

(** ** Nonces over a sequence of calls *)

(** The nonces signed in a run, in order. *)
Definition nonces (tr : list event) : list string :=
  omap (fun e => match e with EvNewSign _ random => Some random | _ => None end) tr.

Lemma nonces_app tr1 tr2 : nonces (tr1 ++ tr2) = nonces tr1 ++ nonces tr2.
Proof. apply omap_app. Qed.

Lemma nonces_posts req k : nonces (repeat (EvPost req) k) = [].
Proof. induction k as [|k IH]; simpl; done. Qed.

Section Nonces.
Context `{CloudEnv}.

(** The random source never gives the same [token_hex(16)] twice. *)
Definition fresh_source : Prop :=
  forall i j, token_hex i 16 = token_hex j 16 -> i = j.

(** Every nonce signed so far is a draw of the source, and none was signed
    twice. *)
Definition nonces_fresh (s : Cloud.state) : Prop :=
  NoDup (nonces (trace (Cloud.world s)))
  /\ Forall (fun random =>
               exists i, (i < draws (Cloud.world s))%nat /\ random = token_hex i 16)
       (nonces (trace (Cloud.world s))).

Lemma nonces_fresh_other e s d :
  nonces [e] = [] ->
  (draws (Cloud.world s) <= d)%nat ->
  nonces_fresh s ->
  nonces_fresh
    {| Cloud.self := Cloud.self s;
       Cloud.world := {| trace := trace (Cloud.world s) ++ [e];
                         ticks := ticks (Cloud.world s); draws := d |} |}.
Proof.
  intros He Hd [Hnodup Hdrawn]. unfold nonces_fresh. simpl.
  rewrite nonces_app, He, app_nil_r. split; [done |].
  eapply Forall_impl; [exact Hdrawn |]. intros r (i & Hi & ->).
  exists i. split; [lia | done].
Qed.

Lemma nonces_fresh_next tr s :
  fresh_source ->
  nonces tr = nonces (trace (Cloud.world s)) ++ [next_nonce s] ->
  nonces_fresh s ->
  nonces_fresh
    {| Cloud.self := Cloud.self s;
       Cloud.world := {| trace := tr; ticks := ticks (Cloud.world s);
                         draws := S (draws (Cloud.world s)) |} |}.
Proof.
  intros Hsource Htr [Hnodup Hdrawn]. unfold nonces_fresh. simpl. rewrite Htr.
  split.
  - apply NoDup_app. split; [done |]. split; [| apply NoDup_singleton].
    intros r Hr Hnew. apply list_elem_of_singleton in Hnew as ->.
    rewrite Forall_forall in Hdrawn. destruct (Hdrawn _ Hr) as (i & Hi & Ei).
    apply Hsource in Ei. unfold next_nonce in *. lia.
  - apply Forall_app. split.
    + eapply Forall_impl; [exact Hdrawn |]. intros r (i & Hi & ->).
      exists i. split; [lia | done].
    + apply Forall_singleton. exists (draws (Cloud.world s)). split; [lia | done].
Qed.

Lemma nonces_fresh_api_request endpoint body s :
  fresh_source ->
  nonces_fresh s -> nonces_fresh (Cloud._api_request endpoint body s).2.
Proof.
  intros Hsource Hs. destruct (Cloud._api_lock (Cloud.self s)) eqn:Hlock.
  - rewrite api_request_waits by done. apply nonces_fresh_next; [done | | done].
    by rewrite nonces_app.
  - destruct (api_request_runs endpoint body s Hlock) as (k & r & _ & _ & _ & ->).
    apply nonces_fresh_next; [done | | done].
    rewrite !nonces_app, nonces_posts. simpl. by rewrite ?app_nil_r.
Qed.

Lemma nonces_fresh_respected :
  fresh_source ->
  Respected (fun A (m : M Cloud.state A) =>
               forall s, nonces_fresh s -> nonces_fresh (m s).2).
Proof.
  intros Hsource. apply invariant_respected; try done.
  - intros s Hs. by apply (nonces_fresh_other EvNow s (draws (Cloud.world s))).
  - intros n s Hs.
    apply (nonces_fresh_other (EvTokenHex _) s (S (draws (Cloud.world s))));
      [done | lia | done].
  - intros n s Hs.
    apply (nonces_fresh_other (EvTokenUrlsafe _) s (S (draws (Cloud.world s))));
      [done | lia | done].
  - intros endpoint body s. by apply nonces_fresh_api_request.
Qed.

(** X4: if the random source never repeats a [token_hex(16)] draw, then
    over any sequence of [login] and [get_token] calls no two API calls sign
    with the same nonce, whether the calls return or raise: each call draws
    its nonce afresh, after everything drawn before it. *)
Theorem calls_never_reuse_a_nonce calls s :
  fresh_source ->
  nonces_fresh s ->
  NoDup (nonces (trace (Cloud.world (run calls s)))).
Proof.
  intros Hsource Hs.
  by apply (run_invariant _ (nonces_fresh_respected Hsource) calls s).
Qed.

End Nonces.

Lemma calls_never_reuse_a_nonce_witness :
  let env := Demo.env [Demo.ok "id"; Demo.timed_out; Demo.ok "session";
                       Demo.ok "tokens"] in
  NoDup (nonces (trace (Cloud.world
           (run (H := env) [CallLogin false; CallGetToken "dev1"; CallLogin true]
              Demo.fresh)))).
Proof.
  intros env. apply (calls_never_reuse_a_nonce (H := env)).
  - intros i j E. simpl in E. injection E as E. by apply pretty_nat_inj.
  - split; [apply NoDup_nil_2 | apply Forall_nil_2].
Defined.

(** ** The requests of a sequence of calls *)

Section SignedRequests.
Context `{CloudEnv}.

(** A POST to the proxy of the server at [base], signed over its own
    content with its own nonce. *)
Definition well_signed (base : string) (req : http_request) : Prop :=
  exists endpoint body random token,
    url req = base +:+ "/mas/v5/app/proxy?alias=" +:+ endpoint
    /\ content req = json_dumps body
    /\ headers req
       = <["Content-Type" := PyStr "application/json"]>
         (<["secretVersion" := PyStr "1"]>
         (<["sign" := PyStr (new_sign (content req) random)]>
         (<["random" := PyStr random]>
         (<["accessToken" := token]> ∅)))).

(** The client talks to [base], and so did every request in its log. *)
Definition requests_signed (base : string) (s : Cloud.state) : Prop :=
  Cloud._base_url (Cloud.self s) = base
  /\ Forall (well_signed base) (requests (trace (Cloud.world s))).

Lemma well_signed_api_request c endpoint body random :
  well_signed (Cloud._base_url c) (api_request_for c endpoint body random).
Proof. by exists endpoint, body, random, (Cloud._access_token c). Qed.

Lemma requests_signed_other base e s t d :
  requests [e] = [] ->
  requests_signed base s ->
  requests_signed base
    {| Cloud.self := Cloud.self s;
       Cloud.world := {| trace := trace (Cloud.world s) ++ [e];
                         ticks := t; draws := d |} |}.
Proof.
  intros He [Hbase Hreqs]. split; [done |]. simpl.
  by rewrite requests_app, He, app_nil_r.
Qed.

Lemma requests_signed_api_request base endpoint body s :
  requests_signed base s ->
  requests_signed base (Cloud._api_request endpoint body s).2.
Proof.
  intros [Hbase Hreqs]. destruct (Cloud._api_lock (Cloud.self s)) eqn:Hlock.
  - rewrite api_request_waits by done. split; [done |]. simpl.
    by rewrite requests_app, app_nil_r.
  - destruct (api_request_runs endpoint body s Hlock) as (k & r & _ & _ & _ & ->).
    split; [done |]. cbn [snd]. rewrite requests_after_request.
    apply Forall_app. split; [done |].
    apply Forall_forall. intros req Hreq. apply list_elem_of_In, repeat_spec in Hreq.
    subst req. rewrite <- Hbase. apply well_signed_api_request.
Qed.

Lemma requests_signed_respected base :
  Respected (fun A (m : M Cloud.state A) =>
               forall s, requests_signed base s -> requests_signed base (m s).2).
Proof.
  apply invariant_respected; try done.
  - intros s Hs. by apply (requests_signed_other base EvNow s).
  - intros n s Hs. by apply (requests_signed_other base (EvTokenHex _) s).
  - intros n s Hs. by apply (requests_signed_other base (EvTokenUrlsafe _) s).
  - apply requests_signed_api_request.
Qed.

(** X5: over any sequence of [login] and [get_token] calls, every request
    the client posts goes to the proxy path of the base URL it was
    constructed with, has a JSON-serialised body as content, and carries
    exactly the five headers [Content-Type], [secretVersion], [sign],
    [random] and [accessToken], with [sign] computed over the posted content
    and the nonce in [random]. The base URL itself never changes. *)
Theorem calls_post_signed_requests base calls s :
  requests_signed base s ->
  Cloud._base_url (Cloud.self (run calls s)) = base
  /\ Forall (well_signed base) (requests (trace (Cloud.world (run calls s)))).
Proof.
  intros Hs. by apply (run_invariant _ (requests_signed_respected base) calls s).
Qed.

End SignedRequests.

Lemma calls_post_signed_requests_witness :
  let env := Demo.env [Demo.ok "id"; Demo.timed_out; Demo.ok "session";
                       Demo.ok "tokens"] in
  Forall (well_signed (H := env) "https://mp-prod.appsmb.com")
    (requests (trace (Cloud.world
       (run (H := env) [CallLogin false; CallGetToken "dev1"; CallLogin true]
          Demo.fresh)))).
Proof.
  intros env.
  apply (calls_post_signed_requests (H := env) "https://mp-prod.appsmb.com"
           [CallLogin false; CallGetToken "dev1"; CallLogin true] Demo.fresh).
  split; [reflexivity | apply Forall_nil_2].
Defined.

(** ** What a login leaves behind *)

Section LoginOutcomes.
Context `{CloudEnv}.

#[local] Arguments Cloud._api_request : simpl never.
#[local] Arguments Cloud._build_request_body : simpl never.

Lemma posted_during_request s body : posted (during_request s body) = posted s.
Proof.
  unfold posted, during_request. simpl. rewrite requests_app. simpl.
  by rewrite app_nil_r.
Qed.

Lemma posted_after_build s : posted (after_build s) = posted s.
Proof. unfold posted. by rewrite requests_after_build. Qed.

Lemma posted_before_login_call s : posted (before_login_call s) = posted s.
Proof. unfold posted. by rewrite requests_before_login_call. Qed.

(** An API call whose first attempt does not time out makes one POST and
    ends as that attempt does. *)
Lemma api_request_answered endpoint body s r :
  Cloud._api_lock (Cloud.self s) = false ->
  attempt_result
    (post_outcome (posted s)
       (api_request_for (Cloud.self s) endpoint body (next_nonce s))) = r ->
  (forall kind, r <> Raise (TimeoutException kind)) ->
  Cloud._api_request endpoint body s = (r, after_request s endpoint body 1).
Proof.
  intros Hfree Hr Hnt.
  destruct (api_request_runs endpoint body s Hfree) as (k & r' & Hk & _ & Eloop & ->).
  rewrite (post_loop_ends 0 2 _ _ r) in Eloop; try done; try lia.
  2: { by rewrite posted_during_request, Nat.add_0_r. }
  injection Eloop as <- Estate.
  assert (Hlen : length (repeat (EvPost (api_request_for (Cloud.self s) endpoint body
                                           (next_nonce s))) 1)
                 = length (repeat (EvPost (api_request_for (Cloud.self s) endpoint
                                             body (next_nonce s))) k)).
  { apply app_inv_head in Estate. by rewrite <- Estate. }
  rewrite !repeat_length in Hlen. by subst k.
Qed.

(** What [login] does with the reply to the login call. *)
Definition store_session (response : pyval) : M Cloud.state unit :=
  Cloud.assert_is_not_None response ;;;
  modify (Cloud.on_self (Cloud.set_session response)) ;;;
  mdata <- lift (subscript response "mdata") ;;
  accessToken <- lift (subscript mdata "accessToken") ;;
  modify (Cloud.on_self (Cloud.set_access_token accessToken)).

Lemma login_exchange_eq iampwd password s :
  login_exchange iampwd password s
  = bind (Cloud._api_request "/mj/user/login" (login_call_body s iampwd password))
      store_session (before_login_call s).
Proof.
  unfold login_exchange, bind at 1 2 3 4, Cloud.secrets_token_urlsafe,
    Cloud.secrets_token_hex, Cloud._timestamp, bind, Cloud.datetime_now, ret, get.
  simpl.
  replace (Cloud.on_world _ (Cloud.on_world _ (Cloud.on_world _ s)))
    with (before_login_call s); [reflexivity |].
  unfold before_login_call, Cloud.on_world, log. simpl. by rewrite <- !app_assoc.
Qed.

Lemma store_session_cases response s :
  store_session response s
  = match response with
    | PyNone => (Raise AssertionError, s)
    | _ =>
        let s1 := Cloud.on_self (Cloud.set_session response) s in
        match subscript response "mdata" with
        | Return mdata =>
            match subscript mdata "accessToken" with
            | Return accessToken =>
                (Return tt,
                 Cloud.on_self (Cloud.set_access_token accessToken) s1)
            | Raise e => (Raise e, s1)
            | Blocked => (Blocked, s1)
            end
        | Raise e => (Raise e, s1)
        | Blocked => (Blocked, s1)
        end
    end.
Proof.
  unfold store_session, bind, lift, modify.
  destruct response; simpl; reflexivity.
Qed.


Lemma get_login_id_eq s :
  Cloud._get_login_id s
  = bind (Cloud._api_request "/v1/user/login/id/get" (login_id_body s))
      (fun response =>
         Cloud.assert_is_not_None response ;;;
         lift (subscript response "loginId"))
      (after_build s).
Proof.
  unfold Cloud._get_login_id.
  rewrite (bind_eq_return _ _ s s s) by reflexivity.
  by rewrite (bind_eq_return _ _ _ _ _ (build_request_body_eq _ s)).
Qed.

End LoginOutcomes.

Section LoginResults.
Context `{CloudEnv}.

#[local] Arguments Cloud._api_request : simpl never.
#[local] Arguments Cloud._build_request_body : simpl never.

(** The endpoint of the first request a login makes. *)
Definition first_login_endpoint (c : Cloud.t) : string :=
  match Cloud._login_id c with
  | PyNone => "/v1/user/login/id/get"
  | _ => "/mj/user/login"
  end.

Lemma login_exchange_fails iampwd password s e :
  Cloud._api_lock (Cloud.self s) = false ->
  (forall req, attempt_result (post_outcome (posted s) req) = Raise e) ->
  (forall kind, e <> TimeoutException kind) ->
  login_exchange iampwd password s
  = (Raise e,
     after_request (before_login_call s) "/mj/user/login"
       (login_call_body s iampwd password) 1).
Proof.
  intros Hfree Hfail Hnt. rewrite login_exchange_eq. unfold bind.
  rewrite (api_request_answered _ _ _ (Raise e)); try done.
  - by rewrite posted_before_login_call.
  - intros kind [= ->]. by destruct (Hnt kind).
Qed.

Lemma get_login_id_fails s e :
  Cloud._api_lock (Cloud.self s) = false ->
  (forall req, attempt_result (post_outcome (posted s) req) = Raise e) ->
  (forall kind, e <> TimeoutException kind) ->
  Cloud._get_login_id s
  = (Raise e,
     after_request (after_build s) "/v1/user/login/id/get" (login_id_body s) 1).
Proof.
  intros Hfree Hfail Hnt. rewrite get_login_id_eq. unfold bind.
  rewrite (api_request_answered _ _ _ (Raise e)); try done.
  - by rewrite posted_after_build.
  - intros kind [= ->]. by destruct (Hnt kind).
Qed.

(** The two password helpers return for the login id the client has
    cached, if it has one. *)
Definition helpers_return (c : Cloud.t) : Prop :=
  Cloud._login_id c <> PyNone -> exists secrets, login_secrets c = inr secrets.

(** X6: when the first request of a login that goes to the network fails
    with anything but a timeout (an HTTP status error, a transport error,
    an unparsable reply, or an [ApiError] such as the one for bad
    credentials), [login] raises that failure after this one POST and
    leaves every attribute of the client as it was. With a cached login id
    the login goes to the network once the two password helpers have
    returned. *)
Theorem login_failure_leaves_client_unchanged force s e :
  Cloud._api_lock (Cloud.self s) = false ->
  truthy (Cloud._session (Cloud.self s)) && negb force = false ->
  helpers_return (Cloud.self s) ->
  (forall req, attempt_result (post_outcome (posted s) req) = Raise e) ->
  (forall kind, e <> TimeoutException kind) ->
  exists s' req,
    Cloud.login force s = (Raise e, s')
    /\ Cloud.self s' = Cloud.self s
    /\ requests (trace (Cloud.world s')) = requests (trace (Cloud.world s)) ++ [req]
    /\ url req = Cloud._base_url (Cloud.self s) +:+ "/mas/v5/app/proxy?alias="
                 +:+ first_login_endpoint (Cloud.self s).
Proof.
  intros Hfree Hcond Hsecrets Hfail Hnt. rewrite login_unfold, Hcond.
  assert (Hcached :
    Cloud._login_id (Cloud.self s) <> PyNone ->
    exists s' req,
      login_tail s = (Raise e, s')
      /\ Cloud.self s' = Cloud.self s
      /\ requests (trace (Cloud.world s'))
         = requests (trace (Cloud.world s)) ++ [req]
      /\ url req = Cloud._base_url (Cloud.self s) +:+ "/mas/v5/app/proxy?alias="
                   +:+ first_login_endpoint (Cloud.self s)).
  { intros Hid. destruct (Hsecrets Hid) as [[iampwd password] Hs].
    rewrite login_tail_eq, Hs.
    eexists _, _. split; [by apply login_exchange_fails |].
    split; [reflexivity |]. split.
    - by rewrite requests_after_request, requests_before_login_call.
    - unfold first_login_endpoint. by destruct (Cloud._login_id (Cloud.self s)). }
  destruct (Cloud._login_id (Cloud.self s)) eqn:Eid;
    try (by apply Hcached).
  eexists _, _. split.
  - unfold bind, fetch_login_id, bind. by rewrite (get_login_id_fails s e).
  - split; [reflexivity |]. split.
    + by rewrite requests_after_request, requests_after_build.
    + unfold first_login_endpoint. by rewrite Eid.
Qed.

(** X7: when the reply to the login call is an object without [mdata],
    [login] raises [KeyError] only after it has stored that reply as the
    session: the access token is still the old one, and unless the object
    is empty a later [login()] without [force] takes the session for a
    login and does nothing. The login call is made once the two password
    helpers have returned for the cached login id. *)
Theorem login_without_mdata_keeps_session force s r d :
  Cloud._api_lock (Cloud.self s) = false ->
  Cloud._login_id (Cloud.self s) <> PyNone ->
  helpers_return (Cloud.self s) ->
  truthy (Cloud._session (Cloud.self s)) && negb force = false ->
  (forall req, post_outcome (posted s) req = Responded r) ->
  status_error r = false ->
  Cloud._parse_response r = Return (PyDict d) ->
  d !! "mdata" = None ->
  exists s',
    Cloud.login force s = (Raise (KeyError "mdata"), s')
    /\ Cloud.self s' = Cloud.set_session (PyDict d) (Cloud.self s)
    /\ Cloud._access_token (Cloud.self s') = Cloud._access_token (Cloud.self s)
    /\ (d <> ∅ -> Cloud.login false s' = (Return tt, s')).
Proof.
  intros Hfree Hid Hsecrets Hcond Hreply Hok Hparse Hmdata.
  rewrite login_unfold, Hcond.
  destruct (Hsecrets Hid) as [[iampwd password] Hs].
  assert (Hex : login_tail s
                = (Raise (KeyError "mdata"),
                   Cloud.on_self (Cloud.set_session (PyDict d))
                     (after_request (before_login_call s) "/mj/user/login"
                        (login_call_body s iampwd password) 1))).
  { rewrite login_tail_eq, Hs, login_exchange_eq. unfold bind.
    rewrite (api_request_answered _ _ _ (Return (PyDict d))); try done.
    - rewrite store_session_cases. simpl. by rewrite Hmdata.
    - rewrite posted_before_login_call, Hreply. simpl. by rewrite Hok. }
  eexists. split.
  - destruct (Cloud._login_id (Cloud.self s)); try done; exact Hex.
  - split; [reflexivity |]. split; [reflexivity |].
    intros Hne. rewrite login_unfold.
    replace (truthy _) with true; [reflexivity |].
    simpl. destruct (Nat.eqb_spec (size d) 0) as [E|]; [| done].
    by apply map_size_empty_iff in E.
Qed.


End LoginResults.

Lemma login_failure_leaves_client_unchanged_witness :
  exists s' req,
    Cloud.login (H := Demo.env [Demo.ok "denied"]) false Demo.fresh
    = (Raise (ApiError (PyStr "bad password") 3101), s')
    /\ Cloud.self s' = Cloud.self Demo.fresh
    /\ requests (trace (Cloud.world s')) = [req]
    /\ url req
       = "https://mp-prod.appsmb.com/mas/v5/app/proxy?alias=/v1/user/login/id/get".
Proof.
  apply (login_failure_leaves_client_unchanged (H := Demo.env [Demo.ok "denied"])
           false Demo.fresh (ApiError (PyStr "bad password") 3101));
    [ reflexivity | reflexivity | intros Hid; by destruct Hid
    | intros req; reflexivity | intros kind; discriminate ].
Defined.

Lemma login_without_mdata_keeps_session_witness :
  exists s',
    Cloud.login (H := Demo.env [Demo.ok "id"]) true Demo.logged_in
    = (Raise (KeyError "mdata"), s')
    /\ Cloud._session (Cloud.self s') = PyDict {[ "loginId" := PyStr "L1" ]}
    /\ Cloud._access_token (Cloud.self s') = PyStr "T0"
    /\ Cloud.login (H := Demo.env [Demo.ok "id"]) false s' = (Return tt, s').
Proof.
  destruct (login_without_mdata_keeps_session (H := Demo.env [Demo.ok "id"])
              true Demo.logged_in {| status_error := false; text := "id" |}
              {[ "loginId" := PyStr "L1" ]})
    as (s' & E & Hself & Htoken & Hagain);
    [ reflexivity | discriminate | intros _; by exists ("iam", "pwd")
    | reflexivity | intros req; reflexivity
    | reflexivity | reflexivity | reflexivity | ].
  exists s'. split; [exact E |]. split; [by rewrite Hself |].
  split; [exact Htoken |]. apply Hagain.
  intros Hempty. by apply (f_equal (fun m => m !! "loginId")) in Hempty.
Defined.


Section LoginSuccess.
Context `{CloudEnv}.

#[local] Arguments Cloud._api_request : simpl never.
#[local] Arguments Cloud._build_request_body : simpl never.

Lemma posted_after_request s endpoint body k :
  posted (after_request s endpoint body k) = (posted s + k)%nat.
Proof.
  unfold posted. by rewrite requests_after_request, length_app, repeat_length.
Qed.

Lemma get_login_id_answered s r response login_id :
  Cloud._api_lock (Cloud.self s) = false ->
  (forall req, post_outcome (posted s) req = Responded r) ->
  status_error r = false ->
  Cloud._parse_response r = Return response ->
  subscript response "loginId" = Return login_id ->
  Cloud._get_login_id s
  = (Return login_id,
     after_request (after_build s) "/v1/user/login/id/get" (login_id_body s) 1).
Proof.
  intros Hfree Hreply Hok Hparse Hid. rewrite get_login_id_eq. unfold bind.
  rewrite (api_request_answered _ _ _ (Return response)); try done.
  - unfold lift. rewrite Hid. by destruct response.
  - rewrite posted_after_build, Hreply. simpl. by rewrite Hok.
Qed.

Lemma login_exchange_answered iampwd password s r response mdata accessToken :
  Cloud._api_lock (Cloud.self s) = false ->
  (forall req, post_outcome (posted s) req = Responded r) ->
  status_error r = false ->
  Cloud._parse_response r = Return response ->
  subscript response "mdata" = Return mdata ->
  subscript mdata "accessToken" = Return accessToken ->
  login_exchange iampwd password s
  = (Return tt,
     Cloud.on_self (Cloud.set_access_token accessToken)
       (Cloud.on_self (Cloud.set_session response)
          (after_request (before_login_call s) "/mj/user/login"
             (login_call_body s iampwd password) 1))).
Proof.
  intros Hfree Hreply Hok Hparse Hmdata Htoken.
  rewrite login_exchange_eq. unfold bind.
  rewrite (api_request_answered _ _ _ (Return response)); try done.
  - rewrite store_session_cases, Hmdata, Htoken. by destruct response.
  - rewrite posted_before_login_call, Hreply. simpl. by rewrite Hok.
Qed.

(** X8: a login of a client without login id whose first request the
    server answers at once with an object holding [loginId] stores that
    login id and hands it to the two password helpers. If one of them
    raises, as for a login id that is not of the type they expect, the
    login raises the same after that one POST, with the login id stored
    and nothing else changed. If both return and the server answers the
    second request at once with an object holding [mdata.accessToken], the
    login returns after exactly two POSTs, to the login-id alias and then
    to the login alias; it leaves the login id, the whole second reply as
    session and the access token in the client and changes nothing else.
    Both requests still carry the access token the client had before. *)
Theorem login_stores_what_the_server_sent force s r1 response1 login_id :
  Cloud._api_lock (Cloud.self s) = false ->
  Cloud._login_id (Cloud.self s) = PyNone ->
  truthy (Cloud._session (Cloud.self s)) && negb force = false ->
  (forall req, post_outcome (posted s) req = Responded r1) ->
  status_error r1 = false ->
  Cloud._parse_response r1 = Return response1 ->
  subscript response1 "loginId" = Return login_id ->
  (forall e,
     login_secrets (Cloud.set_login_id login_id (Cloud.self s)) = inl e ->
     exists s' req1,
       Cloud.login force s = (Raise e, s')
       /\ Cloud.self s' = Cloud.set_login_id login_id (Cloud.self s)
       /\ requests (trace (Cloud.world s'))
          = requests (trace (Cloud.world s)) ++ [req1]
       /\ url req1 = Cloud._base_url (Cloud.self s)
                     +:+ "/mas/v5/app/proxy?alias=" +:+ "/v1/user/login/id/get")
  /\ (forall iampwd password r2 response2 mdata accessToken,
        login_secrets (Cloud.set_login_id login_id (Cloud.self s))
        = inr (iampwd, password) ->
        (forall req, post_outcome (S (posted s)) req = Responded r2) ->
        status_error r2 = false ->
        Cloud._parse_response r2 = Return response2 ->
        subscript response2 "mdata" = Return mdata ->
        subscript mdata "accessToken" = Return accessToken ->
        exists s' req1 req2,
          Cloud.login force s = (Return tt, s')
          /\ Cloud.self s'
             = Cloud.set_access_token accessToken
                 (Cloud.set_session response2
                    (Cloud.set_login_id login_id (Cloud.self s)))
          /\ requests (trace (Cloud.world s'))
             = requests (trace (Cloud.world s)) ++ [req1; req2]
          /\ url req1 = Cloud._base_url (Cloud.self s)
                        +:+ "/mas/v5/app/proxy?alias=" +:+ "/v1/user/login/id/get"
          /\ url req2 = Cloud._base_url (Cloud.self s)
                        +:+ "/mas/v5/app/proxy?alias=" +:+ "/mj/user/login"
          /\ headers req1 !! "accessToken"
             = Some (Cloud._access_token (Cloud.self s))
          /\ headers req2 !! "accessToken"
             = Some (Cloud._access_token (Cloud.self s))).
Proof.
  intros Hfree Hid Hcond H1 Hok1 Hparse1 Hlid.
  rewrite login_unfold, Hcond, Hid.
  set (s1 := after_request (after_build s) "/v1/user/login/id/get"
               (login_id_body s) 1).
  set (s2 := Cloud.on_self (Cloud.set_login_id login_id) s1).
  assert (Hfetch : fetch_login_id s = (Return tt, s2)).
  { unfold fetch_login_id, bind.
    by rewrite (get_login_id_answered s r1 response1 login_id). }
  rewrite (bind_eq_return _ _ _ _ _ Hfetch).
  assert (Hself : Cloud.self s2 = Cloud.set_login_id login_id (Cloud.self s))
    by reflexivity.
  assert (Hreqs1 : requests (trace (Cloud.world s2))
                   = requests (trace (Cloud.world s))
                     ++ [api_request_for (Cloud.self s) "/v1/user/login/id/get"
                           (login_id_body s) (next_nonce (after_build s))]).
  { unfold s2. cbn [Cloud.world Cloud.on_self]. unfold s1.
    by rewrite requests_after_request, requests_after_build. }
  rewrite login_tail_eq, Hself. split.
  - intros e ->. eexists _, _. split; [reflexivity |].
    split; [exact Hself |]. split; [exact Hreqs1 | reflexivity].
  - intros iampwd password r2 response2 mdata accessToken -> H2 Hok2 Hparse2
      Hmdata Htoken.
    assert (Hposted : posted s2 = S (posted s)).
    { trans (posted s1); [reflexivity |]. unfold s1.
      rewrite posted_after_request, posted_after_build. lia. }
    rewrite (login_exchange_answered iampwd password s2 r2 response2 mdata
               accessToken); try done.
    2: { intros req. rewrite Hposted. apply H2. }
    eexists _, _, _. split; [reflexivity |].
    split; [reflexivity |]. split.
    + cbn [Cloud.world Cloud.on_self].
      rewrite requests_after_request, requests_before_login_call, Hreqs1.
      rewrite <- app_assoc. reflexivity.
    + repeat split; reflexivity.
Qed.

End LoginSuccess.

(** A cloud whose replies are off the documented shape. *)
Module DemoOdd.

Definition odd_tokens_reply : pyval :=
  Demo.envelope 0 "ok"
    (PyDict {[ "tokenlist" :=
                 PyList [Demo.token_entry "dev0" "tk0" "ky0";
                         PyDict {[ "token" := PyStr "tk?" ]};
                         Demo.token_entry "dev1" "tk1" "ky1"] ]}).

Definition loads (s : string) : option pyval :=
  if String.eqb s "null" then Some (Demo.envelope 0 "ok" PyNone)
  else if String.eqb s "id5"
       then Some (Demo.envelope 0 "ok" (PyDict {[ "loginId" := PyInt 5 ]}))
  else if String.eqb s "odd" then Some odd_tokens_reply
  else Demo.loads s.

Definition env (script : list http_outcome) : CloudEnv :=
  {| now := now (CloudEnv := Demo.env script);
     token_hex := token_hex (CloudEnv := Demo.env script);
     token_urlsafe := token_urlsafe (CloudEnv := Demo.env script);
     json_dumps := json_dumps (CloudEnv := Demo.env script);
     json_loads := loads;
     int_of_str := int_of_str (CloudEnv := Demo.env script);
     new_sign := new_sign (CloudEnv := Demo.env script);
     encrypt_iam_password := encrypt_iam_password (CloudEnv := Demo.env script);
     encryptPassword := encryptPassword (CloudEnv := Demo.env script);
     post_outcome := post_outcome (CloudEnv := Demo.env script) |}.

End DemoOdd.

Lemma login_stores_what_the_server_sent_witness :
  (exists s' req1 req2,
     Cloud.login (H := Demo.env [Demo.ok "id"; Demo.ok "session"]) false Demo.fresh
     = (Return tt, s')
     /\ Cloud._login_id (Cloud.self s') = PyStr "L1"
     /\ Cloud._access_token (Cloud.self s') = PyStr "T1"
     /\ requests (trace (Cloud.world s')) = [req1; req2]
     /\ headers req2 !! "accessToken" = Some (PyStr ""))
  /\ (exists s' req1,
        Cloud.login (H := DemoOdd.env [Demo.ok "id5"; Demo.ok "session"]) false
          Demo.fresh
        = (Raise TypeError, s')
        /\ Cloud._login_id (Cloud.self s') = PyInt 5
        /\ Cloud._session (Cloud.self s') = Cloud._session (Cloud.self Demo.fresh)
        /\ requests (trace (Cloud.world s')) = [req1]).
Proof.
  split.
  - destruct (login_stores_what_the_server_sent
                (H := Demo.env [Demo.ok "id"; Demo.ok "session"]) false Demo.fresh
                {| status_error := false; text := "id" |}
                (PyDict {[ "loginId" := PyStr "L1" ]}) (PyStr "L1"))
      as [_ Hreturns];
      [ reflexivity | reflexivity | reflexivity | intros req; reflexivity
      | reflexivity | reflexivity | reflexivity | ].
    destruct (Hreturns "iam" "pwd"
                {| status_error := false; text := "session" |}
                (PyDict {[ "mdata" := PyDict {[ "accessToken" := PyStr "T1" ]} ]})
                (PyDict {[ "accessToken" := PyStr "T1" ]}) (PyStr "T1"))
      as (s' & req1 & req2 & E & Hself & Hreqs & _ & _ & _ & Htok);
      [ reflexivity | intros req; reflexivity
      | reflexivity | reflexivity | reflexivity | reflexivity | ].
    exists s', req1, req2. split; [exact E |].
    split; [by rewrite Hself |]. split; [by rewrite Hself |].
    split; [exact Hreqs | exact Htok].
  - destruct (login_stores_what_the_server_sent
                (H := DemoOdd.env [Demo.ok "id5"; Demo.ok "session"]) false
                Demo.fresh {| status_error := false; text := "id5" |}
                (PyDict {[ "loginId" := PyInt 5 ]}) (PyInt 5))
      as [Hraises _];
      [ reflexivity | reflexivity | reflexivity | intros req; reflexivity
      | reflexivity | reflexivity | reflexivity | ].
    destruct (Hraises TypeError eq_refl) as (s' & req1 & E & Hself & Hreqs & _).
    exists s', req1. split; [exact E |].
    split; [by rewrite Hself |]. split; [by rewrite Hself | exact Hreqs].
Defined.

(** ** More on tokens *)

Section TokenEdges.
Context `{CloudEnv}.

#[local] Arguments Cloud._api_request : simpl never.
#[local] Arguments Cloud._build_request_body : simpl never.

(** X10: [get_token] only reads the client: started between calls it makes
    one API call, of one to three POSTs of the same token request with the
    access token the client has at that moment (the empty string before any
    login: there is no check that a login took place), reads the clock once,
    draws two random values, and leaves every attribute of the client as it
    was, whatever the server answers. *)
Theorem get_token_only_reads udpid s :
  Cloud._api_lock (Cloud.self s) = false ->
  Cloud.self (Cloud.get_token udpid s).2 = Cloud.self s
  /\ ticks (Cloud.world (Cloud.get_token udpid s).2) = S (ticks (Cloud.world s))
  /\ draws (Cloud.world (Cloud.get_token udpid s).2)
     = S (S (draws (Cloud.world s)))
  /\ exists k req,
       (1 <= k <= 3)%nat
       /\ requests (trace (Cloud.world (Cloud.get_token udpid s).2))
          = requests (trace (Cloud.world s)) ++ repeat req k
       /\ url req = Cloud._base_url (Cloud.self s)
                    +:+ "/mas/v5/app/proxy?alias=" +:+ "/v1/iot/secure/getToken"
       /\ content req = json_dumps (token_body s udpid)
       /\ headers req !! "accessToken" = Some (Cloud._access_token (Cloud.self s)).
Proof.
  intros Hfree. destruct (get_token_state udpid s Hfree) as (k & Hk & ->).
  split; [done |]. split; [done |]. split; [done |].
  eexists k, _. split; [done |]. split.
  - by rewrite requests_after_request, requests_after_build.
  - repeat split; reflexivity.
Qed.

Lemma scan_missing_udpid udpid before entry after s :
  Forall (other_device udpid) before ->
  entry !! "udpId" = None ->
  Cloud.scan_tokenlist (before ++ PyDict entry :: after) udpid s
  = (Raise (KeyError "udpId"), s).
Proof.
  intros Hbefore Hid.
  induction Hbefore as [|token rest (e & u & -> & Hu & Hne) _ IH]; simpl.
  - unfold bind, lift. simpl. by rewrite Hid.
  - unfold bind, lift. simpl. by rewrite Hu, Hne.
Qed.

Lemma scan_missing_secret udpid before entry after s :
  Forall (other_device udpid) before ->
  entry !! "udpId" = Some (PyStr udpid) ->
  Cloud.scan_tokenlist (before ++ PyDict entry :: after) udpid s
  = match entry !! "token", entry !! "key" with
    | None, _ => (Raise (KeyError "token"), s)
    | Some _, None => (Raise (KeyError "key"), s)
    | Some tk, Some key => (Return (tk, key), s)
    end.
Proof.
  intros Hbefore Hid.
  induction Hbefore as [|token rest (e & u & -> & Hu & Hne) _ IH]; simpl.
  - unfold bind, lift. simpl. rewrite Hid. simpl. rewrite String.eqb_refl. simpl.
    destruct (entry !! "token"); simpl; [| done]. by destruct (entry !! "key").
  - unfold bind, lift. simpl. by rewrite Hu, Hne.
Qed.

(** X11: what [get_token] does with a reply that is off the expected shape,
    once the token call has returned: a [null] payload fails the assertion;
    a payload without [tokenlist] raises [KeyError]; the scan stops with
    [KeyError] at the first entry without [udpId], even when an entry for
    the device follows, and at a matching entry that lacks [token] or
    [key]. In each case the client is left as the token call left it. *)
Theorem get_token_malformed_replies udpid s s' response :
  token_call udpid s = (Return response, s') ->
  (response = PyNone ->
   Cloud.get_token udpid s = (Raise AssertionError, s'))
  /\ (forall d,
        response = PyDict d -> d !! "tokenlist" = None ->
        Cloud.get_token udpid s = (Raise (KeyError "tokenlist"), s'))
  /\ (forall d before entry after,
        response = PyDict d ->
        d !! "tokenlist" = Some (PyList (before ++ PyDict entry :: after)) ->
        Forall (other_device udpid) before ->
        (entry !! "udpId" = None ->
         Cloud.get_token udpid s = (Raise (KeyError "udpId"), s'))
        /\ (entry !! "udpId" = Some (PyStr udpid) ->
            entry !! "token" = None ->
            Cloud.get_token udpid s = (Raise (KeyError "token"), s'))
        /\ (entry !! "udpId" = Some (PyStr udpid) ->
            is_Some (entry !! "token") ->
            entry !! "key" = None ->
            Cloud.get_token udpid s = (Raise (KeyError "key"), s'))).
Proof.
  intros Hcall. rewrite get_token_unfold, (bind_eq_return _ _ _ _ _ Hcall).
  split; [| split].
  - by intros ->.
  - intros d -> Hlist. unfold bind, lift. simpl. by rewrite Hlist.
  - intros d before entry after -> Hlist Hbefore.
    unfold bind at 1. simpl. unfold bind at 1, lift at 1. simpl. rewrite Hlist.
    simpl. unfold bind at 1, lift at 1. simpl. split; [| split].
    + intros Hid. by apply scan_missing_udpid.
    + intros Hid Htk.
      pose proof (scan_missing_secret udpid before entry after s' Hbefore Hid)
        as Hscan.
      rewrite Htk in Hscan. exact Hscan.
    + intros Hid [tk Htk] Hkey.
      pose proof (scan_missing_secret udpid before entry after s' Hbefore Hid)
        as Hscan.
      rewrite Htk, Hkey in Hscan. exact Hscan.
Qed.

End TokenEdges.

Lemma get_token_only_reads_witness :
  Cloud.self (Cloud.get_token (H := Demo.env [Demo.ok "denied"]) "dev1"
                Demo.logged_in).2
  = Cloud.self Demo.logged_in.
Proof.
  by destruct (get_token_only_reads (H := Demo.env [Demo.ok "denied"]) "dev1"
                 Demo.logged_in eq_refl) as [-> _].
Defined.

Lemma get_token_malformed_replies_witness :
  Cloud.get_token (H := DemoOdd.env [Demo.ok "null"]) "dev1" Demo.logged_in
  = (Raise AssertionError,
     (token_call (H := DemoOdd.env [Demo.ok "null"]) "dev1" Demo.logged_in).2)
  /\ Cloud.get_token (H := DemoOdd.env [Demo.ok "id"]) "dev1" Demo.logged_in
     = (Raise (KeyError "tokenlist"),
        (token_call (H := DemoOdd.env [Demo.ok "id"]) "dev1" Demo.logged_in).2)
  /\ Cloud.get_token (H := DemoOdd.env [Demo.ok "odd"]) "dev1" Demo.logged_in
     = (Raise (KeyError "udpId"),
        (token_call (H := DemoOdd.env [Demo.ok "odd"]) "dev1" Demo.logged_in).2).
Proof.
  split; [| split].
  - destruct (get_token_malformed_replies (H := DemoOdd.env [Demo.ok "null"])
                "dev1" Demo.logged_in
                (token_call (H := DemoOdd.env [Demo.ok "null"]) "dev1"
                   Demo.logged_in).2 PyNone) as (Hnull & _).
    + vm_compute. reflexivity.
    + by apply Hnull.
  - destruct (get_token_malformed_replies (H := DemoOdd.env [Demo.ok "id"])
                "dev1" Demo.logged_in
                (token_call (H := DemoOdd.env [Demo.ok "id"]) "dev1"
                   Demo.logged_in).2 (PyDict {[ "loginId" := PyStr "L1" ]}))
      as (_ & Hnolist & _).
    + vm_compute. reflexivity.
    + by apply (Hnolist {[ "loginId" := PyStr "L1" ]}).
  - pose (tokens := [Demo.token_entry "dev0" "tk0" "ky0";
                     PyDict {[ "token" := PyStr "tk?" ]};
                     Demo.token_entry "dev1" "tk1" "ky1"]).
    destruct (get_token_malformed_replies (H := DemoOdd.env [Demo.ok "odd"])
                "dev1" Demo.logged_in
                (token_call (H := DemoOdd.env [Demo.ok "odd"]) "dev1"
                   Demo.logged_in).2 (PyDict {[ "tokenlist" := PyList tokens ]}))
      as (_ & _ & Hentry).
    + vm_compute. reflexivity.
    + destruct (Hentry {[ "tokenlist" := PyList tokens ]}
                  [Demo.token_entry "dev0" "tk0" "ky0"]
                  {[ "token" := PyStr "tk?" ]}
                  [Demo.token_entry "dev1" "tk1" "ky1"]) as (Hnoid & _);
        [reflexivity | reflexivity | | by apply Hnoid].
      apply Forall_cons_2; [| apply Forall_nil_2].
      eexists _, _. split; [reflexivity |]. split; reflexivity.
Defined.

(** * Further properties of the heat pump *)

(** ** How far a state update gets *)

(** The attributes [_update_state] assigns before the loop over the zones
    asks for the temperature type of zone 1. *)
Definition early_attributes : list string :=
  ["_run_mode"; "_heat_enable"; "_cool_enable"; "_zone2_enable"; "_zone_1"].

(** No command was sent, and no attribute outside [names] changed. *)
Definition touches_only (names : list string) (s s' : HeatPump.state) : Prop :=
  HeatPump.sends s' = HeatPump.sends s
  /\ forall name, name ∉ names ->
       HeatPump.self s' !! name = HeatPump.self s !! name.

(** A step that returns or raises. *)
Definition runs (names : list string) {A} (m : M HeatPump.state A) : Prop :=
  forall s, exists r s',
    m s = (r, s') /\ r <> Blocked /\ touches_only names s s'.

(** A step that raises. *)
Definition fails (names : list string) {A} (m : M HeatPump.state A) : Prop :=
  forall s, exists e s', m s = (Raise e, s') /\ touches_only names s s'.

Lemma touches_only_refl names s : touches_only names s s.
Proof. by split. Qed.

Lemma touches_only_trans names s1 s2 s3 :
  touches_only names s1 s2 -> touches_only names s2 s3 ->
  touches_only names s1 s3.
Proof.
  intros [Hn1 H1] [Hn2 H2]. split; [congruence |].
  intros name Hname. by rewrite H2, H1.
Qed.

Lemma touches_only_weaken names names' s s' :
  names ⊆ names' -> touches_only names s s' -> touches_only names' s s'.
Proof.
  intros Hsub [Hn Hs]. split; [done |].
  intros name Hname. apply Hs. intros Hin. by apply Hname, Hsub.
Qed.

Lemma fails_bind names {A B} (m : M HeatPump.state A)
    (k : A -> M HeatPump.state B) :
  fails names m -> fails names (bind m k).
Proof.
  intros Hm s. destruct (Hm s) as (e & s' & E & Hs).
  exists e, s'. unfold bind. by rewrite E.
Qed.

Lemma runs_bind_fails names {A B} (m : M HeatPump.state A)
    (k : A -> M HeatPump.state B) :
  runs names m -> (forall a, fails names (k a)) -> fails names (bind m k).
Proof.
  intros Hm Hk s. destruct (Hm s) as (r & s1 & E & Hr & Hs).
  unfold bind. rewrite E. destruct r as [a|e|]; [| by exists e, s1 | done].
  destruct (Hk a s1) as (e & s2 & E2 & Hs2).
  exists e, s2. split; [done |]. by eapply touches_only_trans.
Qed.

Lemma runs_bind names {A B} (m : M HeatPump.state A)
    (k : A -> M HeatPump.state B) :
  runs names m -> (forall a, runs names (k a)) -> runs names (bind m k).
Proof.
  intros Hm Hk s. destruct (Hm s) as (r & s1 & E & Hr & Hs).
  unfold bind. rewrite E.
  destruct r as [a|e|]; [| by exists (Raise e), s1 | done].
  destruct (Hk a s1) as (r2 & s2 & E2 & Hr2 & Hs2).
  exists r2, s2. split; [done |]. split; [done |].
  by eapply touches_only_trans.
Qed.

Lemma runs_lift names {A} (r : result A) :
  r <> Blocked -> runs names (lift (S := HeatPump.state) r).
Proof. intros Hr s. exists r, s. by split; [| split; [| apply touches_only_refl]]. Qed.

Lemma getattr_not_blocked res name : HeatPump.getattr res name <> Blocked.
Proof. unfold HeatPump.getattr. by destruct (fields res !! name). Qed.

Lemma RunMode_of_not_blocked v : HeatPump.RunMode_of v <> Blocked.
Proof.
  unfold HeatPump.RunMode_of.
  by destruct (integral v) as [[|[[|[]|]|[|[]|]|]|]|].
Qed.

Lemma runs_setattr names name v :
  name ∈ names -> runs names (HeatPump.setattr name v).
Proof.
  intros Hin s. eexists (Return tt), _. split; [reflexivity |].
  split; [done |]. split; [done |].
  intros other Hother. simpl. apply lookup_insert_ne. by intros ->.
Qed.

Lemma runs_getattr_self names name : runs names (HeatPump.getattr_self name).
Proof.
  intros s. unfold HeatPump.getattr_self.
  destruct (HeatPump.self s !! name) as [v|];
    eexists _, s; (split; [reflexivity |]); by split; [| apply touches_only_refl].
Qed.

Lemma runs_raise names {A} e : runs names (raise (S := HeatPump.state) (A := A) e).
Proof.
  intros s. exists (Raise e), s. by split; [| split; [| apply touches_only_refl]].
Qed.

Lemma runs_zone_setattr names zone name v :
  zone ∈ names -> runs names (HeatPump.zone_setattr zone name v).
Proof.
  intros Hin. apply runs_bind; [apply runs_getattr_self |].
  intros []; try apply runs_raise. by apply runs_setattr.
Qed.

Lemma runs_copy names res dst src :
  dst ∈ names -> runs names (HeatPump.copy res dst src).
Proof.
  intros Hin. apply runs_bind; [apply runs_lift, getattr_not_blocked |].
  intros v. by apply runs_setattr.
Qed.

Lemma runs_zone_copy names res zone i dst src :
  zone ∈ names -> runs names (HeatPump.zone_copy res zone i dst src).
Proof.
  intros Hin. apply runs_bind; [apply runs_lift, getattr_not_blocked |].
  intros v. by apply runs_zone_setattr.
Qed.

Lemma update_zone_1_fails res :
  fields res !! "zone1_temp_type)" = None ->
  fails early_attributes (HeatPump.update_zone res 1 "_zone_1").
Proof.
  intros Hmissing. unfold HeatPump.update_zone.
  do 2 (apply runs_bind_fails;
        [apply runs_zone_copy; unfold early_attributes; set_solver | intros _]).
  do 2 apply fails_bind. rewrite temp_type_attribute.
  intros s. exists (AttributeError "zone1_temp_type)"), s.
  unfold lift, HeatPump.getattr. rewrite Hmissing.
  by split; [| apply touches_only_refl].
Qed.

Lemma update_state_fails res :
  fields res !! "zone1_temp_type)" = None ->
  fails early_attributes (HeatPump._update_state res).
Proof.
  intros Hmissing. unfold HeatPump._update_state.
  apply runs_bind_fails; [| intros _].
  { apply runs_bind; [apply runs_lift, getattr_not_blocked | intros v].
    apply runs_bind; [apply runs_lift, RunMode_of_not_blocked | intros m].
    apply runs_setattr. unfold early_attributes. set_solver. }
  do 3 (apply runs_bind_fails;
        [apply runs_copy; unfold early_attributes; set_solver | intros _]).
  do 2 (apply runs_bind_fails; [apply runs_getattr_self | intros _]).
  by apply fails_bind, update_zone_1_fails.
Qed.

(** X12: no response gets through [_update_state]. The loop over the zones
    asks the response for an attribute whose name ends in a closing
    parenthesis; for every response without an attribute of that name the
    update raises, whatever the fields hold and whatever state the device
    is in, and by then it has assigned at most the run mode, the three
    enable flags and attributes of zone 1: zone 2, the hot water, the room
    thermostat, the misc flags and the tank temperature are never
    updated. *)
Theorem update_state_always_raises res s :
  fields res !! "zone1_temp_type)" = None ->
  exists e s',
    HeatPump._update_state res s = (Raise e, s')
    /\ HeatPump.sends s' = HeatPump.sends s
    /\ forall name, name ∉ early_attributes ->
         HeatPump.self s' !! name = HeatPump.self s !! name.
Proof.
  intros Hmissing.
  destruct (update_state_fails res Hmissing s) as (e & s' & E & Hn & Hs).
  by exists e, s'.
Qed.

Lemma update_state_always_raises_witness :
  exists e s',
    HeatPump._update_state DemoLan.basic_response DemoLan.seen = (Raise e, s')
    /\ HeatPump.self s' !! "_tank_temperature"
       = HeatPump.self DemoLan.seen !! "_tank_temperature".
Proof.
  assert (Hmissing : fields DemoLan.basic_response !! "zone1_temp_type)" = None)
    by (vm_compute; reflexivity).
  destruct (update_state_always_raises DemoLan.basic_response DemoLan.seen
              Hmissing) as (e & s' & E & _ & Hkept).
  exists e, s'. split; [exact E |].
  apply Hkept. unfold early_attributes. intros Hin.
  repeat (apply elem_of_cons in Hin as [Hin|Hin]; [discriminate |]).
  by apply elem_of_nil in Hin.
Defined.

(** ** Every outcome of a refresh *)

(** A transport whose decoder can also fail in another way than with an
    invalid frame. *)
Module DemoLanOdd.

Definition construct (data : list Z) : result Response :=
  match data with
  | 9 :: _ => Raise ValueError
  | _ => DemoLan.construct data
  end.

Definition env (reply : option (list (list Z))) : LanEnv :=
  {| Device_init := Device_init (LanEnv := DemoLan.env reply);
     Device_send_command := fun _ _ => reply;
     Response_construct := construct |}.

End DemoLanOdd.

Section RefreshOutcomes.
Context `{LanEnv}.

Lemma send_none command s :
  Device_send_command (HeatPump.sends s) command = None ->
  HeatPump._send_command_get_responses command s
  = (Return [],
     {| HeatPump.self := <["_online" := PyBool false]> (HeatPump.self s);
        HeatPump.sends := S (HeatPump.sends s) |}).
Proof.
  intros Hsend.
  unfold HeatPump._send_command_get_responses, bind, HeatPump.super_send_command.
  by rewrite Hsend.
Qed.

Lemma send_some command s datagrams :
  Device_send_command (HeatPump.sends s) command = Some datagrams ->
  Forall decodes_or_invalid datagrams ->
  HeatPump._send_command_get_responses command s
  = (Return (decoded datagrams),
     {| HeatPump.self :=
          mark_supported (decoded datagrams)
            (<["_online" := PyBool true]> (HeatPump.self s));
        HeatPump.sends := S (HeatPump.sends s) |}).
Proof.
  intros Hsend Hall.
  unfold HeatPump._send_command_get_responses, bind, HeatPump.super_send_command.
  rewrite Hsend. simpl. by rewrite collect_responses_spec.
Qed.

Lemma mark_supported_other valid_responses attrs name :
  name <> "_supported" ->
  mark_supported valid_responses attrs !! name = attrs !! name.
Proof.
  intros Hname. destruct valid_responses; simpl; [done |].
  by rewrite lookup_insert_ne.
Qed.

Lemma process_all_raises responses : forall s,
  Forall (fun r => fields r !! "zone1_temp_type)" = None) responses ->
  Exists (fun r => type r = QueryType_value QUERY_BASIC) responses ->
  exists e s',
    HeatPump.process_all responses s = (Raise e, s')
    /\ touches_only early_attributes s s'.
Proof.
  induction responses as [|r rest IH]; intros s Hmissing Hbasic.
  - inversion Hbasic.
  - inversion Hmissing as [|? ? Hr Hrest]; subst. simpl. unfold bind.
    destruct (decide (type r = QueryType_value QUERY_BASIC)) as [Hb|Hnb].
    + unfold HeatPump._process_state_response.
      rewrite (proj2 (Z.eqb_eq _ _) Hb).
      destruct (update_state_fails r Hr s) as (e & s' & -> & Hs).
      by exists e, s'.
    + rewrite other_response_ignored by done.
      apply IH; [done |]. by inversion Hbasic.
Qed.

(** X13: the outcomes of [refresh]. Without an answer it returns with the
    device marked offline. With answers, each decoded or rejected as an
    invalid frame, it returns exactly when no decoded response is a basic
    one, and then nothing but [_online] and [_supported] has changed; as
    soon as a basic response is among them it raises, having changed no
    attribute besides those two, the run mode, the three enable flags and
    zone 1. So no refresh that returns has updated the state, and one
    command is sent either way. *)
Theorem refresh_outcomes s :
  (Device_send_command (HeatPump.sends s) QueryBasicCommand = None ->
   HeatPump.refresh s
   = (Return tt,
      {| HeatPump.self := <["_online" := PyBool false]> (HeatPump.self s);
         HeatPump.sends := S (HeatPump.sends s) |}))
  /\ (forall datagrams,
        Device_send_command (HeatPump.sends s) QueryBasicCommand
        = Some datagrams ->
        Forall decodes_or_invalid datagrams ->
        Forall (fun r => fields r !! "zone1_temp_type)" = None)
          (decoded datagrams) ->
        (Forall (fun r => type r <> QueryType_value QUERY_BASIC)
           (decoded datagrams) ->
         HeatPump.refresh s
         = (Return tt,
            {| HeatPump.self :=
                 mark_supported (decoded datagrams)
                   (<["_online" := PyBool true]> (HeatPump.self s));
               HeatPump.sends := S (HeatPump.sends s) |}))
        /\ (Exists (fun r => type r = QueryType_value QUERY_BASIC)
              (decoded datagrams) ->
            exists e s',
              HeatPump.refresh s = (Raise e, s')
              /\ HeatPump.sends s' = S (HeatPump.sends s)
              /\ forall name,
                   name ∉ "_online" :: "_supported" :: early_attributes ->
                   HeatPump.self s' !! name = HeatPump.self s !! name)).
Proof.
  split.
  - intros Hsend. unfold HeatPump.refresh.
    by rewrite (bind_eq_return _ _ _ _ _ (send_none _ s Hsend)).
  - intros datagrams Hsend Hall Hmissing. unfold HeatPump.refresh.
    rewrite (bind_eq_return _ _ _ _ _ (send_some _ s datagrams Hsend Hall)).
    split.
    + intros Hothers. by rewrite process_all_others.
    + intros Hbasic.
      destruct (process_all_raises (decoded datagrams)
                  {| HeatPump.self :=
                       mark_supported (decoded datagrams)
                         (<["_online" := PyBool true]> (HeatPump.self s));
                     HeatPump.sends := S (HeatPump.sends s) |}
                  Hmissing Hbasic) as (e & s' & E & Hn & Hs).
      exists e, s'. split; [done |]. split; [done |].
      intros name Hname.
      apply not_elem_of_cons in Hname as [Honline Hname].
      apply not_elem_of_cons in Hname as [Hsupported Hname].
      rewrite (Hs name Hname). simpl.
      rewrite mark_supported_other by done. by rewrite lookup_insert_ne.
Qed.

Lemma collect_responses_stops before data after e : forall s,
  Forall decodes_or_invalid before ->
  Response_construct data = Raise e ->
  e <> InvalidFrameException ->
  HeatPump.collect_responses (before ++ data :: after) s
  = (Raise e,
     {| HeatPump.self := mark_supported (decoded before) (HeatPump.self s);
        HeatPump.sends := HeatPump.sends s |}).
Proof.
  intros s Hbefore Hdata He. revert s.
  induction Hbefore as [|first rest [[response Hfirst]|Hfirst] _ IH];
    intros [attrs n].
  - simpl. unfold bind, try_except, lift. rewrite Hdata.
    by destruct e.
  - rewrite decoded_cons, Hfirst. simpl.
    unfold bind, try_except, lift, ret. rewrite Hfirst. simpl.
    rewrite IH. simpl.
    destruct (decoded rest); simpl; [done | by rewrite insert_insert_eq].
  - rewrite decoded_cons, Hfirst. simpl.
    unfold bind, try_except, lift, ret. rewrite Hfirst. simpl.
    by rewrite IH.
Qed.

(** X14: only [InvalidFrameException] is skipped. When decoding a reply
    raises anything else, the send raises that exception; the replies
    after it are not looked at, the device is already marked online, and
    [_supported] is set if a reply before it decoded. *)
Theorem send_raises_other_decoder_errors command s before data after e :
  Device_send_command (HeatPump.sends s) command
  = Some (before ++ data :: after) ->
  Forall decodes_or_invalid before ->
  Response_construct data = Raise e ->
  e <> InvalidFrameException ->
  HeatPump._send_command_get_responses command s
  = (Raise e,
     {| HeatPump.self :=
          mark_supported (decoded before)
            (<["_online" := PyBool true]> (HeatPump.self s));
        HeatPump.sends := S (HeatPump.sends s) |}).
Proof.
  intros Hsend Hbefore Hdata He.
  unfold HeatPump._send_command_get_responses, bind, HeatPump.super_send_command.
  rewrite Hsend. simpl. by rewrite (collect_responses_stops before data after e).
Qed.

End RefreshOutcomes.

Lemma refresh_outcomes_witness :
  HeatPump.refresh (H := DemoLan.env (Some [[7]; [0]])) DemoLan.start
  = (Return tt,
     {| HeatPump.self :=
          <["_supported" := PyBool true]>
            (<["_online" := PyBool true]> DemoLan.device);
        HeatPump.sends := 1 |})
  /\ exists e s',
       HeatPump.refresh (H := DemoLan.env (Some [[7]; [1; 3]])) DemoLan.start
       = (Raise e, s')
       /\ HeatPump.self s' !! "_tank_temperature"
          = HeatPump.self DemoLan.start !! "_tank_temperature".
Proof.
  assert (Hmissing : forall r,
            r = DemoLan.eco_response \/ r = DemoLan.basic_response ->
            fields r !! "zone1_temp_type)" = None)
    by (intros r [-> | ->]; vm_compute; reflexivity).
  split.
  - destruct (refresh_outcomes (H := DemoLan.env (Some [[7]; [0]]))
                DemoLan.start) as [_ Hsome].
    destruct (Hsome [[7]; [0]] eq_refl) as [Hreturns _].
    + apply Forall_cons_2; [left; by eexists |].
      apply Forall_cons_2; [by right | apply Forall_nil_2].
    + apply Forall_cons_2; [apply Hmissing; by left | apply Forall_nil_2].
    + apply Hreturns.
      apply Forall_cons_2; [discriminate | apply Forall_nil_2].
  - destruct (refresh_outcomes (H := DemoLan.env (Some [[7]; [1; 3]]))
                DemoLan.start) as [_ Hsome].
    destruct (Hsome [[7]; [1; 3]] eq_refl) as [_ Hraises].
    + apply Forall_cons_2; [left; by eexists |].
      apply Forall_cons_2; [left; by eexists | apply Forall_nil_2].
    + apply Forall_cons_2; [apply Hmissing; by left |].
      apply Forall_cons_2; [apply Hmissing; by right | apply Forall_nil_2].
    + destruct Hraises as (e & s' & E & _ & Hkept).
      * apply Exists_cons_tl, Exists_cons_hd. reflexivity.
      * exists e, s'. split; [exact E |]. apply Hkept.
        unfold early_attributes. intros Hin.
        repeat (apply elem_of_cons in Hin as [Hin|Hin]; [discriminate |]).
        by apply elem_of_nil in Hin.
Defined.

Lemma send_raises_other_decoder_errors_witness :
  HeatPump._send_command_get_responses
    (H := DemoLanOdd.env (Some [[7]; [9]; [1; 3]])) QueryBasicCommand
    DemoLan.start
  = (Raise ValueError,
     {| HeatPump.self :=
          <["_supported" := PyBool true]>
            (<["_online" := PyBool true]> DemoLan.device);
        HeatPump.sends := 1 |}).
Proof.
  apply (send_raises_other_decoder_errors
           (H := DemoLanOdd.env (Some [[7]; [9]; [1; 3]]))
           QueryBasicCommand DemoLan.start [[7]] [9] [[1; 3]] ValueError).
  - reflexivity.
  - apply Forall_cons_2; [left; by eexists | apply Forall_nil_2].
  - reflexivity.
  - discriminate.
Defined.

(** * Properties of the command line *)

(** A network with one device that answers broadcasts of every account but
    [nobody], and no device that answers at a given address. *)
Module DemoCli.

Definition env : Cli.Env :=
  {| Cli.OPEN_MIDEA_APP_ACCOUNT := "open@account";
     Cli.OPEN_MIDEA_APP_PASSWORD := "open-password";
     Cli.Discover_discover := fun account _ _ =>
       if String.eqb account "nobody" then [] else [PyStr "device 1"];
     Cli.Discover_discover_single := fun _ _ _ _ => PyNone |}.

End DemoCli.

Section Discovery.
Context `{Cli.Env}.

(** The calls of [Discover] among the actions. *)
Definition discover_calls (actions : list Cli.action) : list Cli.action :=
  List.filter (fun a => match a with Cli.Log _ => false | _ => true end) actions.

Lemma find_devices_one_call ip count account password :
  discover_calls (Cli.find_devices ip count account password).1
  = (Cli.find_devices ip count account password).1.
Proof.
  unfold Cli.find_devices.
  destruct ip as [ip|]; [destruct (String.eqb ip "") |]; reflexivity.
Qed.

Lemma discover_calls_app l1 l2 :
  discover_calls (l1 ++ l2) = discover_calls l1 ++ discover_calls l2.
Proof. apply List.filter_app. Qed.

Lemma discover_calls_found devices :
  discover_calls (map (fun device => Cli.Log (Cli.InfoFoundDevice device)) devices)
  = [].
Proof. induction devices as [|d rest IH]; [done |]. exact IH. Qed.

(** X15: the China server guard of [_discover]. The coroutine leaves
    through [exit(1)] exactly when [china] is set and the account or the
    password is still the built-in one, and then it has logged the error
    and made no call of [Discover]. In every other case it runs to its end
    after exactly one discovery call, and does the same as without
    [china]: the flag is not passed on to the discovery. *)
Theorem discover_china_guard ip count account password china :
  let run := Cli._discover ip count account password china in
  let builtin := account = Cli.OPEN_MIDEA_APP_ACCOUNT
                 \/ password = Cli.OPEN_MIDEA_APP_PASSWORD in
  (run.2 = Cli.Exited 1 <-> china = true /\ builtin)
  /\ (run.2 = Cli.Exited 1 ->
      run.1 = [Cli.Log Cli.InfoVersion; Cli.Log Cli.InfoOnlySupportsAC;
               Cli.Log Cli.ErrorChinaCredentials])
  /\ (run.2 <> Cli.Exited 1 ->
      run = Cli._discover ip count account password false
      /\ run.2 = Cli.Finished
      /\ discover_calls run.1
         = (Cli.find_devices ip count account password).1
      /\ length (discover_calls run.1) = 1%nat).
Proof.
  intros run builtin. subst run builtin. unfold Cli._discover.
  destruct china; simpl.
  - destruct (String.eqb_spec account Cli.OPEN_MIDEA_APP_ACCOUNT) as [Ha|Ha];
      [| destruct (String.eqb_spec password Cli.OPEN_MIDEA_APP_PASSWORD)
           as [Hp|Hp]]; simpl.
    + split; [split; [by auto | done] |]. split; [done |]. by intros [].
    + split; [split; [by auto | done] |]. split; [done |]. by intros [].
    + destruct (Cli.find_devices ip count account password)
        as [calls devices] eqn:Efind. simpl.
      split; [split; [done | by intros [_ [|]]] |]. split; [done |].
      intros _. split; [done |]. split; [done |].
      rewrite !discover_calls_app, discover_calls_found, app_nil_r.
      pose proof (find_devices_one_call ip count account password) as Hcalls.
      rewrite Efind in Hcalls. simpl in Hcalls.
      assert (Hno : discover_calls
                      (if Nat.eqb (length devices) 0
                       then [Cli.Log Cli.ErrorNoDevices] else []) = [])
        by (by destruct (Nat.eqb (length devices) 0)).
      rewrite Hno, app_nil_r, Hcalls. split; [done |].
      unfold Cli.find_devices in Efind.
      destruct ip as [ip|]; [destruct (String.eqb ip "") |];
        by injection Efind as <- _.
  - destruct (Cli.find_devices ip count account password)
      as [calls devices] eqn:Efind. simpl.
    split; [split; [done | by intros [? _]] |]. split; [done |].
    intros _. split; [done |]. split; [done |].
    rewrite !discover_calls_app, discover_calls_found, app_nil_r.
    pose proof (find_devices_one_call ip count account password) as Hcalls.
    rewrite Efind in Hcalls. simpl in Hcalls.
    assert (Hno : discover_calls
                    (if Nat.eqb (length devices) 0
                     then [Cli.Log Cli.ErrorNoDevices] else []) = [])
      by (by destruct (Nat.eqb (length devices) 0)).
    rewrite Hno, app_nil_r, Hcalls. split; [done |].
    unfold Cli.find_devices in Efind.
    destruct ip as [ip|]; [destruct (String.eqb ip "") |];
      by injection Efind as <- _.
Qed.

(** X16: when [_discover] runs to its end it logs that no devices were
    found exactly when it searched by broadcast (no address, or an empty
    one) and the broadcast found nothing. A search at an address never logs
    it: when nothing answers there, the one line logged is a found device
    that is [None]. *)
Theorem discover_reports_no_devices ip count account password china :
  let run := Cli._discover ip count account password china in
  run.2 = Cli.Finished ->
  (Cli.Log Cli.ErrorNoDevices ∈ run.1
   <-> (ip = None \/ ip = Some "")
       /\ Cli.Discover_discover account password count = [])
  /\ (forall address,
        ip = Some address -> address <> "" ->
        run.1 = [Cli.Log Cli.InfoVersion; Cli.Log Cli.InfoOnlySupportsAC;
                 Cli.DiscoverSingle address account password count;
                 Cli.Log (Cli.InfoFoundDevice
                            (Cli.Discover_discover_single address account
                               password count))]).
Proof.
  intros run. subst run. unfold Cli._discover.
  destruct (china && _); [discriminate |]. intros _.
  assert (Hfound : forall devices,
            ~ Cli.Log Cli.ErrorNoDevices
              ∈ map (fun device => Cli.Log (Cli.InfoFoundDevice device)) devices).
  { intros devices Hin. apply list_elem_of_In, in_map_iff in Hin.
    by destruct Hin as (? & ? & _). }
  unfold Cli.find_devices.
  destruct ip as [address|]; [destruct (String.eqb_spec address "") as [->|Hne] |];
    simpl.
  - split; [| by intros ? [= <-]].
    destruct (Cli.Discover_discover account password count) as [|d rest]; simpl.
    + split; [by auto |]. intros _. set_solver.
    + split; [| by intros [_ ?]]. intros Hin.
      do 3 (apply elem_of_cons in Hin as [Hin|Hin]; [discriminate |]).
      apply elem_of_cons in Hin as [Hin|Hin]; [discriminate |].
      by apply Hfound in Hin.
  - split; [| by intros ? [= <-]].
    split; [| by intros [[|[= ->]] _]]. intros Hin.
    do 4 (apply elem_of_cons in Hin as [Hin|Hin]; [discriminate |]).
    by apply elem_of_nil in Hin.
  - split; [| by intros ? [=]].
    destruct (Cli.Discover_discover account password count) as [|d rest]; simpl.
    + split; [by auto |]. intros _. set_solver.
    + split; [| by intros [_ ?]]. intros Hin.
      do 3 (apply elem_of_cons in Hin as [Hin|Hin]; [discriminate |]).
      apply elem_of_cons in Hin as [Hin|Hin]; [discriminate |].
      by apply Hfound in Hin.
Qed.

End Discovery.

Lemma discover_reports_no_devices_witness :
  Cli.Log Cli.ErrorNoDevices
  ∈ (Cli._discover (H := DemoCli.env) (Some "") 3 "nobody" "secret" true).1
  /\ (Cli._discover (H := DemoCli.env) (Some "10.0.0.7") 3 "nobody" "secret"
        false).1
     = [Cli.Log Cli.InfoVersion; Cli.Log Cli.InfoOnlySupportsAC;
        Cli.DiscoverSingle "10.0.0.7" "nobody" "secret" 3;
        Cli.Log (Cli.InfoFoundDevice PyNone)].
Proof.
  split.
  - destruct (discover_reports_no_devices (H := DemoCli.env) (Some "") 3
                "nobody" "secret" true eq_refl) as [Hlogged _].
    apply Hlogged. split; [by right | reflexivity].
  - destruct (discover_reports_no_devices (H := DemoCli.env) (Some "10.0.0.7")
                3 "nobody" "secret" false eq_refl) as [_ Hsingle].
    by apply (Hsingle "10.0.0.7").
Defined.

(** * Properties of the query commands *)

(** X17: the payload of a query command never fails to build: it is the
    one byte holding the value of the command's query type, between 1 and
    9, and commands of different query types have different payloads. *)
Theorem query_payload_names_the_type (type : QueryType) :
  QueryCommand_payload type = Return [QueryType_value type]
  /\ 1 <= QueryType_value type <= 9
  /\ forall other,
       QueryCommand_payload other = QueryCommand_payload type -> other = type.
Proof.
  split; [by destruct type |]. split; [destruct type; simpl; lia |].
  intros other. by destruct type, other.
Qed.
